(** * project-generator: the browser client (static/script.js) and the
      generation pipeline it talks to.

    The first half embeds [static/script.js]: the DOM it touches is an
    explicit store of elements, the handlers are state-passing programs
    that may throw, and the two platform functions the script relies on
    ([String.prototype.split] and [encodeURIComponent]) are written out
    over UTF-16 code units.  The second half models the server-side
    pipeline (decompose, validate, refine, materialize, drive). *)

From stdpp Require Import base tactics option list strings gmap.
From Stdlib Require Import ZArith Lia.

(** ** JavaScript strings and the two built-ins used by the script *)

Module JS.

Local Open Scope Z_scope.

(** A JavaScript string is a sequence of 16-bit code units. *)
Definition jsstring := list Z.

Definition is_code_unit (c : Z) : Prop := 0 <= c < 65536.
Definition is_jsstring (s : jsstring) : Prop := Forall is_code_unit s.

(** A literal of the script: every character is one code unit. *)
Fixpoint lit (s : string) : jsstring :=
  match s with
  | EmptyString => []
  | String a s' => Z.of_N (Ascii.N_of_ascii a) :: lit s'
  end.

Definition slash : Z := 47.
Definition percent : Z := 37.

(** [s.split(sep)] for a one-unit separator: the pieces between the
    separators, in order; never the empty array. *)
Fixpoint split (sep : Z) (s : jsstring) : list jsstring :=
  match s with
  | [] => [[]]
  | c :: s' =>
      if decide (c = sep) then [] :: split sep s'
      else match split sep s' with
           | seg :: segs => (c :: seg) :: segs
           | [] => [[c]]
           end
  end.

(** [a.pop()] returns the last element, [undefined] on an empty array. *)
Definition pop {A} (a : list A) : option A := last a.

(** [file.split('/').pop()].  [split] never returns the empty array
    ([split_not_nil] below), so the [undefined] case does not arise. *)
Definition basename (file : jsstring) : jsstring :=
  default [] (pop (split slash file)).

(** *** encodeURIComponent (ECMA-262, Encode with no extra unescaped set) *)

(** ASCII letters, digits and [- _ . ! ~ * ' ( )] are copied. *)
Definition unescaped (c : Z) : bool :=
  ((65 <=? c) && (c <=? 90)) || ((97 <=? c) && (c <=? 122))
  || ((48 <=? c) && (c <=? 57))
  || bool_decide (c ∈ [45; 95; 46; 33; 126; 42; 39; 40; 41]).

Definition is_leading_surrogate (c : Z) : bool := (0xD800 <=? c) && (c <=? 0xDBFF).
Definition is_trailing_surrogate (c : Z) : bool := (0xDC00 <=? c) && (c <=? 0xDFFF).

Definition UTF16SurrogatePairToCodePoint (lead trail : Z) : Z :=
  (lead - 0xD800) * 0x400 + (trail - 0xDC00) + 0x10000.

(** The UTF-8 octets of a code point. *)
Definition utf8 (cp : Z) : list Z :=
  if cp <? 0x80 then [cp]
  else if cp <? 0x800 then
    [Z.lor 0xC0 (Z.shiftr cp 6); Z.lor 0x80 (Z.land cp 0x3F)]
  else if cp <? 0x10000 then
    [Z.lor 0xE0 (Z.shiftr cp 12);
     Z.lor 0x80 (Z.land (Z.shiftr cp 6) 0x3F);
     Z.lor 0x80 (Z.land cp 0x3F)]
  else
    [Z.lor 0xF0 (Z.shiftr cp 18);
     Z.lor 0x80 (Z.land (Z.shiftr cp 12) 0x3F);
     Z.lor 0x80 (Z.land (Z.shiftr cp 6) 0x3F);
     Z.lor 0x80 (Z.land cp 0x3F)].

(** One upper-case hexadecimal digit. *)
Definition hexdigit (n : Z) : Z := if n <? 10 then 48 + n else 55 + n.

(** ["%" + two upper-case hex digits] for one octet. *)
Definition escape_octet (b : Z) : jsstring :=
  [percent; hexdigit (b / 16); hexdigit (b mod 16)].

Definition escape_code_point (cp : Z) : jsstring :=
  concat (map escape_octet (utf8 cp)).

(** [None] stands for the URIError thrown on an unpaired surrogate. *)
Fixpoint encodeURIComponent (s : jsstring) : option jsstring :=
  match s with
  | [] => Some []
  | c :: rest =>
      if unescaped c then (c ::.) <$> encodeURIComponent rest
      else if is_trailing_surrogate c then None
      else if is_leading_surrogate c then
        match rest with
        | d :: rest' =>
            if is_trailing_surrogate d then
              (escape_code_point (UTF16SurrogatePairToCodePoint c d) ++.)
                <$> encodeURIComponent rest'
            else None
        | [] => None
        end
      else (escape_code_point c ++.) <$> encodeURIComponent rest
  end.

(** [String.prototype.isWellFormed]: no unpaired surrogate. *)
Fixpoint isWellFormed (s : jsstring) : bool :=
  match s with
  | [] => true
  | c :: rest =>
      if is_trailing_surrogate c then false
      else if is_leading_surrogate c then
        match rest with
        | d :: rest' => is_trailing_surrogate d && isWellFormed rest'
        | [] => false
        end
      else isWellFormed rest
  end.

End JS.

(** ** JSON bodies *)

Module Json.
Import JS.

#[local] Set Warnings "-register-all".

(** The value [response.json()] resolves to.  A boolean or a number is
    kept as [JPrim] with the text [ToString] gives for it (["true"],
    ["12.5"]): the script never looks at it in another way. *)
Inductive json :=
  | JNull
  | JPrim (text : jsstring)
  | JStr (s : jsstring)
  | JArr (items : list json)
  | JObj (fields : list (jsstring * json)).

(** A JavaScript value the script holds: [None] is [undefined]. *)
Definition jsval := option json.

(** An own property of a parsed object: JSON.parse keeps the last of
    several members with one name. *)
Fixpoint own_property (fields : list (jsstring * json)) (k : jsstring) : jsval :=
  match fields with
  | [] => None
  | (k', v) :: rest =>
      match own_property rest k with
      | Some w => Some w
      | None => if decide (k' = k) then Some v else None
      end
  end.

(** ECMAScript ToString on a parsed JSON value; [None] is the TypeError
    of an object whose own ["toString"] member hides the inherited
    method.  Arrays go through [join(",")], where null prints empty. *)
Fixpoint ToString (v : json) : option jsstring :=
  match v with
  | JNull => Some (lit "null")
  | JPrim t => Some t
  | JStr s => Some s
  | JArr items =>
      let element (x : json) : option jsstring :=
        match x with JNull => Some [] | _ => ToString x end in
      (fix join (xs : list json) : option jsstring :=
         match xs with
         | [] => Some []
         | [x] => element x
         | x :: xs' =>
             match element x, join xs' with
             | Some a, Some b => Some (a ++ lit "," ++ b)
             | _, _ => None
             end
         end) items
  | JObj fields =>
      match own_property fields (lit "toString") with
      | Some _ => None
      | None => Some (lit "[object Object]")
      end
  end.

End Json.

(** ** The page and the script *)

Module Script.
Import JS Json.

Inductive exn :=
  | TypeError       (* a property read or a call on null/undefined/non-function *)
  | URIError        (* encodeURIComponent on an unpaired surrogate *)
  | FetchRejected   (* the promise of fetch rejects *)
  | NotOk           (* new Error('Network response was not ok') *)
  | SyntaxError.    (* response.json() on a body that is not JSON *)

(** Nodes the script creates and appends, and the text node that a
    [textContent] assignment leaves. *)
Inductive Node :=
  | Text (data : jsstring)
  | Li (textContent : jsstring)
  | Anchor (href textContent download : jsstring).

(** An element of index.html as far as the script can see it.  The
    store lists the elements in document order; nesting of these
    elements in one another is not represented, [el_children] holds the
    child nodes the script manages. *)
Record Element := mkElement {
  el_id : option string;
  el_classList : list string;
  el_dataset_tab : option string;
  el_children : list Node }.

Record Page := mkPage {
  elements : list Element;
  output_pre : option nat;     (* what querySelector('#output pre') finds *)
  alerts : list string;        (* messages shown by alert(), oldest first *)
  console : list exn }.        (* what console.error logged *)

(** *** Programs over the page that may throw *)

Inductive result (A : Type) :=
  | Ok (a : A)
  | Throw (e : exn).
Arguments Ok {A} a.
Arguments Throw {A} e.

Definition M (A : Type) : Type := Page -> Page * result A.

Definition ret {A} (a : A) : M A := fun pg => (pg, Ok a).
Definition throw {A} (e : exn) : M A := fun pg => (pg, Throw e).
Definition bind {A B} (m : M A) (k : A -> M B) : M B :=
  fun pg => match m pg with
            | (pg', Ok a) => k a pg'
            | (pg', Throw e) => (pg', Throw e)
            end.
Definition try_catch (m : M unit) (handler : exn -> M unit) : M unit :=
  fun pg => match m pg with
            | (pg', Ok a) => (pg', Ok a)
            | (pg', Throw e) => handler e pg'
            end.

Notation "'let*' x := m 'in' k" := (bind m (fun x => k))
  (at level 10, x name, m at level 100, k at level 200).
Notation "m >> k" := (bind m (fun _ => k))
  (at level 65, right associativity).

(** [a.forEach(f)]: the calls in order, up to the first one that throws. *)
Fixpoint forEach {A} (a : list A) (f : A -> M unit) : M unit :=
  match a with
  | [] => ret tt
  | x :: a' => f x >> forEach a' f
  end.

(** *** DOM primitives *)

(** An empty id attribute gives the element no id. *)
Definition has_id (i : string) (e : Element) : bool :=
  bool_decide (i ≠ "" ∧ el_id e = Some i).
Definition has_class (c : string) (e : Element) : bool :=
  bool_decide (c ∈ el_classList e).

(** Position of the first element that satisfies [p], counting from [n]. *)
Fixpoint find_from (p : Element -> bool) (es : list Element) (n : nat) : option nat :=
  match es with
  | [] => None
  | e :: es' => if p e then Some n else find_from p es' (S n)
  end.

(** Positions of all elements that satisfy [p], counting from [n]. *)
Fixpoint select_from (p : Element -> bool) (es : list Element) (n : nat) : list nat :=
  match es with
  | [] => []
  | e :: es' => if p e then n :: select_from p es' (S n) else select_from p es' (S n)
  end.

(** [document.getElementById(i)]: the first element in document order. *)
Definition getElementById (pg : Page) (i : string) : option nat :=
  find_from (has_id i) (elements pg) 0.

(** [document.querySelectorAll('.' + c)]: a static list, document order. *)
Definition querySelectorAll_class (pg : Page) (c : string) : list nat :=
  select_from (has_class c) (elements pg) 0.

(** [classList.add] and [classList.remove] on the token list. *)
Definition classList_add (tok : string) (cl : list string) : list string :=
  if decide (tok ∈ cl) then cl else cl ++ [tok].
Definition classList_remove (tok : string) (cl : list string) : list string :=
  filter (fun t => t ≠ tok) cl.

Definition with_classList (f : list string -> list string) (e : Element) : Element :=
  mkElement (el_id e) (f (el_classList e)) (el_dataset_tab e) (el_children e).
Definition with_children (f : list Node -> list Node) (e : Element) : Element :=
  mkElement (el_id e) (el_classList e) (el_dataset_tab e) (f (el_children e)).

(** A member access through a reference: TypeError when it is null. *)
Definition update (r : option nat) (f : Element -> Element) : M unit :=
  fun pg =>
    match r with
    | Some i =>
        match elements pg !! i with
        | Some e =>
            (mkPage (<[i := f e]> (elements pg)) (output_pre pg) (alerts pg) (console pg),
             Ok tt)
        | None => (pg, Throw TypeError)
        end
    | None => (pg, Throw TypeError)
    end.

Definition classList_add_on (r : option nat) (tok : string) : M unit :=
  update r (with_classList (classList_add tok)).
Definition classList_remove_on (r : option nat) (tok : string) : M unit :=
  update r (with_classList (classList_remove tok)).

(** [r.innerHTML = ''] *)
Definition clear_innerHTML (r : option nat) : M unit :=
  update r (with_children (fun _ => [])).
(** [r.appendChild(n)] *)
Definition appendChild (r : option nat) (n : Node) : M unit :=
  update r (with_children (fun ns => ns ++ [n])).

(** [r.textContent = v]: the children are replaced by one text node, by
    none for the empty string; null and undefined count as empty. *)
Definition set_textContent (r : option nat) (v : jsval) : M unit :=
  let* s := (match v with
             | None | Some JNull => ret []
             | Some w => match ToString w with
                         | Some s => ret s
                         | None => throw TypeError
                         end
             end) in
  update r (with_children (fun _ => match s with [] => [] | _ => [Text s] end)).

Definition alert (msg : string) : M unit :=
  fun pg => (mkPage (elements pg) (output_pre pg) (alerts pg ++ [msg]) (console pg), Ok tt).
Definition console_error (e : exn) : M unit :=
  fun pg => (mkPage (elements pg) (output_pre pg) (alerts pg) (console pg ++ [e]), Ok tt).

(** The text a node shows, and [r.textContent] read back. *)
Definition node_text (n : Node) : jsstring :=
  match n with
  | Text d => d
  | Li t => t
  | Anchor _ t _ => t
  end.
Definition textContent_of (e : Element) : jsstring :=
  concat (map node_text (el_children e)).

(** *** script.js, lines 2-9: the references the closure holds *)

Record Env := mkEnv {
  form : option nat;
  loadingDiv : option nat;
  resultDiv : option nat;
  outputPre : option nat;
  fileList : option nat;
  downloadLinks : option nat;
  tabButtons : list nat;
  tabContents : list nat }.

Definition DOMContentLoaded (pg : Page) : Env :=
  {| form := getElementById pg "projectForm";
     loadingDiv := getElementById pg "loading";
     resultDiv := getElementById pg "result";
     outputPre := output_pre pg;
     fileList := getElementById pg "fileList";
     downloadLinks := getElementById pg "downloadLinks";
     tabButtons := querySelectorAll_class pg "tab-btn";
     tabContents := querySelectorAll_class pg "tab-content" |}.

(** The references that lines 2-4, 6 and 7 find by id, each with the
    id it was looked up under. *)
Definition found_by_id (env : Env) : list (string * option nat) :=
  [ ("projectForm", form env); ("loading", loadingDiv env); ("result", resultDiv env);
    ("fileList", fileList env); ("downloadLinks", downloadLinks env) ].

(** *** Reading the parsed body *)

(** [data.k] for one of the three names the script reads; none of them
    is defined on a built-in prototype, so only an object has it. *)
Definition get_field (data : json) (k : string) : M jsval :=
  match data with
  | JNull => throw TypeError
  | JObj fields => ret (own_property fields (lit k))
  | _ => ret None
  end.

(** [v.forEach(...)] needs an array: no other parsed value has a
    callable [forEach]. *)
Definition as_array (v : jsval) : M (list json) :=
  match v with
  | Some (JArr items) => ret items
  | _ => throw TypeError
  end.

(** [file.split('/').pop()] needs a string: no other parsed value has a
    callable [split]. *)
Definition split_pop (file : jsval) : M jsstring :=
  match file with
  | Some (JStr s) => ret (basename s)
  | _ => throw TypeError
  end.

(** The template literal [`/download/${encodeURIComponent(file)}`]:
    the argument goes through ToString first. *)
Definition download_href (file : jsval) : M jsstring :=
  let* s := (match file with
             | None => ret (lit "undefined")
             | Some v => match ToString v with
                         | Some s => ret s
                         | None => throw TypeError
                         end
             end) in
  match encodeURIComponent s with
  | Some e => ret (lit "/download/" ++ e)
  | None => throw URIError
  end.

(** [label || rhs]: the right operand is evaluated only when the label
    is undefined or the empty string. *)
Definition or_else (label : option jsstring) (rhs : M jsstring) : M jsstring :=
  match label with
  | Some (c :: l) => ret (c :: l)
  | Some [] | None => rhs
  end.

(** *** script.js, lines 63-69 *)
Definition addDownloadLink (env : Env) (file : jsval) (label : option jsstring) : M unit :=
  let* href := download_href file in
  let* text := or_else label (split_pop file) in
  let* download := split_pop file in
  appendChild (downloadLinks env) (Anchor href text download).

(** *** script.js, lines 78-84 *)

(** [button.dataset.tab], read through a reference that may be
    undefined ([tabButtons[0]] of an empty list). *)
Definition dataset_tab_of (button : option nat) : M (option string) :=
  fun pg => match button ≫= (fun i => elements pg !! i) with
            | Some e => (pg, Ok (el_dataset_tab e))
            | None => (pg, Throw TypeError)
            end.

(** The id [getElementById] is called with: ToString of the attribute. *)
Definition id_argument (tab : option string) : string := default "undefined" tab.

Definition lookup_id (i : string) : M (option nat) :=
  fun pg => (pg, Ok (getElementById pg i)).

Definition activateTab (env : Env) (button : option nat) : M unit :=
  forEach (tabButtons env) (fun btn => classList_remove_on (Some btn) "active") >>
  forEach (tabContents env) (fun content => classList_remove_on (Some content) "active") >>
  classList_add_on button "active" >>
  let* tab := dataset_tab_of button in
  let* target := lookup_id (id_argument tab) in
  classList_add_on target "active".

(** *** script.js, lines 11-61: the submit handler *)

(** How the request of one submission ends. *)
Inductive fetch_outcome :=
  | Rejected                                   (* fetch throws *)
  | Response (ok : bool) (body : option json). (* [None]: the body is not JSON *)

(** Lines 17-18, before the request is sent. *)
Definition submit_begin (env : Env) : M unit :=
  classList_remove_on (loadingDiv env) "hidden" >>
  classList_add_on (resultDiv env) "hidden".

(** Line 33: the output pane. *)
Definition show_output (env : Env) (data : json) : M unit :=
  let* refined_output := get_field data "refined_output" in
  set_textContent (outputPre env) refined_output.

(** Lines 36-41: the file list. *)
Definition list_files (env : Env) (data : json) : M unit :=
  clear_innerHTML (fileList env) >>
  let* created_files := get_field data "created_files" in
  let* files := as_array created_files in
  forEach files (fun file =>
    let* name := split_pop (Some file) in
    appendChild (fileList env) (Li name)).

(** Lines 44-48: the download links. *)
Definition list_downloads (env : Env) (data : json) : M unit :=
  clear_innerHTML (downloadLinks env) >>
  let* created_files := get_field data "created_files" in
  let* files := as_array created_files in
  forEach files (fun file => addDownloadLink env (Some file) None) >>
  let* log_file := get_field data "log_file" in
  addDownloadLink env log_file (Some (lit "Log File")).

(** Lines 33-48, once the body is parsed: the three panes are filled. *)
Definition populate (env : Env) (data : json) : M unit :=
  show_output env data >>
  list_files env data >>
  list_downloads env data.

(** Lines 51-52: show the result, hide the spinner. *)
Definition reveal (env : Env) : M unit :=
  classList_remove_on (resultDiv env) "hidden" >>
  classList_add_on (loadingDiv env) "hidden".

(** Lines 33-55. *)
Definition display (env : Env) (data : json) : M unit :=
  populate env data >>
  reveal env >>
  activateTab env (tabButtons env !! 0%nat).

(** Lines 21-55: the body of the [try]. *)
Definition attempt (env : Env) (net : fetch_outcome) : M unit :=
  match net with
  | Rejected => throw FetchRejected
  | Response ok body =>
      if negb ok then throw NotOk
      else match body with
           | None => throw SyntaxError
           | Some data => display env data
           end
  end.

(** Lines 56-60: the [catch]. *)
Definition on_error (env : Env) (error : exn) : M unit :=
  console_error error >>
  alert "An error occurred. Please try again." >>
  classList_add_on (loadingDiv env) "hidden".

(** Lines 20-60: what the handler does once its request has ended.
    The handler is [async]: it runs lines 12-18, is suspended at
    [await fetch] (line 21) and, for an ok response, at
    [await response.json()] (line 30), and touches the page again only
    after the last of them, in one block: the rest of the [try] for a
    parsed body, the [catch] otherwise. *)
Definition settle (env : Env) (net : fetch_outcome) : M unit :=
  try_catch (attempt env net) (on_error env).

(** One submission during which no other handler runs: the two blocks
    one after the other.  While a submission is suspended the page is
    open to other handlers; see [run] below. *)
Definition submit (env : Env) (net : fetch_outcome) : M unit :=
  submit_begin env >> settle env net.

(** Line 74: a click on a tab button. *)
Definition click (env : Env) (button : nat) : M unit :=
  activateTab env (Some button).

(** *** Handlers one after another *)

(** The blocks of handler code that run on the page, each without
    interruption: the start of a submission (lines 12-18), the rest of
    a submission whose request has ended (lines 20-60), and a click on
    a tab button (line 74). *)
Inductive step :=
  | Begin
  | Settle (net : fetch_outcome)
  | Click (button : nat).

Definition run_step (env : Env) (s : step) : M unit :=
  match s with
  | Begin => submit_begin env
  | Settle net => settle env net
  | Click button => click env button
  end.

(** The page after the blocks of [steps] ran in this order.  An
    exception that leaves a handler ends that handler only; the page
    stays as the handler left it and later handlers run. *)
Definition run (env : Env) (steps : list step) (pg : Page) : Page :=
  foldl (fun pg s => (run_step env s pg).1) pg steps.

(** The block may reach line 51, which shows the result section: the
    rest of a submission whose response was ok and parsed. *)
Definition may_reveal (s : step) : bool :=
  match s with
  | Settle (Response true (Some _)) => true
  | _ => false
  end.

(** *** What the properties below look at *)

Definition classes_at (pg : Page) (i : nat) : list string :=
  from_option el_classList [] (elements pg !! i).
Definition children_at (pg : Page) (r : option nat) : list Node :=
  from_option el_children [] (r ≫= (fun i => elements pg !! i)).
Definition text_at (pg : Page) (r : option nat) : jsstring :=
  from_option textContent_of [] (r ≫= (fun i => elements pg !! i)).
Definition is_active (pg : Page) (i : nat) : bool :=
  bool_decide ("active" ∈ classes_at pg i).
Definition is_hidden (pg : Page) (r : option nat) : bool :=
  match r with
  | Some i => bool_decide ("hidden" ∈ classes_at pg i)
  | None => false
  end.

(** The page after [f] is applied to element [i]. *)
Definition page_alter (i : nat) (f : Element -> Element) (pg : Page) : Page :=
  mkPage (alter f i (elements pg)) (output_pre pg) (alerts pg) (console pg).

(** [f] at position [i], the identity elsewhere. *)
Definition only_at {A} (i : nat) (f : A -> A) (j : nat) : A -> A :=
  if decide (j = i) then f else id.

(** What [activateTab] does to the class list of element [j], for the
    button [b] and the element [t] its data-tab names. *)
Definition tab_classes (env : Env) (b t j : nat) (cl : list string) : list string :=
  only_at t (classList_add "active") j
    (only_at b (classList_add "active") j
       ((if decide (j ∈ tabContents env) then classList_remove "active" else id)
          ((if decide (j ∈ tabButtons env) then classList_remove "active" else id) cl))).

(** The page after the class list of every element [j] went through [g j]. *)
Definition map_classes (g : nat -> list string -> list string) (pg : Page) : Page :=
  mkPage (imap (fun j => with_classList (g j)) (elements pg))
         (output_pre pg) (alerts pg) (console pg).

(** What no statement of the script changes: ids and data-tab
    attributes, element by element. *)
Definition skeleton (pg : Page) : list (option string * option string) :=
  (fun e => (el_id e, el_dataset_tab e)) <$> elements pg.

(** [pg'] differs from [pg] at most in class lists, messages and the
    children of the elements in [D]. *)
Definition frame (D : nat -> Prop) (pg pg' : Page) : Prop :=
  skeleton pg' = skeleton pg
  ∧ ∀ j, ¬ D j → children_at pg' (Some j) = children_at pg (Some j).

(** Whatever [m] does, thrown or not, stays within [R]. *)
Definition stable {A} (R : Page -> Page -> Prop) (m : M A) : Prop :=
  ∀ pg, R pg (m pg).1.

(** One submission that reaches the end of the [try] block. *)
Definition succeeds (env : Env) (net : fetch_outcome) (pg pg' : Page) : Prop :=
  ∃ pg1, submit_begin env pg = (pg1, Ok tt) ∧ attempt env net pg1 = (pg', Ok tt).

(** The body follows the contract
    [{refined_output: string, created_files: [path, ...], log_file: path}];
    further members are allowed. *)
Definition has_shape (data : json) (refined_output : jsstring)
    (created_files : list jsstring) (log_file : jsstring) : Prop :=
  ∃ fields, data = JObj fields
    ∧ own_property fields (lit "refined_output") = Some (JStr refined_output)
    ∧ own_property fields (lit "created_files") = Some (JArr (map JStr created_files))
    ∧ own_property fields (lit "log_file") = Some (JStr log_file).

(** [n] is the download link of [file], shown as [text]. *)
Definition is_link (text : jsstring) (file : jsstring) (n : Node) : Prop :=
  ∃ e, encodeURIComponent file = Some e
       ∧ n = Anchor (lit "/download/" ++ e) text (basename file).

(** The three ways a request fails. *)
Definition request_failed (net : fetch_outcome) : Prop :=
  net = Rejected ∨ (∃ body, net = Response false body) ∨ net = Response true None.

(** The containers the handler fills are three different elements. *)
Definition containers_ok (env : Env) (pg : Page) : bool :=
  match outputPre env, fileList env, downloadLinks env with
  | Some o, Some f, Some d =>
      bool_decide (o < length (elements pg) ∧ f < length (elements pg)
                   ∧ d < length (elements pg) ∧ o ≠ f ∧ o ≠ d ∧ f ≠ d)
  | _, _, _ => false
  end.

(** The loading indicator and the result section exist. *)
Definition indicators_ok (env : Env) (pg : Page) : bool :=
  match loadingDiv env, resultDiv env with
  | Some l, Some r =>
      bool_decide (l < length (elements pg) ∧ r < length (elements pg))
  | _, _ => false
  end.

(** The element a tab button points to. *)
Definition target_of (pg : Page) (b : nat) : option nat :=
  match elements pg !! b with
  | Some e => getElementById pg (id_argument (el_dataset_tab e))
  | None => None
  end.

(** A tab button names the id of a tab content and is not one itself. *)
Definition tab_button_ok (env : Env) (pg : Page) (b : nat) : bool :=
  bool_decide (b < length (elements pg) ∧ (b ∉ tabContents env))
  && match target_of pg b with
     | Some t => bool_decide (t ∈ tabContents env)
     | None => false
     end.

(** The tabs of the page: buttons and contents are different elements,
    and every button names the id of a content. *)
Definition tabs_ok (env : Env) (pg : Page) : bool :=
  bool_decide (NoDup (tabButtons env)) && bool_decide (NoDup (tabContents env))
  && forallb (tab_button_ok env pg) (tabButtons env)
  && forallb (fun c => bool_decide (c < length (elements pg))) (tabContents env).

(** A page like index.html: the form, the two indicators, the output
    pane, the two lists, and three tabs (Output, Files, Downloads). *)
Definition index_html : Page :=
  let el i cl tab := mkElement i cl tab [] in
  {| elements :=
       [ el (Some "projectForm") [] None;
         el (Some "loading") ["hidden"] None;
         el (Some "result") ["hidden"] None;
         el None ["tab-btn"; "active"] (Some "output");
         el None ["tab-btn"] (Some "files");
         el None ["tab-btn"] (Some "downloads");
         el (Some "output") ["tab-content"; "active"] None;
         el None [] None;
         el (Some "files") ["tab-content"] None;
         el (Some "fileList") [] None;
         el (Some "downloads") ["tab-content"] None;
         el (Some "downloadLinks") [] None ];
     output_pre := Some 7%nat;
     alerts := [];
     console := [] |}.

(** A body that follows the contract, with one more member. *)
Definition example_body : json :=
  JObj [ (lit "refined_output", JStr (lit "A calculator."));
         (lit "created_files", JArr [JStr (lit "out/calc.py"); JStr (lit "out/read me.md")]);
         (lit "log_file", JStr (lit "out/log.md"));
         (lit "elapsed", JPrim (lit "12.5")) ].

(** Bodies of the contract's shape with a path that holds the lone
    trailing surrogate U+DC80. *)
Definition body_with_odd_log : json :=
  JObj [ (lit "refined_output", JStr (lit "ok"));
         (lit "created_files", JArr []);
         (lit "log_file", JStr (lit "out/" ++ [0xDC80%Z])) ].

Definition body_with_odd_file : json :=
  JObj [ (lit "refined_output", JStr (lit "ok"));
         (lit "created_files", JArr [JStr (lit "out/" ++ [0xDC80%Z])]);
         (lit "log_file", JStr (lit "out/log.md")) ].

(** [pg'] differs from [pg] at most in the children of elements, in
    the class tokens listed in [toks] and, when [loud], in the
    messages shown and logged. *)
Definition within (toks : list string) (loud : bool) (pg pg' : Page) : Prop :=
  skeleton pg' = skeleton pg
  ∧ output_pre pg' = output_pre pg
  ∧ (loud = false → alerts pg' = alerts pg ∧ console pg' = console pg)
  ∧ ∀ j tok, tok ∉ toks → (tok ∈ classes_at pg' j ↔ tok ∈ classes_at pg j).

(** What [activateTab] does to the class list of element [j] when the
    data-tab of button [b] names no element: the last statement is
    never reached. *)
Definition tab_classes_dangling (env : Env) (b j : nat) (cl : list string) : list string :=
  only_at b (classList_add "active") j
    ((if decide (j ∈ tabContents env) then classList_remove "active" else id)
       ((if decide (j ∈ tabButtons env) then classList_remove "active" else id) cl)).

(** The tab lists hold valid references, each once. *)
Definition tab_lists_ok (env : Env) (pg : Page) : bool :=
  bool_decide (NoDup (tabButtons env))
  && forallb (fun b => bool_decide (b < length (elements pg))) (tabButtons env)
  && forallb (fun c => bool_decide (c < length (elements pg))) (tabContents env).

(** The page of [index_html] without its tab buttons. *)
Definition page_without_tabs : Page :=
  mkPage (filter (fun e => "tab-btn" ∉ el_classList e) (elements index_html))
         (Some 4%nat) [] [].

(** The page of [index_html] with the second tab button pointing to
    an id that no element has. *)
Definition page_with_dangling_tab : Page :=
  mkPage (<[4%nat := mkElement None ["tab-btn"] (Some "nowhere") []]> (elements index_html))
         (output_pre index_html) [] [].


(** A body whose [created_files] is missing, and one with a number in
    the list. *)
Definition body_without_files : json :=
  JObj [ (lit "refined_output", JStr (lit "ok")); (lit "log_file", JStr (lit "out/log.md")) ].

Definition body_with_number : json :=
  JObj [ (lit "refined_output", JStr (lit "ok"));
         (lit "created_files",
          JArr [JStr (lit "out/a.py"); JPrim (lit "7"); JStr (lit "out/b.py")]);
         (lit "log_file", JStr (lit "out/log.md")) ].

End Script.

(** ** The generation pipeline *)

(** Of the repository only the browser client is at hand; main.py and
    app.py, which hold the pipeline, are missing.  Every definition of
    this module is therefore written from the design text (sections 3,
    4, 6 and 7), one definition per component. *)

Module Pipeline.

(** *** Data model (section 3) *)

(** Modelled from the spec: the Objective of section 3 (main.py is
    missing): the text and the web-search flag. *)
Record Objective := mkObjective {
  objective_text : string;
  web_search : bool }.

(** Modelled from the spec: the SubTask of section 3 (main.py is
    missing). *)
Record SubTask := mkSubTask {
  st_id : nat;
  st_title : string;
  st_description : string;
  st_path : option string;
  st_language : option string }.

(** Modelled from the spec: a file entry (path, language, content) of
    section 3 (main.py is missing); an untitled artifact has the empty
    path. *)
Record FileEntry := mkFileEntry {
  fe_path : string;
  fe_language : string;
  fe_content : string }.

(** Modelled from the spec: the validation status of section 3
    (main.py is missing). *)
Inductive Status := passed | failed | skipped_no_validator.

(** Modelled from the spec: the GenerationResult of section 3 (main.py
    is missing). *)
Record GenerationResult := mkGenerationResult {
  gr_subtask : nat;
  gr_raw : string;
  gr_entries : list FileEntry;
  gr_status : Status;
  gr_attempts : nat }.

(** Modelled from the spec: the RefinedOutput of section 3 (main.py is
    missing); that paths are unique is the invariant of that section,
    not part of the type. *)
Record RefinedOutput := mkRefinedOutput {
  ro_narrative : string;
  ro_files : list FileEntry }.

(** Modelled from the spec: one record of the RunLog of section 3
    (main.py is missing). *)
Record StageRecord := mkStageRecord {
  sr_stage : string;
  sr_input : string;
  sr_output : string;
  sr_error : option string }.

(** Modelled from the spec: the RunLog of section 3 (main.py is
    missing): append-only, the position of a record is its sequence
    number. *)
Definition RunLog := list StageRecord.


#[global] Instance FileEntry_eq_dec : EqDecision FileEntry.
Proof. solve_decision. Defined.
#[global] Instance Status_eq_dec : EqDecision Status.
Proof. solve_decision. Defined.

(** *** Collaborators and configuration (sections 4.5 and 6) *)

(** Modelled from the spec: the two kinds of failure of the model
    client, section 6 (main.py is missing). *)
Inductive ClientFailure := Transient | Permanent.

(** Modelled from the spec: what a Validator returns, section 4.2
    (main.py is missing). *)
Inductive Verdict := ok | error (diagnostic : string).

(** Modelled from the spec: a Validator, a pure function of the
    content, section 4.3 (main.py is missing). *)
Definition Validator := string -> Verdict.

(** Modelled from the spec: what the pipeline is given, sections 4.5
    and 6 (main.py is missing): the model client, the search client,
    the parsers of the model's output, the registry, and the
    configured bounds. *)
Record Deps := mkDeps {
  (* complete(prompt, options); the number is the attempt it answers *)
  complete : string -> nat -> ClientFailure + string;
  (* search(query): titles, snippets and urls, or nothing *)
  search : string -> option (list (string * string * string));
  (* the fixed delimiter grammar of the three kinds of model output *)
  parse_subtasks : string -> option (list SubTask);
  extract_entries : string -> list FileEntry;
  parse_refinement : string -> option (string * list FileEntry);
  registry : gmap string Validator;
  serialize : RunLog -> string;
  max_attempts : nat;      (* N of the shared retry policy *)
  max_subtasks : nat;      (* the configured maximum of section 4.1 *)
  attempt_budget : nat;    (* validation retries of the Executor *)
  base_dir : string;
  log_name : string }.

(** Modelled from the spec: the error taxonomy of section 7 (main.py
    is missing). *)
Inductive Error :=
  | DecompositionError
  | ExecutionFailure
  | RefinementError
  | IOError.

(** *** Shared retry policy (section 4.5) *)

(** Modelled from the spec: how one attempt of a stage ends, section
    4.5 (main.py is missing). *)
Inductive Attempt (A : Type) :=
  | Success (a : A)
  | Retryable
  | NonRetryable.
Arguments Success {A} a.
Arguments Retryable {A}.
Arguments NonRetryable {A}.

(** Modelled from the spec: the bounded-attempt loop of section 4.5,
    missing with main.py.  Up to [n] attempts from attempt number [k];
    a retryable failure tries again, a non-retryable one stops at once. *)
Fixpoint retry {A} (n k : nat) (step : nat -> Attempt A) : option A :=
  match n with
  | 0 => None
  | S n' =>
      match step k with
      | Success a => Some a
      | Retryable => retry n' (S k) step
      | NonRetryable => None
      end
  end.

(** Modelled from the spec: a stage appends its record to the RunLog,
    section 3 (main.py is missing). *)
Definition log_stage (stage input output : string) (err : option string)
    (log : RunLog) : RunLog :=
  log ++ [mkStageRecord stage input output err].

(** *** 4.1 Objective Decomposer *)

(** Modelled from the spec: the optional web-search augmentation of
    the prompt, sections 4.1 and 6 (main.py is missing); no result, no
    augmentation. *)
Definition augment (d : Deps) (obj : Objective) : string :=
  if web_search obj then
    match search d (objective_text obj) with
    | Some hits =>
        objective_text obj
        +:+ String.concat "" (map (fun h => h.1.1 +:+ h.1.2 +:+ h.2) hits)
    | None => objective_text obj
    end
  else objective_text obj.

(** Modelled from the spec: one decomposition attempt, section 4.1
    (main.py is missing): an empty, malformed or unparseable answer
    counts as a failure that is tried again. *)
Definition decompose_step (d : Deps) (prompt : string) (k : nat)
    : Attempt (list SubTask) :=
  match complete d prompt k with
  | inl Transient => Retryable
  | inl Permanent => NonRetryable
  | inr text =>
      match parse_subtasks d text with
      | Some (t :: ts) => Success (t :: ts)
      | Some [] | None => Retryable
      end
  end.

(** Modelled from the spec: [decompose] of section 4.1, missing with
    main.py.  The answer is kept up to the configured maximum, and a
    truncation is logged. *)
Definition decompose (d : Deps) (obj : Objective) (log : RunLog)
    : (Error + list SubTask) * RunLog :=
  let prompt := "decompose: " +:+ augment d obj in
  match retry (max_attempts d) 0 (decompose_step d prompt) with
  | None =>
      (inl DecompositionError,
       log_stage "decompose" prompt "" (Some "DecompositionError") log)
  | Some tasks =>
      let kept := take (max_subtasks d) tasks in
      let log1 := log_stage "decompose" prompt "subtasks" None log in
      (inr kept,
       if decide (length kept < length tasks)
       then log_stage "decompose" prompt "truncated" None log1
       else log1)
  end.

(** *** 4.3 Validator Registry *)



(** Modelled from the spec: the pass/fail outcome of a verdict,
    section 4.2 (main.py is missing). *)
Definition pass (v : Verdict) : bool :=
  match v with
  | ok => true
  | error _ => false
  end.

(** *** 4.2 Task Executor *)






(** *** 4.4 Refiner *)


(** Modelled from the spec: the file entries of a collection of
    GenerationResults, in order, section 4.4 (main.py is missing). *)
Definition entries_of (gs : list GenerationResult) : list FileEntry :=
  concat (map gr_entries gs).


(** Modelled from the spec: the failed flag of section 4.4 (main.py is
    missing): an entry is flagged when it is the content of a failed
    GenerationResult. *)
Definition flagged_failed (gs : list GenerationResult) (e : FileEntry) : bool :=
  bool_decide (e ∈ entries_of (filter (fun g => gr_status g = failed) gs)).

(** Modelled from the spec: one step of the collision rule (a) of
    section 4.4 (main.py is missing): a later version replaces the
    kept one of the same path, unless the later one is flagged failed
    and the kept one is not. *)
Fixpoint merge_candidate (kept : list (FileEntry * bool)) (c : FileEntry * bool)
    : list (FileEntry * bool) :=
  match kept with
  | [] => [c]
  | old :: kept' =>
      if decide (fe_path old.1 = fe_path c.1) then
        (if c.2 && negb old.2 then old else c) :: kept'
      else old :: merge_candidate kept' c
  end.

(** Modelled from the spec: the collision rule (a) of section 4.4,
    missing with main.py. *)
Definition resolve_collisions (candidates : list (FileEntry * bool)) : list FileEntry :=
  map fst (foldl merge_candidate [] candidates).

(** Modelled from the spec: one refinement attempt, section 4.4
    (main.py is missing). *)
Definition refine_step (d : Deps) (prompt : string) (k : nat)
    : Attempt (string * list FileEntry) :=
  match complete d prompt k with
  | inl Transient => Retryable
  | inl Permanent => NonRetryable
  | inr text =>
      match parse_refinement d text with
      | Some out => Success out
      | None => Retryable
      end
  end.

(** Modelled from the spec: [refine] of section 4.4, missing with
    main.py.  The model's file entries, in the order it gives them, go
    through the collision rule. *)
Definition refine (d : Deps) (obj : Objective) (tasks : list SubTask)
    (gs : list GenerationResult) : Error + RefinedOutput :=
  let prompt :=
    "refine: " +:+ objective_text obj
      +:+ String.concat "," (map st_title tasks)
      +:+ String.concat "" (map fe_content (entries_of gs)) in
  match retry (max_attempts d) 0 (refine_step d prompt) with
  | None => inl RefinementError
  | Some (narrative, emitted) =>
      inr (mkRefinedOutput narrative
             (resolve_collisions (map (fun e => (e, flagged_failed gs e)) emitted)))
  end.


(** *** 4.6 File Materializer *)


(** Modelled from the spec: a relative path under a directory,
    section 4.6 (main.py is missing). *)
Definition join (dir path : string) : string := dir +:+ "/" +:+ path.



(** *** 4.7 Pipeline Driver *)





(** *** Configurations to run the pipeline on *)

Definition not_empty : Validator :=
  fun content => if decide (content = "") then error "empty file" else ok.

(** A model that answers every prompt, with three tasks and one file. *)
Definition answering : Deps :=
  {| complete := fun _ _ => inr "print(1)";
     search := fun _ => None;
     parse_subtasks := fun _ =>
       Some [mkSubTask 0 "parse" "read the expression" None (Some "python");
             mkSubTask 1 "evaluate" "compute the value" None (Some "python");
             mkSubTask 2 "print" "show the value" None (Some "python")];
     extract_entries := fun text => [mkFileEntry "calc.py" "python" text];
     parse_refinement := fun text =>
       Some ("A calculator.", [mkFileEntry "calc.py" "python" text;
                               mkFileEntry "README.md" "markdown" "usage"]);
     registry := {["python" := not_empty]};
     serialize := fun log => String.concat ";" (map sr_stage log);
     max_attempts := 3;
     max_subtasks := 2;
     attempt_budget := 3;
     base_dir := "runs";
     log_name := "log.md" |}.





Definition calculator : Objective :=
  mkObjective "a single-file command line calculator" false.


End Pipeline.

(** * Properties *)

(** ** The built-ins *)

Module JSFacts.
Import JS.

Local Open Scope Z_scope.

Lemma split_not_nil sep s : split sep s ≠ [].
Proof.
  destruct s as [|c s]; simpl; [done|].
  destruct (decide (c = sep)); [done|]. by destruct (split sep s).
Qed.

(** Either there is one piece, the string itself, or the string ends
    in a separator followed by the last piece. *)
Lemma split_shape sep s :
  ∃ b, last (split sep s) = Some b ∧ (sep ∉ b)
       ∧ ((split sep s = [b] ∧ s = b)
          ∨ (∃ p, s = p ++ sep :: b) ∧ (2 <= length (split sep s))%nat).
Proof.
  induction s as [|c s (b & Hl & Hb & IH)]; simpl.
  - exists []. split_and!; [done|apply not_elem_of_nil|by left].
  - destruct (decide (c = sep)) as [->|Hc].
    + exists b. split_and!; [|done|right].
      * destruct (split sep s); [done|exact Hl].
      * split.
        -- destruct IH as [[_ ->]|[[p ->] _]]; [by exists []|by exists (sep :: p)].
        -- destruct (split sep s); [done|simpl; lia].
    + destruct IH as [[E ->]|[[p ->] Hlen]].
      * rewrite E. exists (c :: b). split_and!; [done| |by left].
        rewrite elem_of_cons. intros [?|?]; [congruence|done].
      * destruct (split sep (p ++ sep :: b)) as [|seg [|seg' segs]];
          [done|simpl in Hlen; lia|].
        exists b. split_and!; [exact Hl|done|right].
        split; [by exists (c :: p)|simpl; lia].
Qed.

Lemma split_last sep s :
  ∃ p b, last (split sep s) = Some b ∧ s = p ++ b ∧ (sep ∉ b)
         ∧ (p = [] ∨ last p = Some sep).
Proof.
  destruct (split_shape sep s) as (b & Hl & Hb & [[_ ->]|[[p ->] _]]).
  - exists [], b. split_and!; [done|done|done|by left].
  - exists (p ++ [sep]), b. split_and!; [done|by rewrite <- app_assoc|done|].
    right. apply last_snoc.
Qed.

Lemma basename_spec f :
  (slash ∉ basename f)
  ∧ ∃ p, f = p ++ basename f ∧ (p = [] ∨ last p = Some slash).
Proof.
  destruct (split_last slash f) as (p & b & Hl & Hs & Hb & Hp).
  unfold basename, pop. rewrite Hl. simpl. eauto.
Qed.

Lemma unescaped_ascii c : unescaped c = true → 33 <= c <= 126 ∧ c ≠ 47.
Proof.
  unfold unescaped.
  rewrite !orb_true_iff, !andb_true_iff, bool_decide_eq_true, !Z.leb_le,
    !elem_of_cons, elem_of_nil.
  lia.
Qed.

Lemma encodeURIComponent_isWellFormed s :
  is_Some (encodeURIComponent s) ↔ isWellFormed s = true.
Proof.
  enough (H : (is_Some (encodeURIComponent s) ↔ isWellFormed s = true)
              ∧ ∀ c, is_Some (encodeURIComponent (c :: s))
                     ↔ isWellFormed (c :: s) = true) by apply H.
  induction s as [|d s [IH1 IH2]].
  - split; [done|]. intros c. simpl.
    destruct (unescaped c) eqn:U.
    + apply unescaped_ascii in U.
      unfold is_trailing_surrogate, is_leading_surrogate.
      repeat case_match; try done; lia.
    + repeat case_match; done.
  - split; [apply IH2|]. intros c.
    change (encodeURIComponent (c :: d :: s)) with
      (if unescaped c then (c ::.) <$> encodeURIComponent (d :: s)
       else if is_trailing_surrogate c then None
       else if is_leading_surrogate c then
         if is_trailing_surrogate d then
           (escape_code_point (UTF16SurrogatePairToCodePoint c d) ++.)
             <$> encodeURIComponent s
         else None
       else (escape_code_point c ++.) <$> encodeURIComponent (d :: s)).
    change (isWellFormed (c :: d :: s)) with
      (if is_trailing_surrogate c then false
       else if is_leading_surrogate c then is_trailing_surrogate d && isWellFormed s
       else isWellFormed (d :: s)).
    destruct (unescaped c) eqn:U.
    + assert (is_trailing_surrogate c = false ∧ is_leading_surrogate c = false) as [-> ->].
      { apply unescaped_ascii in U.
        unfold is_trailing_surrogate, is_leading_surrogate. lia. }
      rewrite fmap_is_Some. apply (IH2 d).
    + destruct (is_trailing_surrogate c); [split; [by intros []|done]|].
      destruct (is_leading_surrogate c).
      * destruct (is_trailing_surrogate d); simpl.
        -- by rewrite fmap_is_Some.
        -- split; [by intros []|done].
      * rewrite fmap_is_Some. apply (IH2 d).
Qed.

Lemma unescaped_not_slash c : unescaped c = true → c ≠ slash.
Proof. intros U. apply unescaped_ascii in U. unfold slash. lia. Qed.

Lemma hexdigit_not_slash n : 0 <= n → hexdigit n ≠ slash.
Proof. unfold hexdigit, slash. case_match; lia. Qed.

Lemma escape_octet_no_slash b : 0 <= b → Forall (fun x => x ≠ slash) (escape_octet b).
Proof.
  intros Hb. unfold escape_octet. repeat constructor.
  - done.
  - apply hexdigit_not_slash. by apply Z.div_pos.
  - apply hexdigit_not_slash. by apply Z.mod_pos_bound.
Qed.

Lemma utf8_nonneg cp : 0 <= cp → Forall (fun b => 0 <= b) (utf8 cp).
Proof.
  intros Hcp. unfold utf8.
  repeat case_match; repeat constructor; try done;
    rewrite Z.lor_nonneg; (split; [done|]);
    rewrite ?Z.land_nonneg, ?Z.shiftr_nonneg; auto.
Qed.

Lemma escape_code_point_no_slash cp :
  0 <= cp → Forall (fun x => x ≠ slash) (escape_code_point cp).
Proof.
  intros Hcp. unfold escape_code_point. apply Forall_concat, Forall_fmap.
  eapply Forall_impl; [by apply utf8_nonneg|]. intros b Hb.
  by apply escape_octet_no_slash.
Qed.

(** Nothing in the encoded text is a slash. *)
Lemma encodeURIComponent_no_slash s e :
  is_jsstring s → encodeURIComponent s = Some e → slash ∉ e.
Proof.
  intros Hs He.
  enough (Forall (fun x => x ≠ slash) e) as HF
    by (intros Hin; by apply (proj1 (Forall_forall _ _) HF _ Hin)).
  revert e Hs He.
  enough (H : (∀ e, is_jsstring s → encodeURIComponent s = Some e
                    → Forall (fun x => x ≠ slash) e)
              ∧ ∀ c e, is_jsstring (c :: s) → encodeURIComponent (c :: s) = Some e
                       → Forall (fun x => x ≠ slash) e) by apply H.
  induction s as [|d s [IH1 IH2]].
  - split; [by intros e _ [= <-]|]. intros c e Hs. simpl.
    apply Forall_cons in Hs as [[Hc _] _].
    repeat case_match; try done; intros [= <-].
    + constructor; [by apply unescaped_not_slash|done].
    + rewrite app_nil_r. by apply escape_code_point_no_slash.
  - split; [apply IH2|]. intros c e Hs.
    pose proof Hs as Hs'. apply Forall_cons in Hs' as [[Hc _] Hds].
    pose proof Hds as Hds'. apply Forall_cons in Hds' as [[Hd _] Hs0].
    change (encodeURIComponent (c :: d :: s)) with
      (if unescaped c then (c ::.) <$> encodeURIComponent (d :: s)
       else if is_trailing_surrogate c then None
       else if is_leading_surrogate c then
         if is_trailing_surrogate d then
           (escape_code_point (UTF16SurrogatePairToCodePoint c d) ++.)
             <$> encodeURIComponent s
         else None
       else (escape_code_point c ++.) <$> encodeURIComponent (d :: s)).
    destruct (unescaped c) eqn:U.
    + rewrite fmap_Some. intros (e' & He' & ->).
      constructor; [by apply unescaped_not_slash|by apply (IH2 d)].
    + destruct (is_trailing_surrogate c) eqn:T; [done|].
      destruct (is_leading_surrogate c) eqn:L.
      * destruct (is_trailing_surrogate d) eqn:T'; [|done].
        rewrite fmap_Some. intros (e' & He' & ->).
        apply Forall_app. split; [|by apply IH1].
        apply escape_code_point_no_slash.
        unfold UTF16SurrogatePairToCodePoint, is_leading_surrogate,
          is_trailing_surrogate in *. lia.
      * rewrite fmap_Some. intros (e' & He' & ->).
        apply Forall_app. split; [by apply escape_code_point_no_slash|by apply (IH2 d)].
Qed.

Lemma lit_is_jsstring s : is_jsstring (lit s).
Proof.
  induction s as [|a s IH]; [constructor|].
  constructor; [|done]. unfold is_code_unit.
  pose proof (Ascii.N_ascii_bounded a). lia.
Qed.

End JSFacts.

(** ** The script *)

Module ScriptFacts.
Import JS Json Script JSFacts.

#[local] Set Warnings "-clear-no-such-hyp".

(** *** Running programs *)

Lemma bind_run {A B} (m : M A) (k : A -> M B) pg pg' a :
  m pg = (pg', Ok a) → bind m k pg = k a pg'.
Proof. unfold bind. by intros ->. Qed.

Lemma bind_throw {A B} (m : M A) (k : A -> M B) pg pg' e :
  m pg = (pg', Throw e) → bind m k pg = (pg', Throw e).
Proof. unfold bind. by intros ->. Qed.

Lemma bind_Ok_inv {A B} (m : M A) (k : A -> M B) pg pg2 b :
  bind m k pg = (pg2, Ok b) →
  ∃ a pg1, m pg = (pg1, Ok a) ∧ k a pg1 = (pg2, Ok b).
Proof.
  unfold bind. destruct (m pg) as [pg1 [a|e]]; [|done]. intros H. eauto.
Qed.

Lemma bind_assoc {A B C} (m : M A) (k : A -> M B) (h : B -> M C) pg :
  bind (bind m k) h pg = bind m (fun a => bind (k a) h) pg.
Proof. unfold bind. by destruct (m pg) as [pg1 [a|e]]. Qed.

Lemma with_classList_id e : with_classList id e = e.
Proof. by destruct e. Qed.

Lemma update_run i f pg :
  i < length (elements pg) → update (Some i) f pg = (page_alter i f pg, Ok tt).
Proof.
  intros Hi. destruct (lookup_lt_is_Some_2 _ _ Hi) as [e He].
  unfold update, page_alter. rewrite He. do 2 f_equal.
  apply list_eq. intros j. rewrite list_lookup_alter, list_lookup_insert.
  destruct (decide (i = j)) as [<-|]; [|by rewrite decide_False by tauto].
  rewrite decide_True by done. by rewrite He.
Qed.

Lemma update_null {f} pg : update None f pg = (pg, Throw TypeError).
Proof. done. Qed.

(** *** Class lists *)

Lemma page_alter_classes i f pg :
  page_alter i (with_classList f) pg = map_classes (only_at i f) pg.
Proof.
  unfold page_alter, map_classes. f_equal. apply list_eq. intros j.
  rewrite list_lookup_imap, list_lookup_alter. unfold only_at.
  destruct (decide (i = j)) as [<-|].
  - by rewrite decide_True.
  - rewrite decide_False by done. destruct (elements pg !! j); [|done].
    simpl. by rewrite with_classList_id.
Qed.

Lemma map_classes_compose g h pg :
  map_classes g (map_classes h pg) = map_classes (fun j cl => g j (h j cl)) pg.
Proof.
  unfold map_classes. simpl. f_equal. apply list_eq. intros j.
  rewrite !list_lookup_imap. by destruct (elements pg !! j).
Qed.

Lemma map_classes_ext g h pg :
  (∀ j e, elements pg !! j = Some e → g j (el_classList e) = h j (el_classList e)) →
  map_classes g pg = map_classes h pg.
Proof.
  intros H. unfold map_classes. f_equal. apply list_eq. intros j.
  rewrite !list_lookup_imap. destruct (elements pg !! j) as [e|] eqn:E; [|done].
  simpl. unfold with_classList. by rewrite (H j e E).
Qed.

Lemma lookup_map_classes g pg j :
  elements (map_classes g pg) !! j = with_classList (g j) <$> elements pg !! j.
Proof. unfold map_classes. simpl. by rewrite list_lookup_imap. Qed.

Lemma length_map_classes g pg :
  length (elements (map_classes g pg)) = length (elements pg).
Proof. unfold map_classes. simpl. by rewrite length_imap. Qed.

Lemma classes_at_map_classes g pg j :
  j < length (elements pg) →
  classes_at (map_classes g pg) j = g j (classes_at pg j).
Proof.
  intros Hj. destruct (lookup_lt_is_Some_2 _ _ Hj) as [e He].
  unfold classes_at. by rewrite lookup_map_classes, He.
Qed.

Lemma skeleton_map_classes g pg : skeleton (map_classes g pg) = skeleton pg.
Proof.
  unfold skeleton, map_classes. simpl. apply list_eq. intros j.
  rewrite !list_lookup_fmap, list_lookup_imap. by destruct (elements pg !! j).
Qed.

Lemma classList_run (f : list string -> list string) i pg :
  i < length (elements pg) →
  update (Some i) (with_classList f) pg = (map_classes (only_at i f) pg, Ok tt).
Proof. intros Hi. by rewrite update_run, page_alter_classes. Qed.

Lemma elem_of_classList_add tok cl : tok ∈ classList_add tok cl.
Proof.
  unfold classList_add. case_decide; [done|]. apply elem_of_app. right. by left.
Qed.

Lemma elem_of_classList_add_ne tok tok' cl :
  tok ≠ tok' → tok' ∈ classList_add tok cl ↔ tok' ∈ cl.
Proof.
  intros Hne. unfold classList_add. case_decide; [done|].
  rewrite elem_of_app, list_elem_of_singleton. naive_solver.
Qed.

Lemma not_elem_of_classList_remove tok cl : tok ∉ classList_remove tok cl.
Proof. unfold classList_remove. rewrite list_elem_of_filter. naive_solver. Qed.

Lemma elem_of_classList_remove_ne tok tok' cl :
  tok ≠ tok' → tok' ∈ classList_remove tok cl ↔ tok' ∈ cl.
Proof. intros Hne. unfold classList_remove. rewrite list_elem_of_filter. naive_solver. Qed.

Lemma classList_remove_idemp tok cl :
  classList_remove tok (classList_remove tok cl) = classList_remove tok cl.
Proof. unfold classList_remove. apply list_filter_filter_l. naive_solver. Qed.

Lemma classList_remove_add tok cl :
  classList_remove tok (classList_add tok cl) = classList_remove tok cl.
Proof.
  unfold classList_add, classList_remove. case_decide; [done|].
  rewrite filter_app. simpl. rewrite filter_cons_False by naive_solver.
  by rewrite filter_nil, app_nil_r.
Qed.

Lemma classList_add_idemp tok cl :
  classList_add tok (classList_add tok cl) = classList_add tok cl.
Proof.
  unfold classList_add at 1. rewrite decide_True; [done|apply elem_of_classList_add].
Qed.

Lemma children_at_Some pg j :
  children_at pg (Some j) = from_option el_children [] (elements pg !! j).
Proof. done. Qed.

Lemma text_at_Some pg j :
  text_at pg (Some j) = from_option textContent_of [] (elements pg !! j).
Proof. done. Qed.

Lemma children_at_map_classes g pg r :
  children_at (map_classes g pg) r = children_at pg r.
Proof.
  destruct r as [j|]; [|done]. rewrite !children_at_Some.
  rewrite lookup_map_classes. by destruct (elements pg !! j).
Qed.

Lemma text_at_map_classes g pg r :
  text_at (map_classes g pg) r = text_at pg r.
Proof.
  destruct r as [j|]; [|done]. rewrite !text_at_Some.
  rewrite lookup_map_classes. by destruct (elements pg !! j).
Qed.

Ltac run_classList :=
  erewrite bind_run by (apply classList_run; rewrite ?length_map_classes; eassumption).

(** *** Tabs *)

Lemma map_classes_id pg : map_classes (fun _ cl => cl) pg = pg.
Proof.
  destruct pg as [es o a c]. unfold map_classes. simpl. f_equal.
  apply list_eq. intros j. rewrite list_lookup_imap.
  destruct (es !! j) as [[]|]; done.
Qed.

Lemma forEach_remove tok bs pg :
  Forall (fun b => b < length (elements pg)) bs →
  forEach bs (fun b => classList_remove_on (Some b) tok) pg
  = (map_classes (fun j cl => if decide (j ∈ bs) then classList_remove tok cl else cl) pg,
     Ok tt).
Proof.
  revert pg. induction bs as [|b bs IH]; intros pg Hbs.
  - simpl. unfold ret. f_equal. rewrite <- (map_classes_id pg) at 1.
    apply map_classes_ext. intros j e _.
    destruct (decide (j ∈ [])) as [H|]; [by apply elem_of_nil in H|done].
  - apply Forall_cons in Hbs as [Hb Hbs]. simpl. unfold classList_remove_on at 1.
    run_classList. rewrite IH by (by rewrite length_map_classes).
    f_equal. rewrite map_classes_compose. apply map_classes_ext. intros j e _.
    unfold only_at. destruct (decide (j = b)) as [->|Hj].
    + rewrite (decide_True (P := b ∈ b :: bs)) by by left.
      case_decide; [apply classList_remove_idemp|done].
    + simpl. destruct (decide (j ∈ bs)) as [Hin|Hin].
      * by rewrite decide_True by by right.
      * rewrite decide_False; [done|]. rewrite elem_of_cons. tauto.
Qed.

Lemma find_from_imap p (f : nat -> Element -> Element) l n :
  (∀ j e, p (f j e) = p e) → find_from p (imap f l) n = find_from p l n.
Proof.
  revert f n. induction l as [|e l IH]; intros f n Hp; [done|].
  rewrite imap_cons. simpl. rewrite Hp. case_match; [done|].
  apply IH. intros j e'. apply Hp.
Qed.

Lemma getElementById_map_classes g pg i :
  getElementById (map_classes g pg) i = getElementById pg i.
Proof.
  unfold getElementById, map_classes. simpl. by apply find_from_imap.
Qed.

Lemma find_from_Some p l n k :
  find_from p l n = Some k →
  n <= k ∧ ∃ e, l !! (k - n) = Some e ∧ p e = true.
Proof.
  revert n. induction l as [|e l IH]; intros n; [done|]. simpl.
  destruct (p e) eqn:E.
  - intros [= <-]. split; [lia|]. exists e. by rewrite Nat.sub_diag.
  - intros H. apply IH in H as (Hle & e' & He' & Hp). split; [lia|].
    exists e'. split; [|done]. by replace (k - n) with (S (k - S n)) by lia.
Qed.

Lemma getElementById_Some pg i k :
  getElementById pg i = Some k →
  ∃ e, elements pg !! k = Some e ∧ el_id e = Some i.
Proof.
  intros H. apply find_from_Some in H as (_ & e & He & Hp).
  rewrite Nat.sub_0_r in He. exists e. split; [done|].
  unfold has_id in Hp. by apply bool_decide_eq_true in Hp as [_ Hp].
Qed.

Lemma target_of_map_classes g pg b :
  target_of (map_classes g pg) b = target_of pg b.
Proof.
  unfold target_of. rewrite lookup_map_classes.
  destruct (elements pg !! b) as [e|]; [|done]. simpl.
  apply getElementById_map_classes.
Qed.

Lemma tabs_ok_spec env pg :
  tabs_ok env pg = true →
  NoDup (tabButtons env) ∧ NoDup (tabContents env)
  ∧ (∀ b, b ∈ tabButtons env →
       b < length (elements pg) ∧ (b ∉ tabContents env)
       ∧ ∃ t, target_of pg b = Some t ∧ t ∈ tabContents env)
  ∧ (∀ c, c ∈ tabContents env → c < length (elements pg)).
Proof.
  unfold tabs_ok. rewrite !andb_true_iff, !bool_decide_eq_true, !forallb_forall.
  intros [[[Hb Hc] Hbs] Hcs]. split_and!; [done|done| |].
  - intros b Hin. apply list_elem_of_In, Hbs in Hin. unfold tab_button_ok in Hin.
    apply andb_true_iff in Hin as [H1 H2]. apply bool_decide_eq_true in H1 as [? ?].
    split_and!; [done|done|]. destruct (target_of pg b) as [t|]; [|done].
    apply bool_decide_eq_true in H2. eauto.
  - intros c Hin. apply list_elem_of_In, Hcs in Hin. by apply bool_decide_eq_true in Hin.
Qed.

Lemma forallb_pointwise {A} (f g : A -> bool) l :
  (∀ x, f x = g x) → forallb f l = forallb g l.
Proof. intros H. induction l as [|x l IH]; [done|]. simpl. by rewrite H, IH. Qed.

Lemma tabs_ok_map_classes env g pg :
  tabs_ok env (map_classes g pg) = tabs_ok env pg.
Proof.
  unfold tabs_ok, tab_button_ok. rewrite length_map_classes. f_equal. f_equal.
  apply forallb_pointwise. intros b. by rewrite target_of_map_classes.
Qed.

(** [activateTab] on a tab button, in closed form. *)
Lemma activateTab_run env pg b :
  tabs_ok env pg = true → b ∈ tabButtons env →
  ∃ t, target_of pg b = Some t ∧ t ∈ tabContents env
       ∧ activateTab env (Some b) pg = (map_classes (tab_classes env b t) pg, Ok tt).
Proof.
  intros Hok Hb. destruct (tabs_ok_spec _ _ Hok) as (_ & _ & Hbs & Hcs).
  destruct (Hbs b Hb) as (Hlt & Hnc & t & Ht & Htc).
  exists t. split_and!; [done|done|].
  unfold activateTab.
  erewrite bind_run; [|apply forEach_remove; apply Forall_forall; intros x Hx; by apply Hbs].
  erewrite bind_run;
    [|apply forEach_remove; apply Forall_forall; intros x Hx;
      rewrite length_map_classes; by apply Hcs].
  unfold classList_add_on at 1. run_classList.
  destruct (lookup_lt_is_Some_2 _ _ Hlt) as [e He].
  erewrite bind_run
    by (unfold dataset_tab_of; simpl; rewrite !list_lookup_imap, He; reflexivity).
  unfold lookup_id. erewrite bind_run by reflexivity.
  simpl el_dataset_tab.
  rewrite !getElementById_map_classes.
  unfold target_of in Ht. rewrite He in Ht. rewrite Ht.
  unfold classList_add_on. rewrite classList_run
    by (rewrite !length_map_classes; by apply Hcs).
  f_equal. rewrite !map_classes_compose. apply map_classes_ext.
  intros j e' _. unfold tab_classes. by repeat case_decide.
Qed.

Section tab_classes.
Context (env : Env) (b t : nat).
Hypothesis Hb : b ∈ tabButtons env.
Hypothesis Ht : t ∈ tabContents env.
Hypothesis Hdisjoint : ∀ x, x ∈ tabButtons env → x ∉ tabContents env.



End tab_classes.

Lemma filter_none {A} (P : A -> Prop) `{∀ x, Decision (P x)} (l : list A) :
  (∀ j, j ∈ l → ¬ P j) → filter P l = [].
Proof.
  induction l as [|x l IH]; intros HP; [done|].
  rewrite filter_cons_False by (apply HP; by left).
  apply IH. intros j Hj. apply HP. by right.
Qed.

Lemma filter_only {A} `{EqDecision A} (P : A -> Prop) `{∀ x, Decision (P x)}
    (l : list A) (b : A) :
  NoDup l → b ∈ l → (∀ j, j ∈ l → P j ↔ j = b) → filter P l = [b].
Proof.
  induction l as [|x l IH]; intros Hnd Hb HP; [by apply elem_of_nil in Hb|].
  apply NoDup_cons in Hnd as [Hx Hnd].
  destruct (decide (x = b)) as [->|Hne].
  - rewrite filter_cons_True by (apply HP; [by left|done]). f_equal.
    apply filter_none. intros j Hj HPj.
    apply HP in HPj; [|by right]. by subst.
  - rewrite filter_cons_False by (rewrite HP; [done|by left]).
    apply IH; [done| |].
    + apply elem_of_cons in Hb as [->|]; done.
    + intros j Hj. apply HP. by right.
Qed.

Lemma is_active_map_classes g pg j :
  j < length (elements pg) →
  is_active (map_classes g pg) j = true ↔ "active" ∈ g j (classes_at pg j).
Proof.
  intros Hj. unfold is_active. by rewrite bool_decide_eq_true, classes_at_map_classes.
Qed.


(** *** What a handler leaves alone *)

Section frame.
Context (D : nat -> Prop).

Lemma frame_refl pg : frame D pg pg.
Proof. by split. Qed.

Lemma frame_trans pg1 pg2 pg3 : frame D pg1 pg2 → frame D pg2 pg3 → frame D pg1 pg3.
Proof.
  intros [H1 H1'] [H2 H2']. split; [congruence|].
  intros j Hj. by rewrite H2', H1'.
Qed.

Lemma stable_pure {A} (m : M A) : (∀ pg, (m pg).1 = pg) → stable (frame D) m.
Proof. intros H pg. rewrite H. apply frame_refl. Qed.

Lemma stable_ret {A} (a : A) : stable (frame D) (ret a).
Proof. by apply stable_pure. Qed.

Lemma stable_throw {A} e : stable (frame D) (@throw A e).
Proof. by apply stable_pure. Qed.

Lemma stable_bind {A B} (m : M A) (k : A -> M B) :
  stable (frame D) m → (∀ a, stable (frame D) (k a)) → stable (frame D) (bind m k).
Proof.
  intros Hm Hk pg. specialize (Hm pg). unfold bind.
  destruct (m pg) as [pg1 [a|e]]; [|done].
  eapply frame_trans; [exact Hm|apply Hk].
Qed.

Lemma stable_try_catch m h :
  stable (frame D) m → (∀ e, stable (frame D) (h e)) → stable (frame D) (try_catch m h).
Proof.
  intros Hm Hh pg. specialize (Hm pg). unfold try_catch.
  destruct (m pg) as [pg1 [a|e]]; [done|].
  eapply frame_trans; [exact Hm|apply Hh].
Qed.

Lemma stable_forEach {A} (a : list A) f :
  (∀ x, stable (frame D) (f x)) → stable (frame D) (forEach a f).
Proof.
  intros Hf. induction a as [|x a IH]; [apply stable_ret|].
  simpl. apply stable_bind; [apply Hf|done].
Qed.

Lemma stable_update r f :
  (∀ e, el_id (f e) = el_id e ∧ el_dataset_tab (f e) = el_dataset_tab e) →
  (∀ i e, r = Some i → ¬ D i → el_children (f e) = el_children e) →
  stable (frame D) (update r f).
Proof.
  intros Hskel Hch pg. unfold update. destruct r as [i|]; [|apply frame_refl].
  destruct (elements pg !! i) as [e|] eqn:E; [|apply frame_refl].
  split; simpl.
  - unfold skeleton. simpl. apply list_eq. intros j.
    rewrite !list_lookup_fmap. destruct (decide (i = j)) as [<-|Hne].
    + rewrite list_lookup_insert_eq by (by eapply lookup_lt_Some).
      rewrite E. simpl. by destruct (Hskel e) as [-> ->].
    + by rewrite list_lookup_insert_ne.
  - intros j Hj. rewrite !children_at_Some. simpl.
    destruct (decide (i = j)) as [<-|Hne].
    + rewrite list_lookup_insert_eq by (by eapply lookup_lt_Some).
      rewrite E. simpl. by apply (Hch i).
    + by rewrite list_lookup_insert_ne.
Qed.

Lemma stable_update_classes r f : stable (frame D) (update r (with_classList f)).
Proof. by apply stable_update. Qed.

Lemma stable_update_children r f :
  (∀ i, r = Some i → D i) → stable (frame D) (update r (with_children f)).
Proof.
  intros Hr. apply stable_update; [done|]. intros i e -> Hi. exfalso. apply Hi. by apply Hr.
Qed.

Lemma stable_alert msg : stable (frame D) (alert msg).
Proof. intros pg. by split. Qed.

Lemma stable_console_error e : stable (frame D) (console_error e).
Proof. intros pg. by split. Qed.

Lemma stable_get_field data k : stable (frame D) (get_field data k).
Proof. apply stable_pure. intros pg. by destruct data. Qed.

Lemma stable_as_array v : stable (frame D) (as_array v).
Proof. apply stable_pure. intros pg. by destruct v as [[]|]. Qed.

Lemma stable_split_pop v : stable (frame D) (split_pop v).
Proof. apply stable_pure. intros pg. by destruct v as [[]|]. Qed.

Lemma stable_download_href v : stable (frame D) (download_href v).
Proof.
  unfold download_href. apply stable_bind.
  - destruct v as [v|]; [destruct (ToString v)|];
      first [apply stable_ret|apply stable_throw].
  - intros s. destruct (encodeURIComponent s); [apply stable_ret|apply stable_throw].
Qed.

Lemma stable_or_else label rhs : stable (frame D) rhs → stable (frame D) (or_else label rhs).
Proof. intros H. destruct label as [[|]|]; simpl; [done|apply stable_ret|done]. Qed.

Lemma stable_dataset_tab_of b : stable (frame D) (dataset_tab_of b).
Proof.
  apply stable_pure. intros pg. unfold dataset_tab_of.
  by destruct (b ≫= _).
Qed.

Lemma stable_lookup_id i : stable (frame D) (lookup_id i).
Proof. by apply stable_pure. Qed.

Ltac stable_step :=
  first
    [ apply stable_update_classes | apply stable_dataset_tab_of
    | apply stable_lookup_id | apply stable_alert | apply stable_console_error
    | apply stable_download_href | apply stable_split_pop
    | apply stable_get_field | apply stable_as_array
    | apply stable_or_else
    | apply stable_update_children; assumption
    | apply stable_forEach; intros ?
    | apply stable_bind; [|intros ?] ].

Lemma stable_activateTab env b : stable (frame D) (activateTab env b).
Proof.
  unfold activateTab, classList_remove_on, classList_add_on. repeat stable_step.
Qed.

Lemma stable_reveal env : stable (frame D) (reveal env).
Proof. unfold reveal, classList_remove_on, classList_add_on. repeat stable_step. Qed.

Lemma stable_submit_begin env : stable (frame D) (submit_begin env).
Proof.
  unfold submit_begin, classList_remove_on, classList_add_on. repeat stable_step.
Qed.

Lemma stable_on_error env e : stable (frame D) (on_error env e).
Proof. unfold on_error, classList_add_on. repeat stable_step. Qed.

Lemma stable_addDownloadLink env file label :
  (∀ d, downloadLinks env = Some d → D d) →
  stable (frame D) (addDownloadLink env file label).
Proof. intros Hd. unfold addDownloadLink, appendChild. repeat stable_step. Qed.

Lemma stable_set_textContent r v :
  (∀ i, r = Some i → D i) → stable (frame D) (set_textContent r v).
Proof.
  intros Hr. unfold set_textContent. apply stable_bind.
  - destruct v as [[]|]; try apply stable_ret;
      (match goal with |- context [ToString ?w] => destruct (ToString w) end;
       [apply stable_ret|apply stable_throw]).
  - intros s. by apply stable_update_children.
Qed.

Lemma stable_show_output env data :
  (∀ i, outputPre env = Some i → D i) → stable (frame D) (show_output env data).
Proof.
  intros Ho. unfold show_output.
  apply stable_bind; [apply stable_get_field|]. intros v.
  by apply stable_set_textContent.
Qed.

Lemma stable_list_files env data :
  (∀ i, fileList env = Some i → D i) → stable (frame D) (list_files env data).
Proof.
  intros Hf. unfold list_files, clear_innerHTML, appendChild. repeat stable_step.
Qed.

Lemma stable_list_downloads env data :
  (∀ i, downloadLinks env = Some i → D i) → stable (frame D) (list_downloads env data).
Proof.
  intros Hd. unfold list_downloads, clear_innerHTML, addDownloadLink, appendChild.
  repeat stable_step.
Qed.
End frame.

(** *** What depends on the skeleton only *)

Lemma skeleton_length pg pg' :
  skeleton pg' = skeleton pg → length (elements pg') = length (elements pg).
Proof.
  intros H. apply (f_equal length) in H. unfold skeleton in H.
  by rewrite !length_fmap in H.
Qed.

Lemma skeleton_lookup pg pg' j :
  skeleton pg' = skeleton pg →
  (fun e => (el_id e, el_dataset_tab e)) <$> elements pg' !! j
  = (fun e => (el_id e, el_dataset_tab e)) <$> elements pg !! j.
Proof. intros H. unfold skeleton in H. by rewrite <- !list_lookup_fmap, H. Qed.

Lemma find_from_has_id i l l' n :
  el_id <$> l = el_id <$> l' → find_from (has_id i) l n = find_from (has_id i) l' n.
Proof.
  revert l' n. induction l as [|e l IH]; intros [|e' l'] n H; try done.
  rewrite !fmap_cons in H. injection H as He Hl. simpl. unfold has_id at 1 3.
  rewrite He. case_bool_decide; [done|]. by apply IH.
Qed.

Lemma skeleton_getElementById pg pg' i :
  skeleton pg' = skeleton pg → getElementById pg' i = getElementById pg i.
Proof.
  intros H. apply find_from_has_id.
  apply (f_equal (fmap fst)) in H. unfold skeleton in H.
  by rewrite <- !list_fmap_compose in H.
Qed.



Lemma skeleton_containers_ok env pg pg' :
  skeleton pg' = skeleton pg → containers_ok env pg' = containers_ok env pg.
Proof. intros H. unfold containers_ok. by rewrite (skeleton_length _ _ H). Qed.

Lemma skeleton_indicators_ok env pg pg' :
  skeleton pg' = skeleton pg → indicators_ok env pg' = indicators_ok env pg.
Proof. intros H. unfold indicators_ok. by rewrite (skeleton_length _ _ H). Qed.

(** Every handler keeps the skeleton. *)
Lemma stable_populate D env data :
  (∀ i, outputPre env = Some i → D i) →
  (∀ i, fileList env = Some i → D i) →
  (∀ i, downloadLinks env = Some i → D i) →
  stable (frame D) (populate env data).
Proof.
  intros Ho Hf Hd. unfold populate.
  apply stable_bind; [by apply stable_show_output|]. intros _.
  apply stable_bind; [by apply stable_list_files|]. intros _.
  by apply stable_list_downloads.
Qed.



(** *** Children *)

Lemma length_page_alter i f pg :
  length (elements (page_alter i f pg)) = length (elements pg).
Proof. unfold page_alter. simpl. apply length_alter. Qed.

Lemma children_at_page_alter_eq i g pg :
  i < length (elements pg) →
  children_at (page_alter i (with_children g) pg) (Some i) = g (children_at pg (Some i)).
Proof.
  intros Hi. destruct (lookup_lt_is_Some_2 _ _ Hi) as [e He].
  rewrite !children_at_Some. unfold page_alter. simpl.
  by rewrite list_lookup_alter_eq, He.
Qed.

Lemma children_at_page_alter_ne i j f pg :
  i ≠ j → children_at (page_alter i f pg) (Some j) = children_at pg (Some j).
Proof.
  intros Hne. rewrite !children_at_Some. unfold page_alter. simpl.
  by rewrite list_lookup_alter_ne.
Qed.

Lemma page_alter_children_compose i g h pg :
  page_alter i (with_children g) (page_alter i (with_children h) pg)
  = page_alter i (with_children (fun ns => g (h ns))) pg.
Proof.
  unfold page_alter. simpl. f_equal.
  rewrite list_alter_alter_eq. by apply list_alter_ext.
Qed.

Lemma page_alter_children_ext i g h pg :
  (∀ ns, g ns = h ns) →
  page_alter i (with_children g) pg = page_alter i (with_children h) pg.
Proof.
  intros H. unfold page_alter. f_equal. apply list_alter_ext; [|done].
  intros e _. unfold with_children. by rewrite H.
Qed.

Lemma text_at_children pg r :
  text_at pg r = concat (map node_text (children_at pg r)).
Proof.
  destruct r as [j|]; [|done]. rewrite text_at_Some, children_at_Some.
  by destruct (elements pg !! j).
Qed.

Lemma get_field_shape data ro files lf :
  has_shape data ro files lf →
  get_field data "refined_output" = ret (Some (JStr ro))
  ∧ get_field data "created_files" = ret (Some (JArr (map JStr files)))
  ∧ get_field data "log_file" = ret (Some (JStr lf)).
Proof.
  intros (fields & -> & H1 & H2 & H3). unfold get_field. by rewrite H1, H2, H3.
Qed.

Lemma show_output_run env data ro files lf o pg :
  has_shape data ro files lf → outputPre env = Some o → o < length (elements pg) →
  show_output env data pg
  = (page_alter o (with_children (fun _ => match ro with [] => [] | _ => [Text ro] end)) pg,
     Ok tt).
Proof.
  intros Hshape Ho Hlt. destruct (get_field_shape _ _ _ _ Hshape) as (H1 & _ & _).
  unfold show_output. rewrite H1, Ho.
  erewrite bind_run by reflexivity. unfold set_textContent. simpl ToString.
  erewrite bind_run by reflexivity. by apply update_run.
Qed.

Lemma forEach_append_li fl fs pg :
  fl < length (elements pg) →
  forEach (map JStr fs)
    (fun file => let* name := split_pop (Some file) in appendChild (Some fl) (Li name)) pg
  = (page_alter fl (with_children (fun ns => ns ++ map (fun f => Li (basename f)) fs)) pg,
     Ok tt).
Proof.
  revert pg. induction fs as [|f fs IH]; intros pg Hlt.
  - simpl. unfold ret. f_equal. destruct pg as [es o a c]. unfold page_alter. simpl.
    f_equal. symmetry. apply list_alter_id. intros [i cl t ns]. unfold with_children.
    simpl. by rewrite app_nil_r.
  - simpl. erewrite bind_run.
    2:{ erewrite bind_run by reflexivity. unfold appendChild. by apply update_run. }
    rewrite IH by (by rewrite length_page_alter).
    f_equal. rewrite page_alter_children_compose. apply page_alter_children_ext.
    intros ns. by rewrite <- app_assoc.
Qed.

Lemma list_files_run env data ro files lf fl pg :
  has_shape data ro files lf → fileList env = Some fl → fl < length (elements pg) →
  list_files env data pg
  = (page_alter fl (with_children (fun _ => map (fun f => Li (basename f)) files)) pg,
     Ok tt).
Proof.
  intros Hshape Hf Hlt. destruct (get_field_shape _ _ _ _ Hshape) as (_ & H2 & _).
  unfold list_files, clear_innerHTML. rewrite H2, Hf.
  erewrite bind_run by (by apply update_run).
  erewrite bind_run by reflexivity. simpl as_array.
  erewrite bind_run by reflexivity.
  rewrite forEach_append_li by (by rewrite length_page_alter).
  f_equal. rewrite page_alter_children_compose. by apply page_alter_children_ext.
Qed.

Lemma addDownloadLink_run env d f e l pg :
  downloadLinks env = Some d → d < length (elements pg) →
  encodeURIComponent f = Some e →
  addDownloadLink env (Some (JStr f)) l pg
  = (page_alter d
       (with_children (fun ns =>
          ns ++ [Anchor (lit "/download/" ++ e)
                        (match l with Some (c :: t) => c :: t | _ => basename f end)
                        (basename f)])) pg,
     Ok tt).
Proof.
  intros Hd Hlt He. unfold addDownloadLink, download_href. simpl ToString.
  rewrite bind_assoc. erewrite bind_run by reflexivity. rewrite He.
  erewrite bind_run by reflexivity.
  unfold appendChild. rewrite Hd.
  destruct l as [[|c t]|]; (do 2 erewrite bind_run by reflexivity); by apply update_run.
Qed.

Lemma addDownloadLink_URIError env f l pg :
  encodeURIComponent f = None →
  addDownloadLink env (Some (JStr f)) l pg = (pg, Throw URIError).
Proof.
  intros He. unfold addDownloadLink, download_href. simpl ToString.
  rewrite bind_assoc. erewrite bind_run by reflexivity. by rewrite He.
Qed.

Lemma forEach_links env d fs :
  downloadLinks env = Some d →
  Forall (fun f => isWellFormed f = true) fs →
  ∃ links, Forall2 (fun f n => is_link (basename f) f n) fs links
    ∧ ∀ pg, d < length (elements pg) →
        forEach (map JStr fs) (fun file => addDownloadLink env (Some file) None) pg
        = (page_alter d (with_children (fun ns => ns ++ links)) pg, Ok tt).
Proof.
  intros Hd. induction 1 as [|f fs Hf _ (links & Hlinks & IH)].
  - exists []. split; [constructor|]. intros pg _. simpl. unfold ret. f_equal.
    destruct pg as [es o a c]. unfold page_alter. simpl.
    f_equal. symmetry. apply list_alter_id. intros [i cl t ns]. unfold with_children.
    simpl. by rewrite app_nil_r.
  - apply encodeURIComponent_isWellFormed in Hf as [e He].
    exists (Anchor (lit "/download/" ++ e) (basename f) (basename f) :: links).
    split; [constructor; [by exists e|done]|].
    intros pg Hlt. simpl.
    erewrite bind_run by (by apply addDownloadLink_run).
    rewrite IH by (by rewrite length_page_alter).
    f_equal. rewrite page_alter_children_compose. apply page_alter_children_ext.
    intros ns. by rewrite <- app_assoc.
Qed.

Lemma list_downloads_run env data ro files lf d :
  has_shape data ro files lf → downloadLinks env = Some d →
  Forall (fun f => isWellFormed f = true) (files ++ [lf]) →
  ∃ links e, Forall2 (fun f n => is_link (basename f) f n) files links
    ∧ encodeURIComponent lf = Some e
    ∧ ∀ pg, d < length (elements pg) →
        list_downloads env data pg
        = (page_alter d
             (with_children (fun _ =>
                links ++ [Anchor (lit "/download/" ++ e) (lit "Log File") (basename lf)]))
             pg,
           Ok tt).
Proof.
  intros Hshape Hd Hwf. destruct (get_field_shape _ _ _ _ Hshape) as (_ & H2 & H3).
  apply Forall_app in Hwf as [Hfiles Hlf]. apply Forall_inv in Hlf.
  apply encodeURIComponent_isWellFormed in Hlf as [e He].
  destruct (forEach_links env d files Hd Hfiles) as (links & Hlinks & Hrun).
  exists links, e. split_and!; [done|done|]. intros pg Hlt.
  unfold list_downloads, clear_innerHTML. rewrite H2, H3, Hd.
  erewrite bind_run by (by apply update_run).
  erewrite bind_run by reflexivity. simpl as_array.
  erewrite bind_run by reflexivity.
  erewrite bind_run by (apply Hrun; by rewrite length_page_alter).
  erewrite bind_run by reflexivity.
  erewrite addDownloadLink_run; [|done|by rewrite !length_page_alter|done].
  f_equal. rewrite !page_alter_children_compose. by apply page_alter_children_ext.
Qed.

(** *** A submission whose body follows the contract *)

Lemma try_catch_cong m m' h pg pg' :
  m pg = m' pg' → try_catch m h pg = try_catch m' h pg'.
Proof. unfold try_catch. by intros ->. Qed.

Lemma submit_begin_run env pg :
  indicators_ok env pg = true →
  ∃ pg1, submit_begin env pg = (pg1, Ok tt)
         ∧ length (elements pg1) = length (elements pg).
Proof.
  unfold indicators_ok. intros Hind.
  destruct (loadingDiv env) as [l|] eqn:El; [|done].
  destruct (resultDiv env) as [r|] eqn:Er; [|done].
  apply bool_decide_eq_true in Hind as [Hl Hr].
  unfold submit_begin, classList_remove_on, classList_add_on. rewrite El, Er.
  run_classList. rewrite classList_run by (by rewrite length_map_classes).
  eexists. split; [done|]. by rewrite !length_map_classes.
Qed.

Lemma submit_panes env pg data ro files lf :
  indicators_ok env pg = true → containers_ok env pg = true →
  has_shape data ro files lf →
  let pg' := (submit env (Response true (Some data)) pg).1 in
  children_at pg' (outputPre env) = match ro with [] => [] | _ => [Text ro] end
  ∧ children_at pg' (fileList env) = map (fun f => Li (basename f)) files
  ∧ (Forall (fun f => isWellFormed f = true) (files ++ [lf]) →
     ∃ links e, Forall2 (fun f n => is_link (basename f) f n) files links
       ∧ encodeURIComponent lf = Some e
       ∧ children_at pg' (downloadLinks env)
         = links ++ [Anchor (lit "/download/" ++ e) (lit "Log File") (basename lf)]).
Proof.
  intros Hind Hcont Hshape pg'.
  destruct (submit_begin_run env pg Hind) as (pg1 & Hbegin & Hlen1).
  unfold containers_ok in Hcont.
  destruct (outputPre env) as [o|] eqn:Eo; [|done].
  destruct (fileList env) as [fl|] eqn:Ef; [|done].
  destruct (downloadLinks env) as [d|] eqn:Ed; [|done].
  apply bool_decide_eq_true in Hcont as (Ho & Hf & Hd & Hof & Hod & Hfd).
  set (pgA := page_alter o
    (with_children (fun _ => match ro with [] => [] | _ => [Text ro] end)) pg1).
  set (pgB := page_alter fl
    (with_children (fun _ => map (fun f => Li (basename f)) files)) pgA).
  set (tail := reveal env >> activateTab env (tabButtons env !! 0)).
  assert (HB : display env data pg1 = (list_downloads env data >> tail) pgB).
  { unfold display, populate. rewrite !bind_assoc.
    erewrite bind_run by (eapply show_output_run; [done|done|lia]).
    rewrite !bind_assoc.
    erewrite bind_run
      by (eapply list_files_run; [done|done|rewrite length_page_alter; lia]).
    done. }
  assert (Hpg' : pg' = (try_catch (list_downloads env data >> tail) (on_error env) pgB).1).
  { unfold pg', submit, settle. erewrite bind_run by exact Hbegin.
    by erewrite (try_catch_cong (attempt env (Response true (Some data)))) by exact HB. }
  assert (HlenB : length (elements pgB) = length (elements pg))
    by (unfold pgB, pgA; by rewrite !length_page_alter).
  assert (Htail : ∀ D, stable (frame D) tail).
  { intros D. apply stable_bind; [apply stable_reveal|].
    intros _. apply stable_activateTab. }
  split_and!.
  - assert (frame (eq d) pgB pg') as [_ Hfr].
    { rewrite Hpg'. apply stable_try_catch; [|apply stable_on_error].
      apply stable_bind; [|by intros _].
      apply stable_list_downloads. intros i Hi. congruence. }
    rewrite Hfr by (intros ->; done). unfold pgB.
    rewrite children_at_page_alter_ne by done. unfold pgA.
    apply children_at_page_alter_eq. lia.
  - assert (frame (eq d) pgB pg') as [_ Hfr].
    { rewrite Hpg'. apply stable_try_catch; [|apply stable_on_error].
      apply stable_bind; [|by intros _].
      apply stable_list_downloads. intros i Hi. congruence. }
    rewrite Hfr by (intros ->; done). unfold pgB.
    rewrite children_at_page_alter_eq by (unfold pgA; rewrite length_page_alter; lia).
    done.
  - intros Hwf.
    destruct (list_downloads_run env data ro files lf d Hshape Ed Hwf)
      as (links & e & Hlinks & He & Hrun).
    exists links, e. split_and!; [done|done|].
    assert (frame (fun _ => False)
              (page_alter d (with_children (fun _ =>
                 links ++ [Anchor (lit "/download/" ++ e) (lit "Log File") (basename lf)]))
                 pgB) pg') as [_ Hfr].
    { rewrite Hpg'. erewrite (try_catch_cong _ tail).
      - apply stable_try_catch; [apply Htail|apply stable_on_error].
      - erewrite bind_run; [done|]. apply Hrun. lia. }
    rewrite Hfr by tauto. rewrite children_at_page_alter_eq by lia. done.
Qed.

Lemma stable_submit D env net :
  (∀ i, outputPre env = Some i → D i) →
  (∀ i, fileList env = Some i → D i) →
  (∀ i, downloadLinks env = Some i → D i) →
  stable (frame D) (submit env net).
Proof.
  intros Ho Hf Hd. unfold submit, settle.
  apply stable_bind; [apply stable_submit_begin|]. intros _.
  apply stable_try_catch; [|apply stable_on_error].
  unfold attempt. destruct net as [|ok [data|]]; try apply stable_throw;
    destruct ok; try apply stable_throw. simpl. unfold display.
  apply stable_bind; [by apply stable_populate|]. intros _.
  apply stable_bind; [apply stable_reveal|]. intros _. apply stable_activateTab.
Qed.

Lemma submit_fields_only env fields fields' pg :
  Forall (fun k => own_property fields' (lit k) = own_property fields (lit k))
         ["refined_output"; "created_files"; "log_file"] →
  submit env (Response true (Some (JObj fields'))) pg
  = submit env (Response true (Some (JObj fields))) pg.
Proof.
  intros H. apply Forall_cons in H as [H1 H]. apply Forall_cons in H as [H2 H].
  apply Forall_cons in H as [H3 _].
  unfold submit, settle, attempt, display, populate, show_output, list_files, list_downloads,
    get_field.
  by rewrite H1, H2, H3.
Qed.

(** C1 (amended). For a successful response whose body has the shape
    [{refined_output, created_files, log_file}], the handler shows
    [refined_output] verbatim as the output text and creates one
    file-list entry per element of [created_files]; when no path in
    [created_files] or [log_file] has an unpaired surrogate, [log_file]
    is rendered as the last download link; and no member of the body
    other than these three has any influence on the page. *)
Theorem submit_consumes_contract env pg data ro files lf :
  indicators_ok env pg = true → containers_ok env pg = true →
  has_shape data ro files lf →
  let pg' := (submit env (Response true (Some data)) pg).1 in
  text_at pg' (outputPre env) = ro
  ∧ children_at pg' (fileList env) = map (fun f => Li (basename f)) files
  ∧ (Forall (fun f => isWellFormed f = true) (files ++ [lf]) →
     ∃ links e, length links = length files
       ∧ encodeURIComponent lf = Some e
       ∧ children_at pg' (downloadLinks env)
         = links ++ [Anchor (lit "/download/" ++ e) (lit "Log File") (basename lf)])
  ∧ (∀ fields fields', data = JObj fields →
       Forall (fun k => own_property fields' (lit k) = own_property fields (lit k))
              ["refined_output"; "created_files"; "log_file"] →
       submit env (Response true (Some (JObj fields'))) pg
       = submit env (Response true (Some data)) pg).
Proof.
  intros Hind Hcont Hshape pg'.
  destruct (submit_panes env pg data ro files lf Hind Hcont Hshape) as (Ho & Hf & Hd).
  split_and!.
  - rewrite text_at_children. fold pg' in Ho. rewrite Ho.
    destruct ro; [done|]. simpl. by rewrite app_nil_r.
  - done.
  - intros Hwf. destruct (Hd Hwf) as (links & e & Hlinks & He & Hch).
    exists links, e. split_and!; [|done|done].
    symmetry. by eapply Forall2_length.
  - intros fields fields' -> Hsame. by apply submit_fields_only.
Qed.

(** C9 (amended). A successful response of the contract's shape leaves
    in the file list exactly one item per element of [created_files],
    each showing the basename, whatever the list held before; when no
    path has an unpaired surrogate the downloads container holds one
    link per file followed by the log-file link, and nothing else; the
    same holds after any earlier submission. *)
Theorem submit_repopulates env pg data ro files lf :
  indicators_ok env pg = true → containers_ok env pg = true →
  has_shape data ro files lf →
  ∀ before, before = pg ∨ (∃ net, before = (submit env net pg).1) →
    let pg' := (submit env (Response true (Some data)) before).1 in
    children_at pg' (fileList env) = map (fun f => Li (basename f)) files
    ∧ (Forall (fun f => isWellFormed f = true) (files ++ [lf]) →
       ∃ links e, Forall2 (fun f n => is_link (basename f) f n) files links
         ∧ encodeURIComponent lf = Some e
         ∧ children_at pg' (downloadLinks env)
           = links ++ [Anchor (lit "/download/" ++ e) (lit "Log File") (basename lf)]
         ∧ length (children_at pg' (downloadLinks env)) = length files + 1).
Proof.
  intros Hind Hcont Hshape before Hbefore pg'.
  assert (Hskel : skeleton before = skeleton pg).
  { destruct Hbefore as [->|[net ->]]; [done|].
    by apply (stable_submit (fun _ => True) env net). }
  rewrite <- (skeleton_indicators_ok _ _ _ Hskel) in Hind.
  rewrite <- (skeleton_containers_ok _ _ _ Hskel) in Hcont.
  destruct (submit_panes env before data ro files lf Hind Hcont Hshape) as (_ & Hf & Hd).
  split; [done|]. intros Hwf. destruct (Hd Hwf) as (links & e & Hlinks & He & Hch).
  exists links, e. split_and!; [done|done|done|].
  fold pg' in Hch. rewrite Hch, length_app. simpl.
  by rewrite <- (Forall2_length _ _ _ Hlinks).
Qed.

(** C8 (amended). For a file path [f] without unpaired surrogate,
    [addDownloadLink(f, l)] appends exactly one anchor: its href is
    "/download/" followed by [encodeURIComponent(f)], which holds no
    "/"; its download attribute is the part of [f] after the last "/";
    its text is [l] when [l] is given and not empty, that basename
    otherwise. *)
Theorem addDownloadLink_appends env pg d f l :
  downloadLinks env = Some d → d < length (elements pg) →
  is_jsstring f → isWellFormed f = true →
  ∃ e, encodeURIComponent f = Some e ∧ (slash ∉ e)
    ∧ (let a := Anchor (lit "/download/" ++ e)
                  (match l with Some (c :: t) => c :: t | _ => basename f end)
                  (basename f) in
       addDownloadLink env (Some (JStr f)) l pg
         = (page_alter d (with_children (fun ns => ns ++ [a])) pg, Ok tt)
       ∧ children_at (addDownloadLink env (Some (JStr f)) l pg).1 (Some d)
         = children_at pg (Some d) ++ [a]
       ∧ ∀ j, j ≠ d →
           elements (addDownloadLink env (Some (JStr f)) l pg).1 !! j = elements pg !! j)
    ∧ (slash ∉ basename f)
    ∧ ∃ p, f = p ++ basename f ∧ (p = [] ∨ last p = Some slash).
Proof.
  intros Hd Hlt Hf Hwf.
  apply encodeURIComponent_isWellFormed in Hwf as [e He].
  exists e. split_and!; [done|by eapply encodeURIComponent_no_slash| |apply basename_spec..].
  intros a. rewrite (addDownloadLink_run env d f e l pg Hd Hlt He). fold a.
  split_and!; [done| |].
  - simpl. by apply children_at_page_alter_eq.
  - intros j Hj. simpl. by rewrite list_lookup_alter_ne.
Qed.

(** *** On the page of index.html *)

Lemma example_body_shape :
  has_shape example_body (lit "A calculator.")
    [lit "out/calc.py"; lit "out/read me.md"] (lit "out/log.md").
Proof. eexists. by split_and!. Qed.

Lemma submit_consumes_contract_witness :
  indicators_ok (DOMContentLoaded index_html) index_html = true
  ∧ containers_ok (DOMContentLoaded index_html) index_html = true
  ∧ has_shape example_body (lit "A calculator.")
      [lit "out/calc.py"; lit "out/read me.md"] (lit "out/log.md")
  ∧ text_at (submit (DOMContentLoaded index_html)
               (Response true (Some example_body)) index_html).1
      (outputPre (DOMContentLoaded index_html)) = lit "A calculator.".
Proof.
  assert (H1 : indicators_ok (DOMContentLoaded index_html) index_html = true)
    by reflexivity.
  assert (H2 : containers_ok (DOMContentLoaded index_html) index_html = true)
    by reflexivity.
  split_and!; [exact H1|exact H2|exact example_body_shape|].
  exact (proj1 (submit_consumes_contract (DOMContentLoaded index_html) index_html
                  example_body _ _ _ H1 H2 example_body_shape)).
Defined.

Lemma submit_repopulates_witness :
  indicators_ok (DOMContentLoaded index_html) index_html = true
  ∧ containers_ok (DOMContentLoaded index_html) index_html = true
  ∧ has_shape example_body (lit "A calculator.")
      [lit "out/calc.py"; lit "out/read me.md"] (lit "out/log.md")
  ∧ children_at
      (submit (DOMContentLoaded index_html) (Response true (Some example_body))
         (submit (DOMContentLoaded index_html) (Response true (Some example_body))
            index_html).1).1
      (fileList (DOMContentLoaded index_html))
    = [Li (lit "calc.py"); Li (lit "read me.md")].
Proof.
  assert (H1 : indicators_ok (DOMContentLoaded index_html) index_html = true)
    by reflexivity.
  assert (H2 : containers_ok (DOMContentLoaded index_html) index_html = true)
    by reflexivity.
  split_and!; [exact H1|exact H2|exact example_body_shape|].
  exact (proj1 (submit_repopulates (DOMContentLoaded index_html) index_html
                  example_body _ _ _ H1 H2 example_body_shape _
                  (or_intror (ex_intro _ (Response true (Some example_body)) eq_refl)))).
Defined.

Lemma addDownloadLink_appends_witness :
  downloadLinks (DOMContentLoaded index_html) = Some 11
  ∧ 11 < length (elements index_html)
  ∧ is_jsstring (lit "out/read me.md")
  ∧ isWellFormed (lit "out/read me.md") = true
  ∧ ∃ e, encodeURIComponent (lit "out/read me.md") = Some e ∧ (slash ∉ e).
Proof.
  assert (H1 : downloadLinks (DOMContentLoaded index_html) = Some 11) by reflexivity.
  assert (H2 : 11 < length (elements index_html)) by (simpl; lia).
  assert (H3 : is_jsstring (lit "out/read me.md")) by apply lit_is_jsstring.
  assert (H4 : isWellFormed (lit "out/read me.md") = true) by reflexivity.
  split_and!; [exact H1|exact H2|exact H3|exact H4|].
  destruct (addDownloadLink_appends (DOMContentLoaded index_html) index_html 11
              (lit "out/read me.md") None H1 H2 H3 H4) as (e & He & Hs & _).
  exists e. by split.
Defined.

(** C1, as stated, fails: a body of the contract's shape whose
    [log_file] holds a lone surrogate gets no download link, and the
    result section stays hidden behind an alert. *)
Lemma submit_odd_log_not_linked :
  has_shape body_with_odd_log (lit "ok") [] (lit "out/" ++ [0xDC80%Z])
  ∧ indicators_ok (DOMContentLoaded index_html) index_html = true
  ∧ containers_ok (DOMContentLoaded index_html) index_html = true
  ∧ children_at (submit (DOMContentLoaded index_html)
                   (Response true (Some body_with_odd_log)) index_html).1
      (downloadLinks (DOMContentLoaded index_html)) = []
  ∧ alerts (submit (DOMContentLoaded index_html)
              (Response true (Some body_with_odd_log)) index_html).1
    = ["An error occurred. Please try again."].
Proof. split; [eexists; by split_and!|]. by vm_compute. Qed.

(** C9, as stated, fails: with one created file whose path holds a
    lone surrogate the downloads container ends with no link at all,
    not with [created_files.length + 1]. *)
Lemma submit_odd_file_no_links :
  has_shape body_with_odd_file (lit "ok") [lit "out/" ++ [0xDC80%Z]] (lit "out/log.md")
  ∧ indicators_ok (DOMContentLoaded index_html) index_html = true
  ∧ containers_ok (DOMContentLoaded index_html) index_html = true
  ∧ length (children_at (submit (DOMContentLoaded index_html)
                           (Response true (Some body_with_odd_file)) index_html).1
              (downloadLinks (DOMContentLoaded index_html)))
    ≠ length [lit "out/" ++ [0xDC80%Z]] + 1.
Proof. split; [eexists; by split_and!|]. by vm_compute. Qed.

(** C8, as stated, fails twice: an empty label is provided and the
    text is the basename all the same; and for a path with a lone
    surrogate nothing is appended. *)
Lemma addDownloadLink_empty_label_lone_surrogate :
  (children_at (addDownloadLink (DOMContentLoaded index_html)
                  (Some (JStr (lit "a/b.txt"))) (Some []) index_html).1
     (downloadLinks (DOMContentLoaded index_html))
   = [Anchor (lit "/download/a%2Fb.txt") (lit "b.txt") (lit "b.txt")]
   ∧ lit "b.txt" ≠ [])
  ∧ addDownloadLink (DOMContentLoaded index_html)
      (Some (JStr [0xDC80%Z])) None index_html
    = (index_html, Throw URIError).
Proof. by vm_compute. Qed.

End ScriptFacts.

(** ** The pipeline *)

Module PipelineFacts.
Import Pipeline.

#[local] Set Warnings "-clear-no-such-hyp".

Lemma retry_Some {A} n k (step : nat -> Attempt A) a :
  retry n k step = Some a → ∃ j, k <= j < k + n ∧ step j = Success a.
Proof.
  revert k. induction n as [|n IH]; intros k; [done|]. simpl.
  destruct (step k) eqn:E; [|intros H|done].
  - intros [= ->]. exists k. split; [lia|done].
  - apply IH in H as (j & Hj & Hs). exists j. split; [lia|done].
Qed.

Lemma retry_first {A} n (step : nat -> Attempt A) a :
  step 0 = Success a → retry (S n) 0 step = Some a.
Proof. simpl. by intros ->. Qed.

(** C3. [decompose] returns [DecompositionError] or a sequence of at
    least one and at most [max_subtasks] SubTasks, the first ones the
    model proposed, in its order; never the empty sequence. *)
Theorem decompose_bounded d obj log :
  1 <= max_subtasks d →
  (decompose d obj log).1 = inl DecompositionError
  ∨ ∃ tasks proposed text k,
      (decompose d obj log).1 = inr tasks
      ∧ tasks ≠ [] ∧ 1 <= length tasks <= max_subtasks d
      ∧ complete d ("decompose: " +:+ augment d obj) k = inr text
      ∧ parse_subtasks d text = Some proposed
      ∧ tasks = take (max_subtasks d) proposed.
Proof.
  intros Hmax. unfold decompose.
  destruct (retry _ _ _) as [tasks|] eqn:E; [right|by left].
  apply retry_Some in E as (k & _ & Hstep). unfold decompose_step in Hstep.
  destruct (complete d _ k) as [[]|text] eqn:Ec; try done.
  destruct (parse_subtasks d text) as [[|t ts]|] eqn:Ep; try done.
  injection Hstep as <-.
  exists (take (max_subtasks d) (t :: ts)), (t :: ts), text, k. simpl.
  split_and!; try done.
  - destruct (max_subtasks d); [lia|done].
  - rewrite length_take. simpl. lia.
  - rewrite length_take. lia.
Qed.

Lemma decompose_bounded_witness :
  1 <= max_subtasks answering
  ∧ ∃ tasks, (decompose answering calculator []).1 = inr tasks ∧ length tasks = 2.
Proof.
  assert (H : 1 <= max_subtasks answering) by (simpl; lia).
  split; [exact H|].
  destruct (decompose_bounded answering calculator [] H)
    as [Hbad|(tasks & proposed & text & k & Hd & _ & _ & _ & _ & _)].
  - discriminate Hbad.
  - exists tasks. split; [exact Hd|].
    injection Hd as <-. reflexivity.
Defined.

(** *** Refiner and fallback *)












(** *** Materializer *)










(** *** Driver *)





End PipelineFacts.

(** ** More on the script: what the handlers leave alone *)

Module ScriptMore.
Import JS Json Script JSFacts ScriptFacts.

#[local] Set Warnings "-clear-no-such-hyp".

Lemma classes_at_lookup pg j e : elements pg !! j = Some e → classes_at pg j = el_classList e.
Proof. unfold classes_at. by intros ->. Qed.


Section within.
Context (toks : list string) (loud : bool).

Lemma within_refl pg : within toks loud pg pg.
Proof. by split_and!. Qed.

Lemma within_trans pg1 pg2 pg3 :
  within toks loud pg1 pg2 → within toks loud pg2 pg3 → within toks loud pg1 pg3.
Proof.
  intros (S1 & O1 & L1 & C1) (S2 & O2 & L2 & C2). split_and!; [congruence|congruence| |].
  - intros Hl. destruct (L1 Hl), (L2 Hl). split; congruence.
  - intros j tok Htok. by rewrite C2, C1.
Qed.

Lemma w_pure {A} (m : M A) : (∀ pg, (m pg).1 = pg) → stable (within toks loud) m.
Proof. intros H pg. rewrite H. apply within_refl. Qed.

Lemma w_bind {A B} (m : M A) (k : A -> M B) :
  stable (within toks loud) m → (∀ a, stable (within toks loud) (k a)) →
  stable (within toks loud) (bind m k).
Proof.
  intros Hm Hk pg. specialize (Hm pg). unfold bind.
  destruct (m pg) as [pg1 [a|e]]; [|done].
  eapply within_trans; [exact Hm|apply Hk].
Qed.

Lemma w_try_catch m h :
  stable (within toks loud) m → (∀ e, stable (within toks loud) (h e)) →
  stable (within toks loud) (try_catch m h).
Proof.
  intros Hm Hh pg. specialize (Hm pg). unfold try_catch.
  destruct (m pg) as [pg1 [a|e]]; [done|].
  eapply within_trans; [exact Hm|apply Hh].
Qed.

Lemma w_forEach {A} (a : list A) f :
  (∀ x, stable (within toks loud) (f x)) → stable (within toks loud) (forEach a f).
Proof.
  intros Hf. induction a as [|x a IH]; [by apply w_pure|].
  simpl. apply w_bind; [apply Hf|done].
Qed.

Lemma w_update r f :
  (∀ e, el_id (f e) = el_id e ∧ el_dataset_tab (f e) = el_dataset_tab e) →
  (∀ e tok, tok ∉ toks → tok ∈ el_classList (f e) ↔ tok ∈ el_classList e) →
  stable (within toks loud) (update r f).
Proof.
  intros Hskel Hcl pg. unfold update. destruct r as [i|]; [|apply within_refl].
  destruct (elements pg !! i) as [e|] eqn:E; [|apply within_refl].
  simpl. split_and!; [|done|done|].
  - unfold skeleton. simpl. apply list_eq. intros j.
    rewrite !list_lookup_fmap. destruct (decide (i = j)) as [<-|Hne].
    + rewrite list_lookup_insert_eq by (by eapply lookup_lt_Some).
      rewrite E. simpl. by destruct (Hskel e) as [-> ->].
    + by rewrite list_lookup_insert_ne.
  - intros j tok Htok. unfold classes_at. simpl.
    destruct (decide (i = j)) as [<-|Hne].
    + rewrite list_lookup_insert_eq by (by eapply lookup_lt_Some).
      rewrite E. simpl. by apply Hcl.
    + by rewrite list_lookup_insert_ne.
Qed.

Lemma w_children r f : stable (within toks loud) (update r (with_children f)).
Proof. by apply w_update. Qed.

Lemma w_add r tok : tok ∈ toks → stable (within toks loud) (classList_add_on r tok).
Proof.
  intros Hin. apply w_update; [done|]. intros e tok' Hout. simpl.
  apply elem_of_classList_add_ne. by intros ->.
Qed.

Lemma w_remove r tok : tok ∈ toks → stable (within toks loud) (classList_remove_on r tok).
Proof.
  intros Hin. apply w_update; [done|]. intros e tok' Hout. simpl.
  apply elem_of_classList_remove_ne. by intros ->.
Qed.

Lemma w_alert msg : loud = true → stable (within toks loud) (alert msg).
Proof. intros -> pg. by split_and!. Qed.

Lemma w_console_error e : loud = true → stable (within toks loud) (console_error e).
Proof. intros -> pg. by split_and!. Qed.

Lemma w_get_field data k : stable (within toks loud) (get_field data k).
Proof. apply w_pure. intros pg. by destruct data. Qed.

Lemma w_as_array v : stable (within toks loud) (as_array v).
Proof. apply w_pure. intros pg. by destruct v as [[]|]. Qed.

Lemma w_split_pop v : stable (within toks loud) (split_pop v).
Proof. apply w_pure. intros pg. by destruct v as [[]|]. Qed.

Lemma w_download_href v : stable (within toks loud) (download_href v).
Proof.
  unfold download_href. apply w_bind.
  - destruct v as [v|]; [destruct (ToString v)|]; by apply w_pure.
  - intros s. destruct (encodeURIComponent s); by apply w_pure.
Qed.

Lemma w_or_else label rhs :
  stable (within toks loud) rhs → stable (within toks loud) (or_else label rhs).
Proof. intros H. destruct label as [[|]|]; simpl; [done|by apply w_pure|done]. Qed.

Lemma w_set_textContent r v : stable (within toks loud) (set_textContent r v).
Proof.
  unfold set_textContent. apply w_bind.
  - destruct v as [[]|]; try (by apply w_pure);
      (match goal with |- context [ToString ?w] => destruct (ToString w) end;
       by apply w_pure).
  - intros s. apply w_children.
Qed.

Ltac w_step :=
  first
    [ apply w_children | apply w_get_field | apply w_as_array | apply w_split_pop
    | apply w_download_href | apply w_or_else | apply w_set_textContent
    | apply w_forEach; intros ?
    | apply w_bind; [|intros ?] ].

Lemma w_populate env data : stable (within toks loud) (populate env data).
Proof.
  unfold populate, show_output, list_files, list_downloads, clear_innerHTML,
    addDownloadLink, appendChild.
  repeat w_step.
Qed.

Lemma w_activateTab env b :
  "active" ∈ toks → stable (within toks loud) (activateTab env b).
Proof.
  intros Hin. unfold activateTab.
  repeat first
    [ by apply w_add | by apply w_remove | by apply w_pure
    | apply w_forEach; intros ? | apply w_bind; [|intros ?] ].
  apply w_pure. intros pg. unfold dataset_tab_of. by destruct (b ≫= _).
Qed.

Lemma w_reveal env : "hidden" ∈ toks → stable (within toks loud) (reveal env).
Proof. intros Hin. unfold reveal. apply w_bind; [by apply w_remove|intros _; by apply w_add]. Qed.

Lemma w_submit_begin env : "hidden" ∈ toks → stable (within toks loud) (submit_begin env).
Proof.
  intros Hin. unfold submit_begin.
  apply w_bind; [by apply w_remove|intros _; by apply w_add].
Qed.

Lemma w_attempt env net :
  "hidden" ∈ toks → "active" ∈ toks → stable (within toks loud) (attempt env net).
Proof.
  intros Hh Ha. unfold attempt.
  destruct net as [|ok [data|]]; try (by apply w_pure);
    destruct ok; try (by apply w_pure). simpl. unfold display.
  apply w_bind; [apply w_populate|]. intros _.
  apply w_bind; [by apply w_reveal|]. intros _. by apply w_activateTab.
Qed.

Lemma w_on_error env e :
  "hidden" ∈ toks → loud = true → stable (within toks loud) (on_error env e).
Proof.
  intros Hh Hl. unfold on_error.
  apply w_bind; [by apply w_console_error|]. intros _.
  apply w_bind; [by apply w_alert|]. intros _. by apply w_add.
Qed.

Lemma w_submit env net :
  "hidden" ∈ toks → "active" ∈ toks → loud = true →
  stable (within toks loud) (submit env net).
Proof.
  intros Hh Ha Hl. unfold submit, settle.
  apply w_bind; [by apply w_submit_begin|]. intros _.
  apply w_try_catch; [by apply w_attempt|]. intros e. by apply w_on_error.
Qed.
End within.

Lemma stable_within_weaken {A} toks toks' loud loud' (m : M A) :
  (∀ t, t ∈ toks → t ∈ toks') → (loud = true → loud' = true) →
  stable (within toks loud) m → stable (within toks' loud') m.
Proof.
  intros Ht Hl Hm pg. destruct (Hm pg) as (S1 & O1 & L1 & C1).
  split_and!; [done|done| |].
  - intros Hl'. apply L1. destruct loud; [|done]. by rewrite Hl in Hl'.
  - intros j tok Htok. apply C1. intros Hin. by apply Htok, Ht.
Qed.

(** *** The references resolved at load *)

Lemma select_from_spec p l n :
  NoDup (select_from p l n)
  ∧ ∀ j, j ∈ select_from p l n ↔ n <= j ∧ ∃ e, l !! (j - n) = Some e ∧ p e = true.
Proof.
  revert n. induction l as [|e l IH]; intros n; simpl.
  - split; [apply NoDup_nil_2|]. intros j. rewrite elem_of_nil.
    split; [done|]. by intros (_ & e & He & _).
  - destruct (IH (S n)) as [IHnd IHin].
    assert (Htail : ∀ j, (S n <= j ∧ ∃ e', l !! (j - S n) = Some e' ∧ p e' = true)
                        ↔ (n <= j ∧ j ≠ n ∧ ∃ e', (e :: l) !! (j - n) = Some e' ∧ p e' = true)).
    { intros j. split.
      - intros (Hle & e' & He' & Hp). split_and!; [lia|lia|]. exists e'. split; [|done].
        by replace (j - n) with (S (j - S n)) by lia.
      - intros (Hle & Hne & e' & He' & Hp). split; [lia|]. exists e'. split; [|done].
        by replace (j - n) with (S (j - S n)) in He' by lia. }
    destruct (p e) eqn:E.
    + split.
      * apply NoDup_cons. split; [|done]. rewrite IHin. lia.
      * intros j. rewrite elem_of_cons, IHin, Htail.
        split.
        -- intros [->|(? & ? & ?)]; [|done]. split; [lia|]. exists e.
           by rewrite Nat.sub_diag.
        -- intros (Hle & e' & He' & Hp). destruct (decide (j = n)) as [->|]; [by left|].
           right. eauto.
    + split; [done|]. intros j. rewrite IHin, Htail. split.
      * by intros (? & ? & ?).
      * intros (Hle & e' & He' & Hp). split_and!; [done| |eauto].
        intros ->. rewrite Nat.sub_diag in He'. simpl in He'. congruence.
Qed.

Lemma querySelectorAll_class_spec pg c :
  NoDup (querySelectorAll_class pg c)
  ∧ ∀ j, j ∈ querySelectorAll_class pg c
         ↔ ∃ e, elements pg !! j = Some e ∧ c ∈ el_classList e.
Proof.
  destruct (select_from_spec (has_class c) (elements pg) 0) as [Hnd Hin].
  split; [done|]. intros j. unfold querySelectorAll_class. rewrite Hin.
  rewrite Nat.sub_0_r. unfold has_class. split.
  - intros (_ & e & He & Hp). apply bool_decide_eq_true in Hp. eauto.
  - intros (e & He & Hc). split; [lia|]. exists e. by rewrite bool_decide_eq_true.
Qed.

Lemma getElementById_distinct pg i1 i2 k1 k2 :
  getElementById pg i1 = Some k1 → getElementById pg i2 = Some k2 →
  i1 ≠ i2 → k1 ≠ k2 ∧ k1 < length (elements pg) ∧ k2 < length (elements pg).
Proof.
  intros H1 H2 Hne.
  apply getElementById_Some in H1 as (e1 & He1 & Hid1).
  apply getElementById_Some in H2 as (e2 & He2 & Hid2).
  split_and!; [|by eapply lookup_lt_Some..].
  intros ->. rewrite He1 in He2. injection He2 as ->. congruence.
Qed.

(** X1. The references the script resolves at load are sound: each of
    the five elements found by id (the form, the loading indicator,
    the result section, the file list, the download links) carries the
    id it was looked up under, any two of them found under different
    ids are different elements, and each tab list holds exactly the
    elements with its class, each once; so the loading indicator and
    the result section, once found, are elements of the page. *)
Theorem DOMContentLoaded_references pg :
  let env := DOMContentLoaded pg in
  (∀ i k, (i, Some k) ∈ found_by_id env →
          ∃ e, elements pg !! k = Some e ∧ el_id e = Some i)
  ∧ (∀ i1 k1 i2 k2, (i1, Some k1) ∈ found_by_id env → (i2, Some k2) ∈ found_by_id env →
                    i1 ≠ i2 → k1 ≠ k2)
  ∧ (∀ l r, loadingDiv env = Some l → resultDiv env = Some r →
            indicators_ok env pg = true)
  ∧ (∀ b, b ∈ tabButtons env ↔ ∃ e, elements pg !! b = Some e ∧ "tab-btn" ∈ el_classList e)
  ∧ (∀ c, c ∈ tabContents env
          ↔ ∃ e, elements pg !! c = Some e ∧ "tab-content" ∈ el_classList e)
  ∧ NoDup (tabButtons env) ∧ NoDup (tabContents env)
  ∧ tab_lists_ok env pg = true.
Proof.
  intros env.
  destruct (querySelectorAll_class_spec pg "tab-btn") as [Hnb Hb].
  destruct (querySelectorAll_class_spec pg "tab-content") as [Hnc Hc].
  assert (Hfound : ∀ i k, (i, Some k) ∈ found_by_id env → getElementById pg i = Some k).
  { intros i k H. unfold found_by_id in H.
    repeat (apply elem_of_cons in H as [[= -> H']|H]; [simpl in H'; by rewrite H'|]).
    by apply elem_of_nil in H. }
  split_and!; [| | |done|done|done|done|].
  - intros i k H. by apply getElementById_Some, Hfound.
  - intros i1 k1 i2 k2 H1 H2 Hne.
    by apply (getElementById_distinct pg i1 i2 k1 k2); [apply Hfound..|].
  - intros l r Hl Hr.
    destruct (getElementById_distinct pg "loading" "result" l r Hl Hr) as (? & ? & ?);
      [done|].
    unfold indicators_ok. rewrite Hl, Hr. by apply bool_decide_eq_true.
  - unfold tab_lists_ok. rewrite !andb_true_iff, bool_decide_eq_true, !forallb_forall.
    split_and!; [done| |].
    + intros b Hin. apply list_elem_of_In, Hb in Hin as (e & He & _).
      apply bool_decide_eq_true. by eapply lookup_lt_Some.
    + intros c Hin. apply list_elem_of_In, Hc in Hin as (e & He & _).
      apply bool_decide_eq_true. by eapply lookup_lt_Some.
Qed.

Lemma select_from_ext p l l' n :
  p <$> l = p <$> l' → select_from p l n = select_from p l' n.
Proof.
  revert l' n. induction l as [|e l IH]; intros [|e' l'] n H; try done.
  rewrite !fmap_cons in H. injection H as He Hl. simpl. rewrite He.
  by rewrite (IH l' (S n) Hl).
Qed.

Lemma within_has_class toks loud pg pg' c :
  within toks loud pg pg' → c ∉ toks →
  has_class c <$> elements pg' = has_class c <$> elements pg.
Proof.
  intros (Hs & _ & _ & Hc) Hout. apply list_eq. intros j.
  rewrite !list_lookup_fmap. pose proof (skeleton_lookup _ _ j Hs) as Hj.
  specialize (Hc j c Hout). unfold classes_at in Hc.
  destruct (elements pg' !! j) as [e'|], (elements pg !! j) as [e|]; try done.
  simpl in *. f_equal. unfold has_class. by apply bool_decide_ext.
Qed.

Lemma within_DOMContentLoaded toks loud pg pg' :
  within toks loud pg pg' → "tab-btn" ∉ toks → "tab-content" ∉ toks →
  DOMContentLoaded pg' = DOMContentLoaded pg.
Proof.
  intros Hw Hb Hc. pose proof Hw as (Hs & Ho & _ & _).
  unfold DOMContentLoaded, querySelectorAll_class.
  rewrite !(skeleton_getElementById _ _ _ Hs), Ho.
  rewrite (select_from_ext _ _ _ _ (within_has_class _ _ _ _ _ Hw Hb)).
  by rewrite (select_from_ext _ _ _ _ (within_has_class _ _ _ _ _ Hw Hc)).
Qed.

(** X2. No handler changes what the load-time lookups return: after a
    submission of any outcome and after a click on any button, looking
    up the same ids and classes again gives the same references.  The
    script changes no id and no class other than "hidden" and
    "active". *)
Theorem handlers_keep_references env pg :
  (∀ net, DOMContentLoaded (submit env net pg).1 = DOMContentLoaded pg
          ∧ ∀ j tok, tok ≠ "hidden" → tok ≠ "active" →
              (tok ∈ classes_at (submit env net pg).1 j ↔ tok ∈ classes_at pg j))
  ∧ (∀ b, DOMContentLoaded (activateTab env b pg).1 = DOMContentLoaded pg).
Proof.
  assert (Hnot : ∀ t, t ≠ "hidden" → t ≠ "active" → t ∉ ["hidden"; "active"]).
  { intros t ? ?. rewrite !elem_of_cons, elem_of_nil. tauto. }
  split.
  - intros net.
    assert (Hw : within ["hidden"; "active"] true pg (submit env net pg).1).
    { apply w_submit; [by left|by right; left|done]. }
    split.
    + eapply within_DOMContentLoaded; [exact Hw|by apply Hnot..].
    + intros j tok H1 H2. destruct Hw as (_ & _ & _ & Hc). by apply Hc, Hnot.
  - intros b.
    assert (Hw : within ["hidden"; "active"] true pg (activateTab env b pg).1).
    { apply w_activateTab. by right; left. }
    eapply within_DOMContentLoaded; [exact Hw|by apply Hnot..].
Qed.

(** X3. A click on a tab button changes nothing but "active" classes:
    the content of every pane, the messages, and every other class --
    so what is hidden stays hidden -- are as before, whether or not
    the call throws. *)
Theorem click_changes_active_only env b pg :
  let pg' := (click env b pg).1 in
  (∀ r, children_at pg' r = children_at pg r)
  ∧ alerts pg' = alerts pg ∧ console pg' = console pg
  ∧ (∀ j tok, tok ≠ "active" → tok ∈ classes_at pg' j ↔ tok ∈ classes_at pg j)
  ∧ (∀ r, is_hidden pg' r = is_hidden pg r).
Proof.
  intros pg'.
  assert (Hf : frame (fun _ => False) pg pg') by apply stable_activateTab.
  assert (Hw : within ["active"] false pg pg') by (apply w_activateTab; by left).
  destruct Hf as [_ Hch]. destruct Hw as (_ & _ & Hl & Hc).
  destruct (Hl eq_refl) as [Ha Hco].
  assert (Hcl : ∀ j tok, tok ≠ "active" → tok ∈ classes_at pg' j ↔ tok ∈ classes_at pg j).
  { intros j tok Hne. apply Hc. by rewrite list_elem_of_singleton. }
  split_and!; [|done|done|done|].
  - intros [j|]; [|done]. apply Hch. tauto.
  - intros [j|]; [|done]. simpl. apply bool_decide_ext. by apply Hcl.
Qed.

(** *** One submission, from the spinner to the end *)

Lemma indicators_ok_inv env pg :
  indicators_ok env pg = true →
  ∃ l r, loadingDiv env = Some l ∧ resultDiv env = Some r
         ∧ l < length (elements pg) ∧ r < length (elements pg).
Proof.
  unfold indicators_ok. destruct (loadingDiv env) as [l|]; [|done].
  destruct (resultDiv env) as [r|]; [|done].
  intros H. apply bool_decide_eq_true in H as [? ?]. by exists l, r.
Qed.

Lemma submit_begin_form env pg l r :
  loadingDiv env = Some l → resultDiv env = Some r →
  l < length (elements pg) → r < length (elements pg) →
  submit_begin env pg
  = (map_classes (only_at r (classList_add "hidden"))
       (map_classes (only_at l (classList_remove "hidden")) pg), Ok tt).
Proof.
  intros El Er Hl Hr. unfold submit_begin, classList_remove_on, classList_add_on.
  rewrite El, Er. erewrite bind_run by (by apply classList_run).
  by rewrite classList_run by (by rewrite length_map_classes).
Qed.

Lemma reveal_form env pg l r :
  loadingDiv env = Some l → resultDiv env = Some r →
  l < length (elements pg) → r < length (elements pg) →
  reveal env pg
  = (map_classes (only_at l (classList_add "hidden"))
       (map_classes (only_at r (classList_remove "hidden")) pg), Ok tt).
Proof.
  intros El Er Hl Hr. unfold reveal, classList_remove_on, classList_add_on.
  rewrite El, Er. erewrite bind_run by (by apply classList_run).
  by rewrite classList_run by (by rewrite length_map_classes).
Qed.

Lemma on_error_form env e pg l :
  loadingDiv env = Some l → l < length (elements pg) →
  on_error env e pg
  = (map_classes (only_at l (classList_add "hidden"))
       (mkPage (elements pg) (output_pre pg)
               (alerts pg ++ ["An error occurred. Please try again."])
               (console pg ++ [e])),
     Ok tt).
Proof.
  intros El Hl. unfold on_error, classList_add_on. rewrite El.
  unfold console_error at 1. erewrite bind_run by reflexivity.
  unfold alert at 1. erewrite bind_run by reflexivity.
  by rewrite classList_run.
Qed.

Lemma within_length toks loud pg pg' :
  within toks loud pg pg' → length (elements pg') = length (elements pg).
Proof. intros (Hs & _). by apply skeleton_length. Qed.

Lemma hidden_after_add pg l :
  l < length (elements pg) →
  is_hidden (map_classes (only_at l (classList_add "hidden")) pg) (Some l) = true.
Proof.
  intros Hl. apply bool_decide_eq_true. rewrite classes_at_map_classes by done.
  unfold only_at. rewrite decide_True by done. apply elem_of_classList_add.
Qed.

Lemma visible_after_remove pg r :
  r < length (elements pg) →
  is_hidden (map_classes (only_at r (classList_remove "hidden")) pg) (Some r) = false.
Proof.
  intros Hr. apply bool_decide_eq_false. rewrite classes_at_map_classes by done.
  unfold only_at. rewrite decide_True by done. apply not_elem_of_classList_remove.
Qed.

Lemma is_hidden_other pg i f j :
  i ≠ j → is_hidden (map_classes (only_at i f) pg) (Some j) = is_hidden pg (Some j).
Proof.
  intros Hne. simpl. apply bool_decide_ext. unfold classes_at.
  rewrite lookup_map_classes. destruct (elements pg !! j) as [e|]; [|done].
  simpl. unfold only_at. by rewrite decide_False by done.
Qed.

Lemma is_hidden_within toks loud pg pg' r :
  within toks loud pg pg' → "hidden" ∉ toks → is_hidden pg' r = is_hidden pg r.
Proof.
  intros (_ & _ & _ & Hc) Hout. destruct r as [j|]; [|done]. simpl.
  apply bool_decide_ext. by apply Hc.
Qed.



(** X5. Given the two indicators exist, the submit handler never
    throws and always ends with the loading indicator hidden; it shows
    the alert and logs the error exactly once when the body of its try
    block threw, and shows and logs nothing when it did not. *)
Theorem submit_alerts_iff_thrown env net pg :
  indicators_ok env pg = true →
  let pg' := (submit env net pg).1 in
  (submit env net pg).2 = Ok tt
  ∧ is_hidden pg' (loadingDiv env) = true
  ∧ match (attempt env net (submit_begin env pg).1).2 with
    | Ok _ => alerts pg' = alerts pg ∧ console pg' = console pg
    | Throw e =>
        alerts pg' = alerts pg ++ ["An error occurred. Please try again."]
        ∧ console pg' = console pg ++ [e]
    end.
Proof.
  intros Hind pg'.
  destruct (indicators_ok_inv _ _ Hind) as (l & r & El & Er & Hl & Hr).
  pose proof (submit_begin_form env pg l r El Er Hl Hr) as Hbegin.
  set (pg1 := map_classes _ (map_classes _ pg)) in Hbegin.
  assert (H1 : within ["hidden"] false pg pg1).
  { pose proof (w_submit_begin ["hidden"] false env) as Hw.
    specialize (Hw ltac:(by left) pg). by rewrite Hbegin in Hw. }
  assert (H2 : within ["hidden"; "active"] false pg1 (attempt env net pg1).1)
    by (apply w_attempt; [by left|by right; left]).
  destruct H1 as (S1 & _ & L1 & _). destruct (L1 eq_refl) as [A1 C1].
  pose proof H2 as (S2 & _ & L2 & _). destruct (L2 eq_refl) as [A2 C2].
  unfold pg', submit, settle. erewrite bind_run by exact Hbegin. rewrite Hbegin. cbn [fst].
  unfold try_catch. destruct (attempt env net pg1) as [pgX [[]|e]] eqn:Hatt; cbn [fst snd] in *.
  - split_and!; [done| |congruence|congruence].
    unfold attempt in Hatt. destruct net as [|ok [data|]]; try done;
      destruct ok; try done. simpl in Hatt. unfold display in Hatt.
    apply bind_Ok_inv in Hatt as ([] & pgA & Hpop & Hrest).
    apply bind_Ok_inv in Hrest as ([] & pgB & Hrev & Htab).
    assert (HlenA : length (elements pgA) = length (elements pg)).
    { pose proof (w_populate [] false env data pg1) as Hw. rewrite Hpop in Hw.
      cbn [fst] in Hw. rewrite (within_length _ _ _ _ Hw). by apply skeleton_length. }
    rewrite (reveal_form env pgA l r El Er) in Hrev by lia. injection Hrev as <-.
    assert (Hw : within ["active"] false
                   (map_classes (only_at l (classList_add "hidden"))
                      (map_classes (only_at r (classList_remove "hidden")) pgA)) pgX).
    { pose proof (w_activateTab ["active"] false env (tabButtons env !! 0)
                    ltac:(by left)) as Hw.
      specialize (Hw (map_classes (only_at l (classList_add "hidden"))
                        (map_classes (only_at r (classList_remove "hidden")) pgA))).
      rewrite Htab in Hw. exact Hw. }
    rewrite El, (is_hidden_within _ _ _ _ _ Hw)
      by (rewrite list_elem_of_singleton; done).
    apply hidden_after_add. rewrite length_map_classes. lia.
  - assert (HlenX : length (elements pgX) = length (elements pg))
      by (rewrite (skeleton_length _ _ S2); by apply skeleton_length).
    rewrite (on_error_form env e pgX l El) by lia. cbn [fst snd].
    split_and!; [done| |simpl; congruence|simpl; congruence].
    rewrite El. apply hidden_after_add. simpl. lia.
Qed.

Lemma submit_alerts_iff_thrown_witness :
  indicators_ok (DOMContentLoaded index_html) index_html = true
  ∧ (submit (DOMContentLoaded index_html) (Response true (Some body_without_files))
       index_html).2 = Ok tt.
Proof.
  assert (H1 : indicators_ok (DOMContentLoaded index_html) index_html = true)
    by reflexivity.
  split; [exact H1|].
  exact (proj1 (submit_alerts_iff_thrown _ (Response true (Some body_without_files)) _ H1)).
Defined.

(** *** A body that is not of the contract's shape *)

Lemma submit_catch env net pg pgX e :
  indicators_ok env pg = true →
  attempt env net (submit_begin env pg).1 = (pgX, Throw e) →
  ∃ l, loadingDiv env = Some l ∧ l < length (elements pgX)
    ∧ within ["hidden"; "active"] false pg pgX
    ∧ submit env net pg
      = (map_classes (only_at l (classList_add "hidden"))
           (mkPage (elements pgX) (output_pre pgX)
                   (alerts pg ++ ["An error occurred. Please try again."])
                   (console pg ++ [e])),
         Ok tt).
Proof.
  intros Hind Hatt.
  destruct (indicators_ok_inv _ _ Hind) as (l & r & El & Er & Hl & Hr).
  pose proof (submit_begin_form env pg l r El Er Hl Hr) as Hbegin.
  rewrite Hbegin in Hatt. cbn [fst] in Hatt.
  set (pg1 := map_classes _ (map_classes _ pg)) in *.
  assert (H1 : within ["hidden"; "active"] false pg pg1).
  { pose proof (w_submit_begin ["hidden"; "active"] false env ltac:(by left) pg) as Hw.
    rewrite Hbegin in Hw. exact Hw. }
  assert (H2 : within ["hidden"; "active"] false pg1 pgX).
  { pose proof (w_attempt ["hidden"; "active"] false env net
                  ltac:(by left) ltac:(by right; left) pg1) as Hw.
    rewrite Hatt in Hw. exact Hw. }
  pose proof (within_trans _ _ _ _ _ H1 H2) as H12.
  pose proof (within_length _ _ _ _ H12) as Hlen.
  destruct H12 as (S12 & O12 & L12 & C12). destruct (L12 eq_refl) as [A12 K12].
  exists l. split_and!; [done|lia|by split_and!|].
  unfold submit, settle. erewrite bind_run by exact Hbegin. unfold try_catch. rewrite Hatt.
  rewrite (on_error_form env e pgX l El) by lia. by rewrite A12, K12.
Qed.

(** A submission whose panes could not all be filled: the catch block
    runs on the page the failing statement left.  [pg] is the page when
    the body has been parsed, whatever ran since the submission began. *)
Lemma settle_populate_thrown env data pg pgA e :
  indicators_ok env pg = true →
  populate env data pg = (pgA, Throw e) →
  let pg' := (settle env (Response true (Some data)) pg).1 in
  (settle env (Response true (Some data)) pg).2 = Ok tt
  ∧ (∀ r, children_at pg' r = children_at pgA r)
  ∧ alerts pg' = alerts pg ++ ["An error occurred. Please try again."]
  ∧ console pg' = console pg ++ [e]
  ∧ is_hidden pg' (loadingDiv env) = true
  ∧ (is_hidden pg (resultDiv env) = true → is_hidden pg' (resultDiv env) = true).
Proof.
  intros Hind Hpop pg'.
  destruct (indicators_ok_inv _ _ Hind) as (l & r & El & Er & Hl & Hr).
  pose proof (w_populate [] false env data pg) as Hw.
  rewrite Hpop in Hw. cbn [fst] in Hw.
  pose proof (within_length _ _ _ _ Hw) as Hlen.
  pose proof Hw as (_ & _ & Hquiet & _). destruct (Hquiet eq_refl) as [Ha Hc].
  assert (Hatt : attempt env (Response true (Some data)) pg = (pgA, Throw e)).
  { simpl. unfold display. by apply bind_throw. }
  assert (Hrun : settle env (Response true (Some data)) pg
                 = (map_classes (only_at l (classList_add "hidden"))
                      (mkPage (elements pgA) (output_pre pgA)
                         (alerts pg ++ ["An error occurred. Please try again."])
                         (console pg ++ [e])),
                    Ok tt)).
  { unfold settle, try_catch. rewrite Hatt.
    rewrite (on_error_form env e pgA l El) by lia. by rewrite Ha, Hc. }
  unfold pg'. rewrite Hrun. cbn [fst snd].
  split_and!; [done| |done|done| |].
  - intros x. by rewrite children_at_map_classes.
  - rewrite El. apply hidden_after_add. simpl. lia.
  - rewrite Er. intros Hh. destruct (decide (l = r)) as [->|Hne].
    + apply hidden_after_add. simpl. lia.
    + rewrite is_hidden_other by done.
      transitivity (is_hidden pgA (Some r)); [done|].
      by rewrite (is_hidden_within _ _ _ _ _ Hw) by apply not_elem_of_nil.
Qed.

Lemma forEach_app {A} (a b : list A) (f : A -> M unit) pg :
  forEach (a ++ b) f pg = (forEach a f >> forEach b f) pg.
Proof.
  revert pg. induction a as [|x a IH]; intros pg; [done|].
  simpl forEach. rewrite bind_assoc.
  set (k1 := fun _ : unit => forEach (a ++ b) f).
  set (k2 := fun _ : unit => forEach a f >> forEach b f).
  unfold bind. destruct (f x pg) as [pg1 [[]|e]]; [apply IH|done].
Qed.

Lemma show_output_str env fields ro o pg :
  own_property fields (lit "refined_output") = Some (JStr ro) →
  outputPre env = Some o → o < length (elements pg) →
  show_output env (JObj fields) pg
  = (page_alter o (with_children (fun _ => match ro with [] => [] | _ => [Text ro] end)) pg,
     Ok tt).
Proof.
  intros H1 Ho Hlt. unfold show_output, get_field. rewrite H1, Ho.
  erewrite bind_run by reflexivity. unfold set_textContent. simpl ToString.
  erewrite bind_run by reflexivity. by apply update_run.
Qed.

Lemma containers_ok_inv env pg :
  containers_ok env pg = true →
  ∃ o f d, outputPre env = Some o ∧ fileList env = Some f ∧ downloadLinks env = Some d
    ∧ o < length (elements pg) ∧ f < length (elements pg) ∧ d < length (elements pg)
    ∧ o ≠ f ∧ o ≠ d ∧ f ≠ d.
Proof.
  unfold containers_ok.
  destruct (outputPre env) as [o|]; [|done].
  destruct (fileList env) as [f|]; [|done].
  destruct (downloadLinks env) as [d|]; [|done].
  intros H. apply bool_decide_eq_true in H. exists o, f, d. by intuition.
Qed.

(** The file list loop over [map JStr good ++ bad :: rest], where
    [bad] is not a string: the items of [good], then the TypeError. *)
Lemma forEach_append_li_stops fl good bad rest pg :
  fl < length (elements pg) → (∀ s, bad ≠ JStr s) →
  forEach (map JStr good ++ bad :: rest)
    (fun file => let* name := split_pop (Some file) in appendChild (Some fl) (Li name)) pg
  = (page_alter fl (with_children (fun ns => ns ++ map (fun f => Li (basename f)) good)) pg,
     Throw TypeError).
Proof.
  intros Hlt Hbad. rewrite forEach_app.
  erewrite bind_run by (by apply forEach_append_li).
  simpl. apply bind_throw. apply bind_throw.
  destruct bad; try done. by destruct (Hbad s).
Qed.

(** X6. A parsed object whose [created_files] is missing or is not an
    array: the handler has already replaced the output text and
    emptied the file list when line 37 throws; the download links that
    were there stay, the alert is shown, and this run does not show
    the result section.  [pg] is the page when the body has been
    parsed. *)
Theorem submit_created_files_not_array env pg fields ro :
  indicators_ok env pg = true → containers_ok env pg = true →
  own_property fields (lit "refined_output") = Some (JStr ro) →
  (∀ items, own_property fields (lit "created_files") ≠ Some (JArr items)) →
  let pg' := (settle env (Response true (Some (JObj fields))) pg).1 in
  text_at pg' (outputPre env) = ro
  ∧ children_at pg' (fileList env) = []
  ∧ children_at pg' (downloadLinks env) = children_at pg (downloadLinks env)
  ∧ alerts pg' = alerts pg ++ ["An error occurred. Please try again."]
  ∧ console pg' = console pg ++ [TypeError]
  ∧ (is_hidden pg (resultDiv env) = true → is_hidden pg' (resultDiv env) = true)
  ∧ is_hidden pg' (loadingDiv env) = true.
Proof.
  intros Hind Hcont Hro Hcf pg'.
  destruct (containers_ok_inv _ _ Hcont)
    as (o & fl & d & Eo & Ef & Ed & Ho & Hf & Hd & Hof & Hod & Hfd).
  set (pgA := page_alter o
    (with_children (fun _ => match ro with [] => [] | _ => [Text ro] end)) pg).
  set (pgB := page_alter fl (with_children (fun _ => [])) pgA).
  assert (Hpop : populate env (JObj fields) pg = (pgB, Throw TypeError)).
  { unfold populate. rewrite ?bind_assoc.
    erewrite bind_run by (eapply show_output_str; [done|done|lia]).
    apply bind_throw. unfold list_files, clear_innerHTML. rewrite Ef.
    erewrite bind_run by (apply update_run; rewrite length_page_alter; lia).
    unfold get_field. erewrite bind_run by reflexivity.
    apply bind_throw. fold pgA. fold pgB.
    destruct (own_property fields (lit "created_files")) as [[| | |items|]|] eqn:E;
      try done. by destruct (Hcf items). }
  destruct (settle_populate_thrown _ _ _ _ _ Hind Hpop) as (_ & Hch & Ha & Hc & Hl & Hr).
  fold pg' in Hch, Ha, Hc, Hl, Hr.
  split_and!; [|..|done|done|done|done].
  - rewrite text_at_children, Hch, Eo. unfold pgB.
    rewrite children_at_page_alter_ne by done. unfold pgA.
    rewrite children_at_page_alter_eq by lia.
    destruct ro; [done|]. simpl. by rewrite app_nil_r.
  - rewrite Hch, Ef. unfold pgB.
    by rewrite children_at_page_alter_eq by (unfold pgA; rewrite length_page_alter; lia).
  - rewrite Hch, Ed. unfold pgB, pgA.
    by rewrite !children_at_page_alter_ne by done.
Qed.

Lemma submit_created_files_not_array_witness :
  indicators_ok (DOMContentLoaded index_html) index_html = true
  ∧ containers_ok (DOMContentLoaded index_html) index_html = true
  ∧ alerts (settle (DOMContentLoaded index_html)
              (Response true (Some body_without_files)) index_html).1
    = ["An error occurred. Please try again."].
Proof.
  assert (H1 : indicators_ok (DOMContentLoaded index_html) index_html = true)
    by reflexivity.
  assert (H2 : containers_ok (DOMContentLoaded index_html) index_html = true)
    by reflexivity.
  assert (H3 : own_property [ (lit "refined_output", JStr (lit "ok"));
                              (lit "log_file", JStr (lit "out/log.md")) ]
                 (lit "refined_output") = Some (JStr (lit "ok"))) by reflexivity.
  assert (H4 : ∀ items,
             own_property [ (lit "refined_output", JStr (lit "ok"));
                            (lit "log_file", JStr (lit "out/log.md")) ]
               (lit "created_files") ≠ Some (JArr items)) by (intros items; by vm_compute).
  split_and!; [exact H1|exact H2|].
  exact (proj1 (proj2 (proj2 (proj2
    (submit_created_files_not_array _ index_html _ _ H1 H2 H3 H4))))).
Defined.

(** X7. A [created_files] array with an entry that is not a string:
    the file list holds the names of the strings before that entry and
    nothing after them, the download links that were there stay, the
    alert is shown, and this run does not show the result section.
    [pg] is the page when the body has been parsed. *)
Theorem submit_non_string_file env pg fields ro good bad rest :
  indicators_ok env pg = true → containers_ok env pg = true →
  own_property fields (lit "refined_output") = Some (JStr ro) →
  own_property fields (lit "created_files") = Some (JArr (map JStr good ++ bad :: rest)) →
  (∀ s, bad ≠ JStr s) →
  let pg' := (settle env (Response true (Some (JObj fields))) pg).1 in
  children_at pg' (fileList env) = map (fun f => Li (basename f)) good
  ∧ children_at pg' (downloadLinks env) = children_at pg (downloadLinks env)
  ∧ alerts pg' = alerts pg ++ ["An error occurred. Please try again."]
  ∧ console pg' = console pg ++ [TypeError]
  ∧ (is_hidden pg (resultDiv env) = true → is_hidden pg' (resultDiv env) = true).
Proof.
  intros Hind Hcont Hro Hcf Hbad pg'.
  destruct (containers_ok_inv _ _ Hcont)
    as (o & fl & d & Eo & Ef & Ed & Ho & Hf & Hd & Hof & Hod & Hfd).
  set (pgA := page_alter o
    (with_children (fun _ => match ro with [] => [] | _ => [Text ro] end)) pg).
  set (pgB := page_alter fl
    (with_children (fun _ => map (fun f => Li (basename f)) good)) pgA).
  assert (Hpop : populate env (JObj fields) pg = (pgB, Throw TypeError)).
  { unfold populate. rewrite ?bind_assoc.
    erewrite bind_run by (eapply show_output_str; [done|done|lia]).
    apply bind_throw. unfold list_files, clear_innerHTML. rewrite Ef.
    erewrite bind_run by (apply update_run; rewrite length_page_alter; lia).
    unfold get_field. erewrite bind_run by reflexivity. rewrite Hcf.
    simpl as_array. erewrite bind_run by reflexivity. fold pgA.
    rewrite forEach_append_li_stops
      by (rewrite ?length_page_alter; unfold pgA; rewrite ?length_page_alter; done || lia).
    f_equal. unfold pgB. rewrite page_alter_children_compose.
    by apply page_alter_children_ext. }
  destruct (settle_populate_thrown _ _ _ _ _ Hind Hpop) as (_ & Hch & Ha & Hc & Hl & Hr).
  fold pg' in Hch, Ha, Hc, Hl, Hr.
  split_and!; [..|done|done|done].
  - rewrite Hch, Ef. unfold pgB.
    by rewrite children_at_page_alter_eq by (unfold pgA; rewrite length_page_alter; lia).
  - rewrite Hch, Ed. unfold pgB, pgA.
    by rewrite !children_at_page_alter_ne by done.
Qed.

Lemma submit_non_string_file_witness :
  indicators_ok (DOMContentLoaded index_html) index_html = true
  ∧ containers_ok (DOMContentLoaded index_html) index_html = true
  ∧ children_at (settle (DOMContentLoaded index_html)
                   (Response true (Some body_with_number)) index_html).1
      (fileList (DOMContentLoaded index_html))
    = [Li (lit "a.py")].
Proof.
  assert (H1 : indicators_ok (DOMContentLoaded index_html) index_html = true)
    by reflexivity.
  assert (H2 : containers_ok (DOMContentLoaded index_html) index_html = true)
    by reflexivity.
  split_and!; [exact H1|exact H2|].
  refine (proj1 (submit_non_string_file (DOMContentLoaded index_html) index_html
            [ (lit "refined_output", JStr (lit "ok"));
              (lit "created_files",
               JArr [JStr (lit "out/a.py"); JPrim (lit "7"); JStr (lit "out/b.py")]);
              (lit "log_file", JStr (lit "out/log.md")) ]
            (lit "ok") [lit "out/a.py"] (JPrim (lit "7")) [JStr (lit "out/b.py")]
            H1 H2 _ _ _)); [reflexivity|reflexivity|intros s; discriminate].
Defined.

(** *** A path that cannot be encoded *)

Lemma encodeURIComponent_ill_formed f :
  isWellFormed f = false → encodeURIComponent f = None.
Proof.
  intros Hf. destruct (encodeURIComponent f) as [e|] eqn:E; [|done].
  assert (is_Some (encodeURIComponent f)) as Hs by (by rewrite E).
  apply encodeURIComponent_isWellFormed in Hs. congruence.
Qed.

(** The calls of [addDownloadLink] in lines 45-48 are made for
    [files ++ [lf]] in this order; when [bad] is the first path that
    cannot be encoded, the links of the paths before it are there. *)
Lemma list_downloads_stops env data ro files lf d good bad rest :
  has_shape data ro files lf → downloadLinks env = Some d →
  files ++ [lf] = good ++ bad :: rest →
  Forall (fun f => isWellFormed f = true) good → isWellFormed bad = false →
  ∃ links, Forall2 (fun f n => is_link (basename f) f n) good links
    ∧ ∀ pg, d < length (elements pg) →
        list_downloads env data pg
        = (page_alter d (with_children (fun _ => links)) pg, Throw URIError).
Proof.
  intros Hshape Hd Hsplit Hgood Hbad.
  destruct (get_field_shape _ _ _ _ Hshape) as (_ & H2 & H3).
  apply encodeURIComponent_ill_formed in Hbad.
  destruct (forEach_links env d good Hd Hgood) as (links & Hlinks & Hrun).
  exists links. split; [done|]. intros pg Hlt.
  unfold list_downloads, clear_innerHTML. rewrite H2, H3, Hd.
  erewrite bind_run by (by apply update_run).
  erewrite bind_run by reflexivity. simpl as_array.
  erewrite bind_run by reflexivity.
  induction rest as [|x rest' _] using rev_ind.
  - apply app_inj_tail in Hsplit as [-> ->].
    erewrite bind_run by (apply Hrun; by rewrite length_page_alter).
    erewrite bind_run by reflexivity.
    rewrite addDownloadLink_URIError by done.
    f_equal. rewrite !page_alter_children_compose. by apply page_alter_children_ext.
  - rewrite app_comm_cons, app_assoc in Hsplit.
    apply app_inj_tail in Hsplit as [-> ->].
    erewrite bind_throw; [reflexivity|].
    rewrite map_app, forEach_app. simpl map.
    erewrite bind_run by (apply Hrun; by rewrite length_page_alter).
    simpl forEach. erewrite bind_throw by (by apply addDownloadLink_URIError).
    f_equal. rewrite !page_alter_children_compose. by apply page_alter_children_ext.
Qed.

(** X8. When a path of the response cannot be encoded, the download
    pane keeps the links made before it -- in the order of
    [created_files], the log file last -- and nothing else; the file
    list is complete, the alert is shown, and this run does not show
    the result section.  [pg] is the page when the body has been
    parsed. *)
Theorem submit_links_stop_at_odd_path env pg data ro files lf good bad rest :
  indicators_ok env pg = true → containers_ok env pg = true →
  has_shape data ro files lf →
  files ++ [lf] = good ++ bad :: rest →
  Forall (fun f => isWellFormed f = true) good → isWellFormed bad = false →
  let pg' := (settle env (Response true (Some data)) pg).1 in
  (∃ links, Forall2 (fun f n => is_link (basename f) f n) good links
            ∧ children_at pg' (downloadLinks env) = links)
  ∧ children_at pg' (fileList env) = map (fun f => Li (basename f)) files
  ∧ alerts pg' = alerts pg ++ ["An error occurred. Please try again."]
  ∧ console pg' = console pg ++ [URIError]
  ∧ (is_hidden pg (resultDiv env) = true → is_hidden pg' (resultDiv env) = true).
Proof.
  intros Hind Hcont Hshape Hsplit Hgood Hbad pg'.
  destruct (containers_ok_inv _ _ Hcont)
    as (o & fl & d & Eo & Ef & Ed & Ho & Hf & Hd & Hof & Hod & Hfd).
  destruct (list_downloads_stops _ _ _ _ _ _ _ _ _ Hshape Ed Hsplit Hgood Hbad)
    as (links & Hlinks & Hrun).
  set (pgA := page_alter o
    (with_children (fun _ => match ro with [] => [] | _ => [Text ro] end)) pg).
  set (pgB := page_alter fl
    (with_children (fun _ => map (fun f => Li (basename f)) files)) pgA).
  set (pgC := page_alter d (with_children (fun _ => links)) pgB).
  assert (HlenB : length (elements pgB) = length (elements pg))
    by (unfold pgB, pgA; by rewrite !length_page_alter).
  assert (Hpop : populate env data pg = (pgC, Throw URIError)).
  { unfold populate. rewrite ?bind_assoc.
    erewrite bind_run by (eapply show_output_run; [done|done|lia]).
    erewrite bind_run
      by (eapply list_files_run; [done|done|rewrite length_page_alter; lia]).
    apply Hrun. fold pgA. fold pgB. lia. }
  destruct (settle_populate_thrown _ _ _ _ _ Hind Hpop) as (_ & Hch & Ha & Hc & Hl & Hr).
  fold pg' in Hch, Ha, Hc, Hl, Hr.
  split_and!; [|..|done|done|done].
  - exists links. split; [done|]. rewrite Hch, Ed. unfold pgC.
    by rewrite children_at_page_alter_eq by lia.
  - rewrite Hch, Ef. unfold pgC. rewrite children_at_page_alter_ne by done.
    unfold pgB.
    by rewrite children_at_page_alter_eq by (unfold pgA; rewrite length_page_alter; lia).
Qed.

Lemma submit_links_stop_at_odd_path_witness :
  indicators_ok (DOMContentLoaded index_html) index_html = true
  ∧ containers_ok (DOMContentLoaded index_html) index_html = true
  ∧ has_shape body_with_odd_log (lit "ok") [] (lit "out/" ++ [0xDC80%Z])
  ∧ console (settle (DOMContentLoaded index_html)
               (Response true (Some body_with_odd_log)) index_html).1
    = [URIError].
Proof.
  assert (H1 : indicators_ok (DOMContentLoaded index_html) index_html = true)
    by reflexivity.
  assert (H2 : containers_ok (DOMContentLoaded index_html) index_html = true)
    by reflexivity.
  assert (H3 : has_shape body_with_odd_log (lit "ok") [] (lit "out/" ++ [0xDC80%Z]))
    by (eexists; split_and!; reflexivity).
  assert (H4 : [] ++ [lit "out/" ++ [0xDC80%Z]]
               = [] ++ (lit "out/" ++ [0xDC80%Z]) :: []) by reflexivity.
  assert (H5 : Forall (fun f : jsstring => isWellFormed f = true) []) by constructor.
  assert (H6 : isWellFormed (lit "out/" ++ [0xDC80%Z]) = false) by reflexivity.
  split_and!; [exact H1|exact H2|exact H3|].
  exact (proj1 (proj2 (proj2 (proj2
    (submit_links_stop_at_odd_path _ index_html _ _ _ _ _ _ _ H1 H2 H3 H4 H5 H6))))).
Defined.

(** *** Tabs that are not there *)

Lemma update_result r f pg :
  (update r f pg).2 = Ok tt ∨ (update r f pg).2 = Throw TypeError.
Proof.
  unfold update. destruct r as [i|]; [|by right].
  destruct (elements pg !! i); [by left|by right].
Qed.

Lemma forEach_result {A} (a : list A) (f : A -> M unit) pg :
  (∀ x pg, (f x pg).2 = Ok tt ∨ (f x pg).2 = Throw TypeError) →
  (forEach a f pg).2 = Ok tt ∨ (forEach a f pg).2 = Throw TypeError.
Proof.
  intros Hf. revert pg. induction a as [|x a IH]; intros pg; [by left|].
  simpl. unfold bind. destruct (Hf x pg) as [H|H];
    destruct (f x pg) as [pg1 [[]|e]]; simpl in *; try done; first [apply IH|by right].
Qed.

(** [activateTab(undefined)]: line 81 throws, whatever the page is. *)
Lemma activateTab_None env pg : (activateTab env None pg).2 = Throw TypeError.
Proof.
  unfold activateTab.
  pose proof (forEach_result (tabButtons env)
    (fun btn => classList_remove_on (Some btn) "active") pg
    (fun x pg => update_result _ _ pg)) as H1.
  unfold bind at 1.
  destruct (forEach (tabButtons env) _ pg) as [pg1 [[]|e]]; simpl in H1;
    [|destruct H1 as [|[= ->]]; done].
  pose proof (forEach_result (tabContents env)
    (fun c => classList_remove_on (Some c) "active") pg1
    (fun x pg => update_result _ _ pg)) as H2.
  unfold bind at 1.
  destruct (forEach (tabContents env) _ pg1) as [pg2 [[]|e]]; simpl in H2;
    [|destruct H2 as [|[= ->]]; done].
  done.
Qed.

Lemma populate_run env data ro files lf pg :
  containers_ok env pg = true → has_shape data ro files lf →
  Forall (fun f => isWellFormed f = true) (files ++ [lf]) →
  ∃ pgA, populate env data pg = (pgA, Ok tt).
Proof.
  intros Hcont Hshape Hwf.
  destruct (containers_ok_inv _ _ Hcont)
    as (o & fl & d & Eo & Ef & Ed & Ho & Hf & Hd & Hof & Hod & Hfd).
  destruct (list_downloads_run env data ro files lf d Hshape Ed Hwf)
    as (links & e & _ & _ & Hrun).
  unfold populate. rewrite ?bind_assoc.
  erewrite bind_run by (eapply show_output_run; [done|done|lia]).
  erewrite bind_run
    by (eapply list_files_run; [done|done|rewrite length_page_alter; lia]).
  eexists. apply Hrun. rewrite !length_page_alter. lia.
Qed.

(** X9. On a page without tab buttons, a response of the contract's
    shape fills the three panes and shows the result section, and then
    line 55 throws: the user sees the result and the alert. *)
Theorem submit_without_tab_buttons env pg data ro files lf :
  indicators_ok env pg = true → containers_ok env pg = true →
  loadingDiv env ≠ resultDiv env → tabButtons env = [] →
  has_shape data ro files lf →
  Forall (fun f => isWellFormed f = true) (files ++ [lf]) →
  let pg' := (submit env (Response true (Some data)) pg).1 in
  alerts pg' = alerts pg ++ ["An error occurred. Please try again."]
  ∧ console pg' = console pg ++ [TypeError]
  ∧ is_hidden pg' (resultDiv env) = false
  ∧ is_hidden pg' (loadingDiv env) = true
  ∧ text_at pg' (outputPre env) = ro
  ∧ children_at pg' (fileList env) = map (fun f => Li (basename f)) files
  ∧ length (children_at pg' (downloadLinks env)) = length files + 1.
Proof.
  intros Hind Hcont Hne Htabs Hshape Hwf pg'.
  destruct (indicators_ok_inv _ _ Hind) as (l & r & El & Er & Hl & Hr).
  pose proof (submit_begin_form env pg l r El Er Hl Hr) as Hbegin.
  set (pg1 := map_classes _ (map_classes _ pg)) in Hbegin.
  assert (Hlen1 : length (elements pg1) = length (elements pg))
    by (unfold pg1; by rewrite !length_map_classes).
  assert (Hcont1 : containers_ok env pg1 = true).
  { rewrite <- Hcont. apply skeleton_containers_ok. unfold pg1.
    by rewrite !skeleton_map_classes. }
  destruct (populate_run _ _ _ _ _ _ Hcont1 Hshape Hwf) as (pgA & Hpop).
  assert (HlenA : length (elements pgA) = length (elements pg)).
  { pose proof (w_populate [] false env data pg1) as Hw. rewrite Hpop in Hw.
    cbn [fst] in Hw. by rewrite (within_length _ _ _ _ Hw). }
  set (pgB := map_classes (only_at l (classList_add "hidden"))
                (map_classes (only_at r (classList_remove "hidden")) pgA)).
  destruct (activateTab env None pgB) as [pgC res] eqn:Htab.
  assert (res = Throw TypeError) as ->
    by (pose proof (activateTab_None env pgB) as H; by rewrite Htab in H).
  assert (Hw : within ["active"] false pgB pgC).
  { pose proof (w_activateTab ["active"] false env None ltac:(by left) pgB) as Hw.
    rewrite Htab in Hw. exact Hw. }
  assert (Hatt : attempt env (Response true (Some data)) (submit_begin env pg).1
                 = (pgC, Throw TypeError)).
  { rewrite Hbegin. cbn [fst]. simpl. unfold display.
    erewrite bind_run by exact Hpop.
    erewrite bind_run by (apply (reveal_form env pgA l r El Er); lia).
    rewrite Htabs. exact Htab. }
  destruct (submit_catch _ _ _ _ _ Hind Hatt) as (l' & El' & Hl' & _ & Hrun).
  assert (l' = l) as -> by congruence.
  destruct (submit_panes env pg data ro files lf Hind Hcont Hshape) as (Ho & Hf & Hd).
  destruct (Hd Hwf) as (links & e & Hlinks & He & Hch).
  fold pg' in Ho, Hf, Hch.
  assert (Hpg' : pg' = map_classes (only_at l (classList_add "hidden"))
           (mkPage (elements pgC) (output_pre pgC)
              (alerts pg ++ ["An error occurred. Please try again."])
              (console pg ++ [TypeError]))) by (unfold pg'; by rewrite Hrun).
  assert (l ≠ r) by congruence.
  split_and!.
  - by rewrite Hpg'.
  - by rewrite Hpg'.
  - rewrite Hpg', Er. rewrite is_hidden_other by done.
    transitivity (is_hidden pgC (Some r)); [done|].
    rewrite (is_hidden_within _ _ _ _ _ Hw) by (rewrite list_elem_of_singleton; done).
    unfold pgB. rewrite is_hidden_other by done.
    apply visible_after_remove. lia.
  - rewrite Hpg', El. by apply hidden_after_add.
  - rewrite text_at_children, Ho. destruct ro; [done|]. simpl. by rewrite app_nil_r.
  - done.
  - rewrite Hch, length_app. simpl. by rewrite <- (Forall2_length _ _ _ Hlinks).
Qed.

Lemma submit_without_tab_buttons_witness :
  indicators_ok (DOMContentLoaded page_without_tabs) page_without_tabs = true
  ∧ containers_ok (DOMContentLoaded page_without_tabs) page_without_tabs = true
  ∧ tabButtons (DOMContentLoaded page_without_tabs) = []
  ∧ is_hidden (submit (DOMContentLoaded page_without_tabs)
                 (Response true (Some example_body)) page_without_tabs).1
      (resultDiv (DOMContentLoaded page_without_tabs)) = false
  ∧ alerts (submit (DOMContentLoaded page_without_tabs)
              (Response true (Some example_body)) page_without_tabs).1
    = ["An error occurred. Please try again."].
Proof.
  assert (H1 : indicators_ok (DOMContentLoaded page_without_tabs) page_without_tabs = true)
    by reflexivity.
  assert (H2 : containers_ok (DOMContentLoaded page_without_tabs) page_without_tabs = true)
    by reflexivity.
  assert (H3 : loadingDiv (DOMContentLoaded page_without_tabs)
               ≠ resultDiv (DOMContentLoaded page_without_tabs)) by (by vm_compute).
  assert (H4 : tabButtons (DOMContentLoaded page_without_tabs) = []) by reflexivity.
  assert (H5 : Forall (fun f => isWellFormed f = true)
                 ([lit "out/calc.py"; lit "out/read me.md"] ++ [lit "out/log.md"]))
    by (repeat constructor).
  pose proof (submit_without_tab_buttons _ page_without_tabs _ _ _ _
                H1 H2 H3 H4 example_body_shape H5) as (Ha & _ & Hr & _).
  split_and!; [exact H1|exact H2|exact H4|exact Hr|exact Ha].
Defined.

(** [activateTab] on an element whose data-tab names no element, in
    closed form: line 83 throws after the classes were changed. *)
Lemma activateTab_dangling env pg b :
  tab_lists_ok env pg = true → b < length (elements pg) → target_of pg b = None →
  activateTab env (Some b) pg
  = (map_classes (tab_classes_dangling env b) pg, Throw TypeError).
Proof.
  unfold tab_lists_ok. rewrite !andb_true_iff, !forallb_forall.
  intros [[_ Hbs] Hcs] Hlt Ht.
  unfold activateTab.
  erewrite bind_run;
    [|apply forEach_remove; apply Forall_forall; intros x Hx;
      apply list_elem_of_In, Hbs in Hx; by apply bool_decide_eq_true in Hx].
  erewrite bind_run;
    [|apply forEach_remove; apply Forall_forall; intros x Hx;
      rewrite length_map_classes;
      apply list_elem_of_In, Hcs in Hx; by apply bool_decide_eq_true in Hx].
  unfold classList_add_on at 1. run_classList.
  destruct (lookup_lt_is_Some_2 _ _ Hlt) as [e He].
  erewrite bind_run
    by (unfold dataset_tab_of; simpl; rewrite !list_lookup_imap, He; reflexivity).
  unfold lookup_id. erewrite bind_run by reflexivity.
  simpl el_dataset_tab.
  rewrite !getElementById_map_classes.
  unfold target_of in Ht. rewrite He in Ht. rewrite Ht.
  unfold classList_add_on, update. f_equal.
  rewrite !map_classes_compose. apply map_classes_ext.
  intros j e' _. unfold tab_classes_dangling. by repeat case_decide.
Qed.

(** X10. A click on a tab button whose data-tab names no element:
    line 83 throws, and the page is left with that button as the only
    active one and with no other tab content active. *)
Theorem click_dangling_tab env pg b :
  tab_lists_ok env pg = true → b ∈ tabButtons env → target_of pg b = None →
  let pg' := (click env b pg).1 in
  (click env b pg).2 = Throw TypeError
  ∧ filter (fun i => is_active pg' i = true) (tabButtons env) = [b]
  ∧ (∀ c, c ∈ tabContents env → c ≠ b → is_active pg' c = false).
Proof.
  intros Hok Hb Ht pg'.
  pose proof Hok as Hok'. unfold tab_lists_ok in Hok'.
  rewrite !andb_true_iff, !forallb_forall, bool_decide_eq_true in Hok'.
  destruct Hok' as [[Hnd Hbs] Hcs].
  assert (Hlt : ∀ x, x ∈ tabButtons env → x < length (elements pg)).
  { intros x Hx. apply list_elem_of_In, Hbs in Hx. by apply bool_decide_eq_true in Hx. }
  assert (Hlc : ∀ x, x ∈ tabContents env → x < length (elements pg)).
  { intros x Hx. apply list_elem_of_In, Hcs in Hx. by apply bool_decide_eq_true in Hx. }
  unfold pg', click. rewrite (activateTab_dangling env pg b Hok (Hlt b Hb) Ht).
  cbn [fst snd]. split_and!; [done| |].
  - apply filter_only; [done|done|]. intros j Hj.
    rewrite is_active_map_classes by (by apply Hlt).
    unfold tab_classes_dangling, only_at.
    rewrite (decide_True (P := j ∈ tabButtons env)) by done.
    destruct (decide (j = b)) as [->|Hne].
    + split; [done|]. intros _. apply elem_of_classList_add.
    + split; [|done]. intros Hin. exfalso.
      destruct (decide (j ∈ tabContents env)); simpl in Hin.
      * by apply not_elem_of_classList_remove in Hin.
      * by apply not_elem_of_classList_remove in Hin.
  - intros c Hc Hne. apply not_true_is_false.
    rewrite is_active_map_classes by (by apply Hlc).
    unfold tab_classes_dangling, only_at.
    rewrite (decide_False (P := c = b)) by done.
    rewrite (decide_True (P := c ∈ tabContents env)) by done. simpl.
    apply not_elem_of_classList_remove.
Qed.

Lemma click_dangling_tab_witness :
  tab_lists_ok (DOMContentLoaded page_with_dangling_tab) page_with_dangling_tab = true
  ∧ 4 ∈ tabButtons (DOMContentLoaded page_with_dangling_tab)
  ∧ target_of page_with_dangling_tab 4 = None
  ∧ (click (DOMContentLoaded page_with_dangling_tab) 4 page_with_dangling_tab).2
    = Throw TypeError.
Proof.
  assert (H1 : tab_lists_ok (DOMContentLoaded page_with_dangling_tab)
                 page_with_dangling_tab = true) by reflexivity.
  assert (H2 : 4 ∈ tabButtons (DOMContentLoaded page_with_dangling_tab))
    by (apply (bool_decide_unpack _); by vm_compute).
  assert (H3 : target_of page_with_dangling_tab 4 = None) by reflexivity.
  split_and!; [exact H1|exact H2|exact H3|].
  exact (proj1 (click_dangling_tab _ _ _ H1 H2 H3)).
Defined.

(** *** Clicks in a row *)

Lemma tab_classes_absorb env b1 t1 b2 t2 j cl :
  b1 ∈ tabButtons env → b2 ∈ tabButtons env →
  t1 ∈ tabContents env → t2 ∈ tabContents env →
  (∀ x, x ∈ tabButtons env → x ∉ tabContents env) →
  tab_classes env b2 t2 j (tab_classes env b1 t1 j cl) = tab_classes env b2 t2 j cl.
Proof.
  intros Hb1 Hb2 Ht1 Ht2 Hdisjoint.
  pose proof (Hdisjoint b1 Hb1). pose proof (Hdisjoint b2 Hb2).
  assert (t1 ∉ tabButtons env) by (intros ?; by apply (Hdisjoint t1)).
  assert (t2 ∉ tabButtons env) by (intros ?; by apply (Hdisjoint t2)).
  unfold tab_classes, only_at.
  repeat case_decide; subst; simpl; try done;
    rewrite ?classList_remove_add, ?classList_remove_idemp, ?classList_add_idemp;
    done.
Qed.

(** X11. The tab state depends on the last click only: a click on a
    tab button after a click on another gives the page that the second
    click alone gives. *)
Theorem click_last_wins env pg b1 b2 :
  tabs_ok env pg = true → b1 ∈ tabButtons env → b2 ∈ tabButtons env →
  click env b2 (click env b1 pg).1 = click env b2 pg.
Proof.
  intros Hok Hb1 Hb2. destruct (tabs_ok_spec _ _ Hok) as (_ & _ & Hbs & _).
  destruct (activateTab_run env pg b1 Hok Hb1) as (t1 & _ & Ht1 & Hrun1).
  destruct (activateTab_run env pg b2 Hok Hb2) as (t2 & Htar2 & Ht2 & Hrun2).
  unfold click. rewrite Hrun1, Hrun2. cbn [fst].
  assert (Hok1 : tabs_ok env (map_classes (tab_classes env b1 t1) pg) = true)
    by (by rewrite tabs_ok_map_classes).
  destruct (activateTab_run env _ b2 Hok1 Hb2) as (t2' & Htar2' & _ & Hrun2').
  rewrite target_of_map_classes in Htar2'.
  assert (t2' = t2) as -> by congruence.
  rewrite Hrun2'. f_equal. rewrite map_classes_compose. apply map_classes_ext.
  intros j e _. apply tab_classes_absorb; try done. intros x Hx. by apply Hbs.
Qed.

Lemma click_last_wins_witness :
  tabs_ok (DOMContentLoaded index_html) index_html = true
  ∧ 4 ∈ tabButtons (DOMContentLoaded index_html)
  ∧ 5 ∈ tabButtons (DOMContentLoaded index_html)
  ∧ click (DOMContentLoaded index_html) 5 (click (DOMContentLoaded index_html) 4 index_html).1
    = click (DOMContentLoaded index_html) 5 index_html.
Proof.
  assert (H1 : tabs_ok (DOMContentLoaded index_html) index_html = true) by reflexivity.
  assert (H2 : 4 ∈ tabButtons (DOMContentLoaded index_html))
    by (apply (bool_decide_unpack _); by vm_compute).
  assert (H3 : 5 ∈ tabButtons (DOMContentLoaded index_html))
    by (apply (bool_decide_unpack _); by vm_compute).
  split_and!; [exact H1|exact H2|exact H3|].
  exact (click_last_wins _ _ _ _ H1 H2 H3).
Defined.

(** *** What a submission does to the tabs and to the result section *)

(** X12. A request that fails (rejected, not ok, or not JSON) changes
    no class token other than "hidden": the selected tab is as it
    was. *)
Theorem submit_failed_keeps_tab env net pg :
  request_failed net →
  let pg' := (submit env net pg).1 in
  (∀ j tok, tok ≠ "hidden" → tok ∈ classes_at pg' j ↔ tok ∈ classes_at pg j)
  ∧ (∀ j, is_active pg' j = is_active pg j).
Proof.
  intros Hfail pg'.
  assert (∃ e, attempt env net = throw e) as [e He].
  { destruct Hfail as [->|[[body ->]| ->]]; simpl; eauto. }
  assert (Hw : within ["hidden"] true pg pg').
  { unfold pg', submit, settle. apply w_bind; [apply w_submit_begin; by left|]. intros _.
    apply w_try_catch.
    - rewrite He. by apply w_pure.
    - intros e'. apply w_on_error; [by left|done]. }
  destruct Hw as (_ & _ & _ & Hc).
  assert (Hc' : ∀ j tok, tok ≠ "hidden" → tok ∈ classes_at pg' j ↔ tok ∈ classes_at pg j).
  { intros j tok Htok. apply Hc. by rewrite list_elem_of_singleton. }
  split; [done|]. intros j. unfold is_active. apply bool_decide_ext. by apply Hc'.
Qed.

Lemma submit_failed_keeps_tab_witness :
  request_failed Rejected
  ∧ ∀ j, is_active (submit (DOMContentLoaded index_html) Rejected index_html).1 j
         = is_active index_html j.
Proof.
  assert (H1 : request_failed Rejected) by (by left).
  split; [exact H1|].
  exact (proj2 (submit_failed_keeps_tab (DOMContentLoaded index_html) _ index_html H1)).
Defined.

(** X13. A submission that reaches the end of the try block ends with
    the result section shown and the loading indicator hidden, and
    has shown and logged nothing. *)
Theorem submit_success_shows_result env net pg pg' :
  indicators_ok env pg = true → loadingDiv env ≠ resultDiv env →
  succeeds env net pg pg' →
  is_hidden pg' (resultDiv env) = false
  ∧ is_hidden pg' (loadingDiv env) = true
  ∧ alerts pg' = alerts pg
  ∧ console pg' = console pg.
Proof.
  intros Hind Hne (pg1 & Hbegin & Hatt).
  destruct (indicators_ok_inv _ _ Hind) as (l & r & El & Er & Hl & Hr).
  assert (l ≠ r) by congruence.
  assert (H1 : within ["hidden"; "active"] false pg pg1).
  { pose proof (w_submit_begin ["hidden"; "active"] false env ltac:(by left) pg) as Hw.
    rewrite Hbegin in Hw. exact Hw. }
  assert (H2 : within ["hidden"; "active"] false pg1 pg').
  { pose proof (w_attempt ["hidden"; "active"] false env net
                  ltac:(by left) ltac:(by right; left) pg1) as Hw.
    rewrite Hatt in Hw. exact Hw. }
  destruct (within_trans _ _ _ _ _ H1 H2) as (_ & _ & L12 & _).
  destruct (L12 eq_refl) as [A12 K12].
  unfold attempt in Hatt. destruct net as [|ok [data|]]; try done;
    destruct ok; try done. simpl in Hatt. unfold display in Hatt.
  apply bind_Ok_inv in Hatt as ([] & pgA & Hpop & Hrest).
  apply bind_Ok_inv in Hrest as ([] & pgB & Hrev & Htab).
  assert (HlenA : length (elements pgA) = length (elements pg)).
  { pose proof (w_populate [] false env data pg1) as Hw. rewrite Hpop in Hw.
    cbn [fst] in Hw. rewrite (within_length _ _ _ _ Hw).
    by apply (within_length _ _ _ _ H1). }
  rewrite (reveal_form env pgA l r El Er) in Hrev by lia. injection Hrev as <-.
  assert (Hw : within ["active"] false
                 (map_classes (only_at l (classList_add "hidden"))
                    (map_classes (only_at r (classList_remove "hidden")) pgA)) pg').
  { pose proof (w_activateTab ["active"] false env (tabButtons env !! 0)
                  ltac:(by left)
                  (map_classes (only_at l (classList_add "hidden"))
                     (map_classes (only_at r (classList_remove "hidden")) pgA))) as Hw.
    rewrite Htab in Hw. exact Hw. }
  rewrite El, Er, !(is_hidden_within _ _ _ _ _ Hw)
    by (rewrite list_elem_of_singleton; done).
  split_and!; [| |done|done].
  - rewrite is_hidden_other by done. apply visible_after_remove. lia.
  - apply hidden_after_add. rewrite length_map_classes. lia.
Qed.

Lemma submit_success_shows_result_witness :
  indicators_ok (DOMContentLoaded index_html) index_html = true
  ∧ loadingDiv (DOMContentLoaded index_html) ≠ resultDiv (DOMContentLoaded index_html)
  ∧ is_hidden (submit (DOMContentLoaded index_html)
                 (Response true (Some example_body)) index_html).1
      (resultDiv (DOMContentLoaded index_html)) = false.
Proof.
  assert (H1 : indicators_ok (DOMContentLoaded index_html) index_html = true)
    by reflexivity.
  assert (H2 : loadingDiv (DOMContentLoaded index_html)
               ≠ resultDiv (DOMContentLoaded index_html)) by (by vm_compute).
  assert (H3 : succeeds (DOMContentLoaded index_html) (Response true (Some example_body))
                 index_html
                 (submit (DOMContentLoaded index_html)
                    (Response true (Some example_body)) index_html).1).
  { exists (submit_begin (DOMContentLoaded index_html) index_html).1.
    split; by vm_compute. }
  split_and!; [exact H1|exact H2|].
  exact (proj1 (submit_success_shows_result _ _ _ _ H1 H2 H3)).
Defined.

(** *** The two string expressions of [addDownloadLink] *)

Lemma split_tail_unique (sep : Z) p1 b1 p2 b2 :
  p1 ++ sep :: b1 = p2 ++ sep :: b2 → (sep ∉ b1) → (sep ∉ b2) → b1 = b2.
Proof.
  revert p2. induction p1 as [|c p1 IH]; intros [|c' p2] Heq H1 H2; simpl in Heq.
  - congruence.
  - injection Heq as <- ->. exfalso. apply H1. apply elem_of_app. right. by left.
  - injection Heq as -> <-. exfalso. apply H2. apply elem_of_app. right. by left.
  - injection Heq as <- Heq. by apply (IH p2).
Qed.

(** X14. [file.split('/').pop()] is the part of the path after its
    last slash, and the whole of a path without one; it holds no
    slash, so taking it twice changes nothing. *)
Theorem basename_of_path dir name :
  slash ∉ name →
  basename (dir ++ slash :: name) = name
  ∧ basename name = name
  ∧ basename (basename (dir ++ slash :: name)) = name.
Proof.
  intros Hname.
  assert (Hplain : ∀ s, slash ∉ s → basename s = s).
  { intros s Hs. unfold basename, pop.
    destruct (split_shape slash s) as (b & -> & Hb & [[_ ->]|[[p ->] _]]); [done|].
    exfalso. apply Hs. apply elem_of_app. right. by left. }
  assert (Hpath : basename (dir ++ slash :: name) = name).
  { unfold basename, pop.
    destruct (split_shape slash (dir ++ slash :: name))
      as (b & -> & Hb & [[_ Heq]|[[p Heq] _]]); simpl.
    - exfalso. apply Hb. rewrite <- Heq. apply elem_of_app. right. by left.
    - symmetry. by apply (split_tail_unique slash dir name p b). }
  split_and!; [done|by apply Hplain|]. rewrite Hpath. by apply Hplain.
Qed.

Lemma basename_of_path_witness :
  (slash ∉ lit "read me.md")
  ∧ basename (lit "out/run 1" ++ slash :: lit "read me.md") = lit "read me.md".
Proof.
  assert (H : slash ∉ lit "read me.md") by (apply (bool_decide_unpack _); by vm_compute).
  split; [exact H|].
  exact (proj1 (basename_of_path (lit "out/run 1") (lit "read me.md") H)).
Defined.

Lemma lor_octet a b : (0 <= a < 256)%Z → (0 <= b < 256)%Z → (0 <= Z.lor a b < 256)%Z.
Proof.
  intros Ha Hb. split; [apply Z.lor_nonneg; lia|].
  destruct (decide (Z.lor a b = 0%Z)) as [->|Hne]; [lia|].
  assert (0 <= Z.lor a b)%Z by (apply Z.lor_nonneg; lia).
  apply (Z.log2_lt_pow2 _ 8); [lia|]. rewrite Z.log2_lor by lia.
  assert (Z.log2 a < 8)%Z.
  { destruct (decide (a = 0%Z)) as [->|]; [done|]. apply Z.log2_lt_pow2; lia. }
  assert (Z.log2 b < 8)%Z.
  { destruct (decide (b = 0%Z)) as [->|]; [done|]. apply Z.log2_lt_pow2; lia. }
  lia.
Qed.

Lemma land_63 x : (0 <= x)%Z → (0 <= Z.land x 0x3F < 64)%Z.
Proof.
  intros Hx. change 0x3F%Z with (Z.ones 6). rewrite Z.land_ones by lia.
  apply Z.mod_pos_bound. lia.
Qed.

Lemma utf8_octets cp :
  (0 <= cp < 0x110000)%Z → Forall (fun b => 0 <= b < 256)%Z (utf8 cp).
Proof.
  intros Hcp. unfold utf8.
  assert (Hl : ∀ x, (0 <= x)%Z → (0 <= Z.lor 0x80 (Z.land x 0x3F) < 256)%Z).
  { intros x Hx. apply lor_octet; [lia|]. pose proof (land_63 x Hx). lia. }
  assert (Hs : ∀ k, (0 <= k)%Z → (0 <= Z.shiftr cp k)%Z)
    by (intros k Hk; apply Z.shiftr_nonneg; lia).
  assert (Hh : ∀ a k m, (0 <= a < 256)%Z → (0 <= k)%Z → (0 < m < 256)%Z →
                 (cp < m * 2 ^ k)%Z → (0 <= Z.lor a (Z.shiftr cp k) < 256)%Z).
  { intros a k m Ha Hk Hm Hlt. apply lor_octet; [done|].
    rewrite Z.shiftr_div_pow2 by done.
    assert (0 < 2 ^ k)%Z by (apply Z.pow_pos_nonneg; lia).
    split; [apply Z.div_pos; lia|].
    apply Z.div_lt_upper_bound; [done|]. nia. }
  destruct (Z.ltb_spec cp 0x80).
  { repeat (apply Forall_cons; split); [lia|done]. }
  destruct (Z.ltb_spec cp 0x800).
  { repeat (apply Forall_cons; split); [|apply Hl; lia|done].
    apply (Hh _ _ 32%Z); lia. }
  destruct (Z.ltb_spec cp 0x10000).
  { repeat (apply Forall_cons; split);
      [|apply Hl, Hs; lia|apply Hl; lia|done].
    apply (Hh _ _ 16%Z); lia. }
  repeat (apply Forall_cons; split);
    [|apply Hl, Hs; lia|apply Hl, Hs; lia|apply Hl; lia|done].
  apply (Hh _ _ 8%Z); lia.
Qed.

Lemma hexdigit_unescaped n : (0 <= n < 16)%Z → unescaped (hexdigit n) = true.
Proof.
  intros Hn. assert (Hcases : n ∈ (Z.of_nat <$> seq 0 16)).
  { apply list_elem_of_fmap. exists (Z.to_nat n). split; [lia|].
    apply elem_of_seq. lia. }
  revert Hcases. generalize n. apply Forall_forall. repeat constructor.
Qed.

Lemma escape_octet_charset b :
  (0 <= b < 256)%Z →
  Forall (fun c => unescaped c = true ∨ c = percent) (escape_octet b).
Proof.
  intros Hb. unfold escape_octet. repeat (apply Forall_cons; split); [| | |done].
  - by right.
  - left. apply hexdigit_unescaped.
    split; [apply Z.div_pos; lia|apply Z.div_lt_upper_bound; lia].
  - left. apply hexdigit_unescaped. apply Z.mod_pos_bound. lia.
Qed.

Lemma escape_code_point_charset cp :
  (0 <= cp < 0x110000)%Z →
  Forall (fun c => unescaped c = true ∨ c = percent) (escape_code_point cp).
Proof.
  intros Hcp. unfold escape_code_point. apply Forall_concat, Forall_fmap.
  eapply Forall_impl; [by apply utf8_octets|]. intros b Hb.
  by apply escape_octet_charset.
Qed.

Lemma encodeURIComponent_charset s e :
  is_jsstring s → encodeURIComponent s = Some e →
  Forall (fun c => unescaped c = true ∨ c = percent) e.
Proof.
  revert e.
  enough (H : (∀ e, is_jsstring s → encodeURIComponent s = Some e
                    → Forall (fun c => unescaped c = true ∨ c = percent) e)
              ∧ ∀ c e, is_jsstring (c :: s) → encodeURIComponent (c :: s) = Some e
                       → Forall (fun c => unescaped c = true ∨ c = percent) e)
    by apply H.
  induction s as [|d s [IH1 IH2]].
  - split; [by intros e _ [= <-]|]. intros c e Hs. simpl.
    apply Forall_cons in Hs as [Hc _]. unfold is_code_unit in Hc.
    repeat case_match; try done; intros [= <-].
    + constructor; [by left|done].
    + rewrite app_nil_r. apply escape_code_point_charset. lia.
  - split; [apply IH2|]. intros c e Hs.
    pose proof Hs as Hs'. apply Forall_cons in Hs' as [Hc Hds].
    pose proof Hds as Hds'. apply Forall_cons in Hds' as [Hd Hs0].
    unfold is_code_unit in Hc, Hd.
    change (encodeURIComponent (c :: d :: s)) with
      (if unescaped c then (c ::.) <$> encodeURIComponent (d :: s)
       else if is_trailing_surrogate c then None
       else if is_leading_surrogate c then
         if is_trailing_surrogate d then
           (escape_code_point (UTF16SurrogatePairToCodePoint c d) ++.)
             <$> encodeURIComponent s
         else None
       else (escape_code_point c ++.) <$> encodeURIComponent (d :: s)).
    destruct (unescaped c) eqn:U.
    + rewrite fmap_Some. intros (e' & He' & ->).
      constructor; [by left|by apply (IH2 d)].
    + destruct (is_trailing_surrogate c) eqn:T; [done|].
      destruct (is_leading_surrogate c) eqn:L.
      * destruct (is_trailing_surrogate d) eqn:T'; [|done].
        rewrite fmap_Some. intros (e' & He' & ->).
        apply Forall_app. split; [|by apply IH1].
        apply escape_code_point_charset.
        unfold UTF16SurrogatePairToCodePoint, is_leading_surrogate,
          is_trailing_surrogate in *. lia.
      * rewrite fmap_Some. intros (e' & He' & ->).
        apply Forall_app. split; [|by apply (IH2 d)].
        apply escape_code_point_charset. lia.
Qed.

(** X15. The href that line 65 builds for a path is "/download/"
    followed by letters, digits, [- _ . ! ~ * ' ( )] and "%" only: the
    path is one segment of the URL, with no "/", "?", "#" or space in
    it. *)
Theorem download_href_one_segment f pg h :
  is_jsstring f → download_href (Some (JStr f)) pg = (pg, Ok h) →
  ∃ e, h = lit "/download/" ++ e
       ∧ encodeURIComponent f = Some e
       ∧ Forall (fun c => unescaped c = true ∨ c = percent) e
       ∧ Forall (fun c => c ∉ lit "/?#& ") e.
Proof.
  intros Hf. unfold download_href. simpl ToString.
  erewrite bind_run by reflexivity.
  destruct (encodeURIComponent f) as [e|] eqn:He; [|done].
  intros [= <-]. exists e. pose proof (encodeURIComponent_charset f e Hf He) as Hcs.
  split_and!; [done|done|done|].
  eapply Forall_impl; [exact Hcs|]. intros c [U| ->].
  - intros Hin. vm_compute lit in Hin. rewrite !elem_of_cons, elem_of_nil in Hin.
    destruct Hin as [->|[->|[->|[->|[->|[]]]]]]; by vm_compute in U.
  - apply (bool_decide_unpack _). by vm_compute.
Qed.

Lemma download_href_one_segment_witness :
  is_jsstring (lit "out/read me.md")
  ∧ ∃ e, lit "/download/out%2Fread%20me.md" = lit "/download/" ++ e
         ∧ encodeURIComponent (lit "out/read me.md") = Some e
         ∧ Forall (fun c => unescaped c = true ∨ c = percent) e
         ∧ Forall (fun c => c ∉ lit "/?#& ") e.
Proof.
  assert (H1 : is_jsstring (lit "out/read me.md")) by apply lit_is_jsstring.
  assert (H2 : download_href (Some (JStr (lit "out/read me.md"))) index_html
               = (index_html, Ok (lit "/download/out%2Fread%20me.md"))) by reflexivity.
  split; [exact H1|].
  exact (download_href_one_segment _ _ _ H1 H2).
Defined.

(** *** A body without a log file *)

Lemma list_files_fields env fields files fl pg :
  own_property fields (lit "created_files") = Some (JArr (map JStr files)) →
  fileList env = Some fl → fl < length (elements pg) →
  list_files env (JObj fields) pg
  = (page_alter fl (with_children (fun _ => map (fun f => Li (basename f)) files)) pg,
     Ok tt).
Proof.
  intros H2 Hf Hlt. unfold list_files, clear_innerHTML, get_field. rewrite H2, Hf.
  erewrite bind_run by (by apply update_run).
  erewrite bind_run by reflexivity. simpl as_array.
  erewrite bind_run by reflexivity.
  rewrite forEach_append_li by (by rewrite length_page_alter).
  f_equal. rewrite page_alter_children_compose. by apply page_alter_children_ext.
Qed.

(** [addDownloadLink(undefined, 'Log File')] and
    [addDownloadLink(null, 'Log File')]: line 65 makes the href of
    "undefined" or "null", line 66 takes the label, line 67 throws. *)
Lemma addDownloadLink_no_file env v pg :
  v = None ∨ v = Some JNull →
  addDownloadLink env v (Some (lit "Log File")) pg = (pg, Throw TypeError).
Proof. intros [-> | ->]; reflexivity. Qed.

(** X16. A body with the output and the files but with no [log_file]
    (missing or null): every file gets its download link, line 67
    throws for the log file before a link for it is appended, the
    alert is shown, and this run does not show the result section.
    [pg] is the page when the body has been parsed. *)
Theorem submit_without_log_file env pg fields ro files :
  indicators_ok env pg = true → containers_ok env pg = true →
  own_property fields (lit "refined_output") = Some (JStr ro) →
  own_property fields (lit "created_files") = Some (JArr (map JStr files)) →
  own_property fields (lit "log_file") = None
    ∨ own_property fields (lit "log_file") = Some JNull →
  Forall (fun f => isWellFormed f = true) files →
  let pg' := (settle env (Response true (Some (JObj fields))) pg).1 in
  (∃ links, Forall2 (fun f n => is_link (basename f) f n) files links
            ∧ children_at pg' (downloadLinks env) = links)
  ∧ children_at pg' (fileList env) = map (fun f => Li (basename f)) files
  ∧ alerts pg' = alerts pg ++ ["An error occurred. Please try again."]
  ∧ console pg' = console pg ++ [TypeError]
  ∧ (is_hidden pg (resultDiv env) = true → is_hidden pg' (resultDiv env) = true).
Proof.
  intros Hind Hcont Hro Hcf Hlog Hwf pg'.
  destruct (containers_ok_inv _ _ Hcont)
    as (o & fl & d & Eo & Ef & Ed & Ho & Hf & Hd & Hof & Hod & Hfd).
  destruct (forEach_links env d files Ed Hwf) as (links & Hlinks & Hrun).
  set (pgA := page_alter o
    (with_children (fun _ => match ro with [] => [] | _ => [Text ro] end)) pg).
  set (pgB := page_alter fl
    (with_children (fun _ => map (fun f => Li (basename f)) files)) pgA).
  set (pgC := page_alter d (with_children (fun _ => links)) pgB).
  assert (HlenB : length (elements pgB) = length (elements pg))
    by (unfold pgB, pgA; by rewrite !length_page_alter).
  assert (Hpop : populate env (JObj fields) pg = (pgC, Throw TypeError)).
  { unfold populate. rewrite ?bind_assoc.
    erewrite bind_run by (eapply show_output_str; [done|done|lia]).
    erewrite bind_run
      by (eapply list_files_fields; [done|done|rewrite length_page_alter; lia]).
    fold pgA. fold pgB.
    unfold list_downloads, clear_innerHTML, get_field. rewrite Hcf, Ed.
    erewrite bind_run by (apply update_run; lia).
    erewrite bind_run by reflexivity. simpl as_array.
    erewrite bind_run by reflexivity.
    erewrite bind_run by (apply Hrun; rewrite length_page_alter; lia).
    erewrite bind_run by reflexivity.
    rewrite addDownloadLink_no_file by done.
    f_equal. unfold pgC. rewrite !page_alter_children_compose.
    by apply page_alter_children_ext. }
  destruct (settle_populate_thrown _ _ _ _ _ Hind Hpop) as (_ & Hch & Ha & Hc & Hl & Hr).
  fold pg' in Hch, Ha, Hc, Hl, Hr.
  split_and!; [|..|done|done|done].
  - exists links. split; [done|]. rewrite Hch, Ed. unfold pgC.
    by rewrite children_at_page_alter_eq by lia.
  - rewrite Hch, Ef. unfold pgC. rewrite children_at_page_alter_ne by done.
    unfold pgB.
    by rewrite children_at_page_alter_eq by (unfold pgA; rewrite length_page_alter; lia).
Qed.

Lemma submit_without_log_file_witness :
  indicators_ok (DOMContentLoaded index_html) index_html = true
  ∧ containers_ok (DOMContentLoaded index_html) index_html = true
  ∧ console (settle (DOMContentLoaded index_html)
               (Response true
                  (Some (JObj [ (lit "refined_output", JStr (lit "ok"));
                                (lit "created_files", JArr (map JStr [lit "out/a.py"])) ])))
               index_html).1
    = [TypeError].
Proof.
  assert (H1 : indicators_ok (DOMContentLoaded index_html) index_html = true)
    by reflexivity.
  assert (H2 : containers_ok (DOMContentLoaded index_html) index_html = true)
    by reflexivity.
  assert (H3 : Forall (fun f => isWellFormed f = true) [lit "out/a.py"])
    by (repeat constructor).
  split_and!; [exact H1|exact H2|].
  refine (proj1 (proj2 (proj2 (proj2
    (submit_without_log_file (DOMContentLoaded index_html) index_html
       [ (lit "refined_output", JStr (lit "ok"));
         (lit "created_files", JArr (map JStr [lit "out/a.py"])) ]
       (lit "ok") [lit "out/a.py"] H1 H2 _ _ _ H3))))); [reflexivity|reflexivity|by left].
Defined.

(** *** Different paths, different links *)

Lemma lor_low x :
  (0 <= x < 64)%Z →
  Z.lor 0x80 x = (0x80 + x)%Z
  ∧ ((x < 32)%Z → Z.lor 0xC0 x = (0xC0 + x)%Z)
  ∧ ((x < 16)%Z → Z.lor 0xE0 x = (0xE0 + x)%Z)
  ∧ ((x < 8)%Z → Z.lor 0xF0 x = (0xF0 + x)%Z).
Proof.
  intros Hx. assert (Hcases : x ∈ (Z.of_nat <$> seq 0 64)).
  { apply list_elem_of_fmap. exists (Z.to_nat x). split; [lia|].
    apply elem_of_seq. lia. }
  revert Hcases. generalize x. apply Forall_forall.
  apply (bool_decide_unpack _). by vm_compute.
Qed.

Lemma utf8_arith cp :
  (0 <= cp < 0x110000)%Z →
  utf8 cp
  = if (cp <? 0x80)%Z then [cp]
    else if (cp <? 0x800)%Z then [0xC0 + cp / 64; 0x80 + cp mod 64]%Z
    else if (cp <? 0x10000)%Z then
      [0xE0 + cp / 4096; 0x80 + (cp / 64) mod 64; 0x80 + cp mod 64]%Z
    else [0xF0 + cp / 262144; 0x80 + (cp / 4096) mod 64;
          0x80 + (cp / 64) mod 64; 0x80 + cp mod 64]%Z.
Proof.
  intros Hcp. unfold utf8.
  change 0x3F%Z with (Z.ones 6).
  rewrite !Z.land_ones, !Z.shiftr_div_pow2 by lia.
  change (2 ^ 6)%Z with 64%Z. change (2 ^ 12)%Z with 4096%Z.
  change (2 ^ 18)%Z with 262144%Z.
  assert (Hm : ∀ y, Z.lor 0x80 (y mod 64) = (0x80 + y mod 64)%Z).
  { intros y. apply lor_low. apply Z.mod_pos_bound. lia. }
  rewrite !Hm.
  destruct (Z.ltb_spec cp 0x80); [done|].
  destruct (Z.ltb_spec cp 0x800).
  { f_equal. apply lor_low; Z.div_mod_to_equations; lia. }
  destruct (Z.ltb_spec cp 0x10000).
  { f_equal. apply lor_low; Z.div_mod_to_equations; lia. }
  f_equal. apply lor_low; Z.div_mod_to_equations; lia.
Qed.

Lemma hexdigit_inj a b :
  (0 <= a < 16)%Z → (0 <= b < 16)%Z → hexdigit a = hexdigit b → a = b.
Proof.
  unfold hexdigit. intros Ha Hb.
  destruct (Z.ltb_spec a 10), (Z.ltb_spec b 10); lia.
Qed.

Lemma escape_octet_app_inj b1 b2 r1 r2 :
  (0 <= b1 < 256)%Z → (0 <= b2 < 256)%Z →
  escape_octet b1 ++ r1 = escape_octet b2 ++ r2 → b1 = b2 ∧ r1 = r2.
Proof.
  intros H1 H2. unfold escape_octet. simpl. intros [= Hhi Hlo Hr].
  apply hexdigit_inj in Hhi; [|Z.div_mod_to_equations; lia..].
  apply hexdigit_inj in Hlo; [|Z.div_mod_to_equations; lia..].
  split; [|done]. Z.div_mod_to_equations; lia.
Qed.

Lemma escape_octets_inj bs1 bs2 r1 r2 :
  Forall (fun b => 0 <= b < 256)%Z bs1 → Forall (fun b => 0 <= b < 256)%Z bs2 →
  length bs1 = length bs2 →
  concat (map escape_octet bs1) ++ r1 = concat (map escape_octet bs2) ++ r2 →
  bs1 = bs2 ∧ r1 = r2.
Proof.
  revert bs2. induction bs1 as [|b1 bs1 IH]; intros [|b2 bs2] H1 H2 Hlen Heq;
    try done.
  apply Forall_cons in H1 as [Hb1 H1]. apply Forall_cons in H2 as [Hb2 H2].
  cbn [concat map] in Heq. rewrite <- !app_assoc in Heq.
  apply escape_octet_app_inj in Heq as [-> Heq]; [|done..].
  apply IH in Heq as [-> ->]; [done|done|done|]. simpl in Hlen. lia.
Qed.

Lemma utf8_first cp :
  (0 <= cp < 0x110000)%Z →
  ∃ b bs, utf8 cp = b :: bs
    ∧ (((b < 0x80)%Z ∧ length bs = 0)
       ∨ ((0xC0 <= b < 0xE0)%Z ∧ length bs = 1)
       ∨ ((0xE0 <= b < 0xF0)%Z ∧ length bs = 2)
       ∨ ((0xF0 <= b < 0xF8)%Z ∧ length bs = 3)).
Proof.
  intros Hcp. rewrite utf8_arith by done.
  destruct (Z.ltb_spec cp 0x80); [eexists _, _; split; [done|]; left; split; [lia|done]|].
  destruct (Z.ltb_spec cp 0x800).
  { eexists _, _; split; [done|]. right; left. split; [|done].
    Z.div_mod_to_equations; lia. }
  destruct (Z.ltb_spec cp 0x10000).
  { eexists _, _; split; [done|]. right; right; left. split; [|done].
    Z.div_mod_to_equations; lia. }
  eexists _, _; split; [done|]. right; right; right. split; [|done].
  Z.div_mod_to_equations; lia.
Qed.

Lemma utf8_inj cp1 cp2 :
  (0 <= cp1 < 0x110000)%Z → (0 <= cp2 < 0x110000)%Z →
  utf8 cp1 = utf8 cp2 → cp1 = cp2.
Proof.
  intros H1 H2. rewrite !utf8_arith by done.
  destruct (Z.ltb_spec cp1 0x80), (Z.ltb_spec cp2 0x80);
    [by intros [= ->]| | |].
  1,2: repeat case_match; intros Heq; simplify_eq; Z.div_mod_to_equations; lia.
  destruct (Z.ltb_spec cp1 0x800), (Z.ltb_spec cp2 0x800).
  1: intros Heq; simplify_eq; Z.div_mod_to_equations; lia.
  1,2: repeat case_match; intros Heq; simplify_eq; Z.div_mod_to_equations; lia.
  destruct (Z.ltb_spec cp1 0x10000), (Z.ltb_spec cp2 0x10000);
    intros Heq; simplify_eq; Z.div_mod_to_equations; lia.
Qed.

Lemma escape_code_point_inj cp1 cp2 e1 e2 :
  (0 <= cp1 < 0x110000)%Z → (0 <= cp2 < 0x110000)%Z →
  escape_code_point cp1 ++ e1 = escape_code_point cp2 ++ e2 →
  cp1 = cp2 ∧ e1 = e2.
Proof.
  intros H1 H2 Heq. unfold escape_code_point in Heq.
  pose proof (utf8_octets cp1 H1) as O1. pose proof (utf8_octets cp2 H2) as O2.
  destruct (utf8_first cp1 H1) as (b1 & bs1 & E1 & C1).
  destruct (utf8_first cp2 H2) as (b2 & bs2 & E2 & C2).
  assert (length (utf8 cp1) = length (utf8 cp2)) as Hlen.
  { rewrite E1 in Heq, O1 |- *. rewrite E2 in Heq, O2 |- *. cbn [concat map] in Heq.
    rewrite <- !app_assoc in Heq.
    apply Forall_cons in O1 as [Hb1 _]. apply Forall_cons in O2 as [Hb2 _].
    apply escape_octet_app_inj in Heq as [-> _]; [|done..].
    simpl. f_equal. lia. }
  apply escape_octets_inj in Heq as [Hu ->]; [|done..].
  split; [|done]. by apply utf8_inj.
Qed.

Lemma unescaped_not_percent c : unescaped c = true → c ≠ percent.
Proof. intros U ->. by vm_compute in U. Qed.

Lemma escape_code_point_head cp :
  (0 <= cp < 0x110000)%Z → ∃ t, escape_code_point cp = percent :: t.
Proof.
  intros Hcp. destruct (utf8_first cp Hcp) as (b & bs & E & _).
  unfold escape_code_point. rewrite E. simpl. eauto.
Qed.

(** How the encoding of a non-empty string starts: with the unit
    itself, or with the escape of one code point that stands for one
    unit or for a surrogate pair. *)
Lemma encodeURIComponent_token c s e :
  is_jsstring (c :: s) → encodeURIComponent (c :: s) = Some e →
  ∃ chunk s' e',
    e = chunk ++ e' ∧ encodeURIComponent s' = Some e' ∧ is_jsstring s'
    ∧ length s' < length (c :: s)
    ∧ ((unescaped c = true ∧ chunk = [c] ∧ s = s')
       ∨ ∃ cp, (0 <= cp < 0x110000)%Z ∧ chunk = escape_code_point cp
           ∧ unescaped c = false
           ∧ ((cp = c ∧ (cp < 0x10000)%Z ∧ s = s')
              ∨ ∃ d, (0x10000 <= cp)%Z ∧ s = d :: s'
                     ∧ (0xD800 <= c <= 0xDBFF)%Z ∧ (0xDC00 <= d <= 0xDFFF)%Z
                     ∧ cp = UTF16SurrogatePairToCodePoint c d)).
Proof.
  intros Hs. pose proof Hs as Hs'. apply Forall_cons in Hs' as [Hc Hs'].
  unfold is_code_unit in Hc. simpl. destruct (unescaped c) eqn:U.
  { rewrite fmap_Some. intros (e' & He' & ->). exists [c], s, e'.
    split_and!; [done|done|done|simpl; lia|]. by left. }
  destruct (is_trailing_surrogate c) eqn:T; [done|].
  destruct (is_leading_surrogate c) eqn:L.
  - destruct s as [|d s']; [done|].
    destruct (is_trailing_surrogate d) eqn:T'; [|done].
    rewrite fmap_Some. intros (e' & He' & ->).
    apply Forall_cons in Hs' as [Hd Hs']. unfold is_code_unit in Hd.
    exists (escape_code_point (UTF16SurrogatePairToCodePoint c d)), s', e'.
    split_and!; [done|done|done|simpl; lia|]. right.
    exists (UTF16SurrogatePairToCodePoint c d).
    unfold UTF16SurrogatePairToCodePoint, is_leading_surrogate,
      is_trailing_surrogate in *.
    split; [lia|]. split; [done|]. split; [done|]. right. exists d.
    repeat split; try done; lia.
  - rewrite fmap_Some. intros (e' & He' & ->). exists (escape_code_point c), s, e'.
    split_and!; [done|done|done|simpl; lia|]. right. exists c.
    split; [lia|]. split; [done|]. split; [done|]. left.
    unfold is_leading_surrogate, is_trailing_surrogate in *.
    repeat split; try done; lia.
Qed.

Lemma encodeURIComponent_inj s1 s2 e :
  is_jsstring s1 → is_jsstring s2 →
  encodeURIComponent s1 = Some e → encodeURIComponent s2 = Some e → s1 = s2.
Proof.
  remember (length s1) as n eqn:Hn. revert s1 s2 e Hn.
  induction n as [n IH] using lt_wf_ind. intros s1 s2 e Hn Hs1 Hs2 H1 H2.
  assert (Hnil : ∀ c s, is_jsstring (c :: s) → encodeURIComponent (c :: s) ≠ Some []).
  { intros c s Hs He.
    apply encodeURIComponent_token in He
      as (chunk & s' & e' & He & _ & _ & _ & [(_ & -> & _)|(cp & Hcp & -> & _)]);
      [done| |done].
    destruct (escape_code_point_head cp Hcp) as [t Ht]. by rewrite Ht in He. }
  destruct s1 as [|c1 s1], s2 as [|c2 s2]; [done| | |].
  - injection H1 as <-. by destruct (Hnil c2 s2).
  - injection H2 as <-. by destruct (Hnil c1 s1).
  - apply encodeURIComponent_token in H1
      as (k1 & s1' & e1 & He1 & Henc1 & Hs1' & Hlt1 & Hk1); [|done].
    apply encodeURIComponent_token in H2
      as (k2 & s2' & e2 & He2 & Henc2 & Hs2' & Hlt2 & Hk2); [|done].
    rewrite He1 in He2.
    assert (Hrest : e1 = e2 → s1' = s2').
    { intros <-. eapply (IH (length s1')); [lia|done|done|done|done..]. }
    destruct Hk1 as [(U1 & -> & <-)|(cp1 & Hcp1 & -> & U1 & Hk1)],
             Hk2 as [(U2 & -> & <-)|(cp2 & Hcp2 & -> & U2 & Hk2)].
    + injection He2 as -> He2. f_equal. by apply Hrest.
    + destruct (escape_code_point_head cp2 Hcp2) as [t Ht]. rewrite Ht in He2.
      injection He2 as -> _. by apply unescaped_not_percent in U1.
    + destruct (escape_code_point_head cp1 Hcp1) as [t Ht]. rewrite Ht in He2.
      injection He2 as <- _. by apply unescaped_not_percent in U2.
    + apply escape_code_point_inj in He2 as [<- He2]; [|done..].
      apply Hrest in He2 as <-.
      destruct Hk1 as [(-> & Hlo1 & <-)|(d1 & Hhi1 & -> & Hc1 & Hd1 & Hp1)],
               Hk2 as [(Hc & Hlo2 & <-)|(d2 & Hhi2 & -> & Hc2 & Hd2 & Hp2)].
      * by rewrite Hc.
      * lia.
      * lia.
      * unfold UTF16SurrogatePairToCodePoint in *.
        assert (c1 = c2) by lia. assert (d1 = d2) by lia. by subst.
Qed.

(** X17. Two different string paths never get the same href: from
    the href that line 65 builds, the path can be told. *)
Theorem download_href_injective f1 f2 pg1 pg2 h :
  is_jsstring f1 → is_jsstring f2 →
  download_href (Some (JStr f1)) pg1 = (pg1, Ok h) →
  download_href (Some (JStr f2)) pg2 = (pg2, Ok h) →
  f1 = f2.
Proof.
  intros Hf1 Hf2. unfold download_href. simpl ToString.
  erewrite !bind_run by reflexivity.
  destruct (encodeURIComponent f1) as [e1|] eqn:E1; [|done].
  destruct (encodeURIComponent f2) as [e2|] eqn:E2; [|done].
  intros [= <-] [= ->].
  by apply (encodeURIComponent_inj f1 f2 e1).
Qed.

Lemma download_href_injective_witness :
  is_jsstring (lit "out/read me.md")
  ∧ download_href (Some (JStr (lit "out/read me.md"))) index_html
    = (index_html, Ok (lit "/download/out%2Fread%20me.md"))
  ∧ lit "out/read me.md" = lit "out/read me.md".
Proof.
  assert (H1 : is_jsstring (lit "out/read me.md")) by apply lit_is_jsstring.
  assert (H2 : download_href (Some (JStr (lit "out/read me.md"))) index_html
               = (index_html, Ok (lit "/download/out%2Fread%20me.md"))) by reflexivity.
  split_and!; [exact H1|exact H2|].
  exact (download_href_injective _ _ _ _ _ H1 H1 H2 H2).
Defined.

(** *** A body without the output text *)

Lemma own_property_snoc fields k v k' :
  own_property (fields ++ [(k, v)]) k'
  = if decide (k = k') then Some v else own_property fields k'.
Proof.
  induction fields as [|[k0 v0] fields IH]; [done|].
  simpl. rewrite IH. by destruct (decide (k = k')).
Qed.

(** X18. A body whose [refined_output] is missing or null is handled
    exactly as the same body with the empty string for it: line 33
    does not throw, it empties the output pane, and the handler goes
    on as it would for that body. *)
Theorem submit_missing_output_as_empty env pg fields :
  own_property fields (lit "refined_output") = None
    ∨ own_property fields (lit "refined_output") = Some JNull →
  let fields' := fields ++ [(lit "refined_output", JStr [])] in
  let pg' := (submit env (Response true (Some (JObj fields))) pg).1 in
  submit env (Response true (Some (JObj fields))) pg
  = submit env (Response true (Some (JObj fields'))) pg
  ∧ own_property fields' (lit "refined_output") = Some (JStr [])
  ∧ (∀ k, k ≠ lit "refined_output" → own_property fields' k = own_property fields k)
  ∧ (indicators_ok env pg = true → containers_ok env pg = true →
     children_at pg' (outputPre env) = []).
Proof.
  intros Hro fields' pg'.
  assert (Hsame : ∀ k, k ≠ lit "refined_output" →
            own_property fields' k = own_property fields k).
  { intros k Hk. unfold fields'. rewrite own_property_snoc.
    by rewrite decide_False by done. }
  assert (Hnew : own_property fields' (lit "refined_output") = Some (JStr [])).
  { unfold fields'. rewrite own_property_snoc. by rewrite decide_True. }
  split_and!; [|done|done|].
  - unfold submit, settle, attempt, display, populate, show_output, list_files, list_downloads,
      get_field.
    rewrite Hnew, !Hsame by done.
    by destruct Hro as [-> | ->].
  - intros Hind Hcont.
    destruct (containers_ok_inv _ _ Hcont)
      as (o & fl & d & Eo & Ef & Ed & Ho & Hf & Hd & Hof & Hod & Hfd).
    destruct (submit_begin_run env pg Hind) as (pg1 & Hbegin & Hlen1).
    set (data := JObj fields).
    set (pgA := page_alter o (with_children (fun _ => [])) pg1).
    set (tail := list_files env data >> list_downloads env data >> reveal env >>
                 activateTab env (tabButtons env !! 0)).
    assert (Hshow : show_output env data pg1 = (pgA, Ok tt)).
    { unfold data, show_output, get_field. rewrite Eo.
      erewrite bind_run by reflexivity. unfold set_textContent.
      erewrite bind_run by (destruct Hro as [-> | ->]; reflexivity).
      apply update_run. lia. }
    assert (HA : display env data pg1 = tail pgA).
    { unfold display, populate. rewrite ?bind_assoc.
      erewrite bind_run by exact Hshow. unfold tail. by rewrite ?bind_assoc. }
    assert (Hpg' : pg' = (try_catch tail (on_error env) pgA).1).
    { unfold pg', submit, settle. erewrite bind_run by exact Hbegin.
      by erewrite (try_catch_cong (attempt env (Response true (Some data)))) by exact HA. }
    assert (frame (fun i => i = fl ∨ i = d) pgA pg') as [_ Hfr].
    { rewrite Hpg'. apply stable_try_catch; [|apply stable_on_error].
      unfold tail.
      apply stable_bind; [apply stable_list_files; intros i Hi; left; congruence|].
      intros _.
      apply stable_bind; [apply stable_list_downloads; intros i Hi; right; congruence|].
      intros _. apply stable_bind; [apply stable_reveal|].
      intros _. apply stable_activateTab. }
    rewrite Eo, Hfr by (intros [->| ->]; done).
    unfold pgA. by rewrite children_at_page_alter_eq by lia.
Qed.

Lemma submit_missing_output_as_empty_witness :
  own_property [ (lit "created_files", JArr []) ] (lit "refined_output") = None
  ∧ submit (DOMContentLoaded index_html)
      (Response true (Some (JObj [ (lit "created_files", JArr []) ]))) index_html
    = submit (DOMContentLoaded index_html)
        (Response true (Some (JObj ([ (lit "created_files", JArr []) ]
                                    ++ [(lit "refined_output", JStr [])])))) index_html.
Proof.
  assert (H : own_property [ (lit "created_files", JArr []) ] (lit "refined_output") = None)
    by reflexivity.
  split; [exact H|].
  exact (proj1 (submit_missing_output_as_empty (DOMContentLoaded index_html) index_html
                  [ (lit "created_files", JArr []) ] (or_introl H))).
Defined.

End ScriptMore.

(** ** The handlers over time *)

(** The submit handler is suspended between its start and its end;
    here the blocks of several handlers follow one another in any
    order ([run]). *)

Module ScriptRuns.
Import JS Json Script JSFacts ScriptFacts ScriptMore.

#[local] Set Warnings "-clear-no-such-hyp".

Lemma w_settle toks env net :
  "hidden" ∈ toks → "active" ∈ toks → stable (within toks true) (settle env net).
Proof.
  intros Hh Ha. unfold settle. apply w_try_catch; [by apply w_attempt|].
  intros e. by apply w_on_error.
Qed.

Lemma w_run_step env s : stable (within ["hidden"; "active"] true) (run_step env s).
Proof.
  destruct s as [|net|b]; simpl.
  - apply w_submit_begin. by left.
  - apply w_settle; [by left|by right; left].
  - apply w_activateTab. by right; left.
Qed.

Lemma run_cons env s steps pg :
  run env (s :: steps) pg = run env steps (run_step env s pg).1.
Proof. done. Qed.

Lemma within_run env steps pg :
  within ["hidden"; "active"] true pg (run env steps pg).
Proof.
  revert pg. induction steps as [|s steps IH]; intros pg; [apply within_refl|].
  rewrite run_cons. eapply within_trans; [apply w_run_step|apply IH].
Qed.

(** No sequence of handlers changes an id or a data-tab attribute, so
    the conditions on the page hold at every moment once they hold. *)
Lemma skeleton_run env steps pg : skeleton (run env steps pg) = skeleton pg.
Proof. by destruct (within_run env steps pg) as (H & _). Qed.

Lemma quiet_settle net : may_reveal (Settle net) = false → request_failed net.
Proof.
  unfold request_failed. destruct net as [|[] [data|]]; simpl; intros H; try done; eauto.
Qed.

Lemma settle_failed env net pg l :
  request_failed net → loadingDiv env = Some l → l < length (elements pg) →
  ∃ e, settle env net pg
       = (map_classes (only_at l (classList_add "hidden"))
            (mkPage (elements pg) (output_pre pg)
               (alerts pg ++ ["An error occurred. Please try again."])
               (console pg ++ [e])),
          Ok tt).
Proof.
  intros Hfail El Hl.
  assert (∃ e, attempt env net = throw e) as [e He].
  { destruct Hfail as [->|[[body ->]| ->]]; simpl; eauto. }
  exists e. unfold settle, try_catch. rewrite He. unfold throw.
  by apply on_error_form.
Qed.

Lemma settle_failed_hidden env net pg :
  indicators_ok env pg = true → request_failed net →
  is_hidden pg (resultDiv env) = true →
  is_hidden (settle env net pg).1 (resultDiv env) = true.
Proof.
  intros Hind Hfail Hh.
  destruct (indicators_ok_inv _ _ Hind) as (l & r & El & Er & Hl & Hr).
  destruct (settle_failed env net pg l Hfail El Hl) as [e ->]. cbn [fst].
  rewrite Er in *. destruct (decide (l = r)) as [->|Hne].
  - apply hidden_after_add. simpl. lia.
  - by rewrite is_hidden_other by done.
Qed.

Lemma quiet_step_keeps_hidden env s pg :
  indicators_ok env pg = true → may_reveal s = false →
  is_hidden pg (resultDiv env) = true →
  is_hidden (run_step env s pg).1 (resultDiv env) = true.
Proof.
  intros Hind Hq Hh. destruct s as [|net|b]; cbn [run_step].
  - destruct (indicators_ok_inv _ _ Hind) as (l & r & El & Er & Hl & Hr).
    rewrite (submit_begin_form env pg l r El Er Hl Hr), Er. cbn [fst].
    apply hidden_after_add. by rewrite length_map_classes.
  - apply settle_failed_hidden; [done|by apply quiet_settle|done].
  - pose proof (w_activateTab ["active"] false env (Some b) ltac:(by left) pg) as Hw.
    unfold click. rewrite (is_hidden_within _ _ _ _ _ Hw); [done|].
    rewrite list_elem_of_singleton. done.
Qed.

Lemma quiet_run_keeps_hidden env steps pg :
  indicators_ok env pg = true → Forall (fun s => may_reveal s = false) steps →
  is_hidden pg (resultDiv env) = true →
  is_hidden (run env steps pg) (resultDiv env) = true.
Proof.
  revert pg. induction steps as [|s steps IH]; intros pg Hind Hq Hh; [done|].
  apply Forall_cons in Hq as [Hs Hq]. rewrite run_cons. apply IH; [|done|].
  - rewrite <- Hind. apply skeleton_indicators_ok.
    apply (skeleton_run env [s] pg).
  - by apply quiet_step_keeps_hidden.
Qed.

(** C2 (amended). When the request of a submission fails (fetch
    throws, the status is not ok, or the body is not JSON), the catch
    block shows one alert, leaves the loading indicator hidden and
    changes the content of no pane, whatever other handlers ran since
    the submission began; it does not show the result section, which
    is hidden at that moment unless another submission displayed its
    response in between. *)
Theorem submit_failure_alerts env net pg between :
  indicators_ok env pg = true → request_failed net →
  let pg1 := run env (Begin :: between) pg in
  let pg' := (settle env net pg1).1 in
  (settle env net pg1).2 = Ok tt
  ∧ alerts pg' = alerts pg1 ++ ["An error occurred. Please try again."]
  ∧ is_hidden pg' (loadingDiv env) = true
  ∧ (∀ r, children_at pg' r = children_at pg1 r ∧ text_at pg' r = text_at pg1 r)
  ∧ (is_hidden pg1 (resultDiv env) = true → is_hidden pg' (resultDiv env) = true)
  ∧ (Forall (fun s => may_reveal s = false) between →
     is_hidden pg' (resultDiv env) = true).
Proof.
  intros Hind Hfail pg1 pg'.
  assert (Hind1 : indicators_ok env pg1 = true).
  { rewrite <- Hind. apply skeleton_indicators_ok, skeleton_run. }
  destruct (indicators_ok_inv _ _ Hind1) as (l & r & El & Er & Hl & Hr).
  destruct (settle_failed env net pg1 l Hfail El Hl) as [e Hrun].
  assert (Hkeep : is_hidden pg1 (resultDiv env) = true →
                  is_hidden pg' (resultDiv env) = true)
    by (by apply settle_failed_hidden).
  split_and!; [by rewrite Hrun|by unfold pg'; rewrite Hrun| | |done|].
  - unfold pg'. rewrite Hrun, El. apply hidden_after_add. simpl. lia.
  - intros x. unfold pg'. rewrite Hrun. cbn [fst].
    by rewrite children_at_map_classes, text_at_map_classes.
  - intros Hq. apply Hkeep. unfold pg1. rewrite run_cons.
    assert (Hind0 : indicators_ok env (run_step env Begin pg).1 = true).
    { rewrite <- Hind. apply skeleton_indicators_ok. apply (skeleton_run env [Begin] pg). }
    apply quiet_run_keeps_hidden; [done|done|].
    destruct (indicators_ok_inv _ _ Hind) as (l0 & r0 & El0 & Er0 & Hl0 & Hr0).
    cbn [run_step]. rewrite (submit_begin_form env pg l0 r0 El0 Er0 Hl0 Hr0), Er0.
    cbn [fst]. apply hidden_after_add. by rewrite length_map_classes.
Qed.

Lemma submit_failure_alerts_witness :
  indicators_ok (DOMContentLoaded index_html) index_html = true
  ∧ request_failed (Response false None)
  ∧ Forall (fun s => may_reveal s = false) [Click 4; Begin; Settle Rejected]
  ∧ is_hidden
      (settle (DOMContentLoaded index_html) (Response false None)
         (run (DOMContentLoaded index_html) (Begin :: [Click 4; Begin; Settle Rejected])
            index_html)).1
      (resultDiv (DOMContentLoaded index_html)) = true.
Proof.
  assert (H1 : indicators_ok (DOMContentLoaded index_html) index_html = true)
    by reflexivity.
  assert (H2 : request_failed (Response false None)) by (right; left; by eexists).
  assert (H3 : Forall (fun s => may_reveal s = false) [Click 4; Begin; Settle Rejected])
    by (repeat constructor).
  split_and!; [exact H1|exact H2|exact H3|].
  exact (proj2 (proj2 (proj2 (proj2 (proj2
    (submit_failure_alerts (DOMContentLoaded index_html) (Response false None)
       index_html [Click 4; Begin; Settle Rejected] H1 H2))))) H3).
Defined.

(** C2, as stated, fails.  Two submissions overlap: the first begins,
    the second begins, the first gets its response and shows it, the
    request of the second is rejected.  After the catch block of the
    second the alert is shown and the result section is visible, with
    the output of the first. *)
Lemma overlapping_submissions_show_result :
  indicators_ok (DOMContentLoaded index_html) index_html = true
  ∧ request_failed Rejected
  ∧ alerts (settle (DOMContentLoaded index_html) Rejected
              (run (DOMContentLoaded index_html)
                 [Begin; Begin; Settle (Response true (Some example_body))]
                 index_html)).1
    = ["An error occurred. Please try again."]
  ∧ is_hidden (settle (DOMContentLoaded index_html) Rejected
                 (run (DOMContentLoaded index_html)
                    [Begin; Begin; Settle (Response true (Some example_body))]
                    index_html)).1
      (resultDiv (DOMContentLoaded index_html)) = false
  ∧ text_at (settle (DOMContentLoaded index_html) Rejected
               (run (DOMContentLoaded index_html)
                  [Begin; Begin; Settle (Response true (Some example_body))]
                  index_html)).1
      (outputPre (DOMContentLoaded index_html)) = lit "A calculator.".
Proof. split_and!; [reflexivity|by left|by vm_compute..]. Qed.

(** *** Tabs *)





End ScriptRuns.

